(** * PDF API: the document transformation engine

    A shallow embedding of [app/services/pdf_service.py] (class
    [PDFService]) together with the request checks of
    [app/api/v1/pdf_manipulation.py] and [app/models/requests.py], and the
    properties of the engine stated over it.

    Conventions of the embedding.
    - Python [int] is [Z]; [str] is [string] (a sequence of one-byte
      characters, so the embedding covers ASCII text); [None] for an
      [Optional] argument is [None].
    - A raised exception is the [Err] side of [result]; only the class of
      the exception is kept, not its message.
    - The PDF libraries (PyPDF2, PyMuPDF) are outside the repository.  A
      byte buffer holding a PDF is represented by what the library reads
      from it: the sequence of pages for PyPDF2, the page/image-object
      table for PyMuPDF.  A buffer that PyMuPDF writes is represented by
      the call of [save] that writes it. *)

From Stdlib Require Import ZArith QArith Qminmax Qround Lia Ascii String DecimalString.
From stdpp Require Import gmap strings list sorting.

Local Open Scope Z_scope.

(** ** Exceptions and the error monad *)

Inductive exn : Type :=
  | ValueError
  | IndexError
  | KeyError
  | ZeroDivisionError
  | HTTPException (status_code : Z).

Inductive result (A : Type) : Type :=
  | Ok (a : A)
  | Err (e : exn).

Arguments Ok {A} a.
Arguments Err {A} e.

Definition bind {A B : Type} (m : result A) (k : A -> result B) : result B :=
  match m with
  | Ok a => k a
  | Err e => Err e
  end.

Notation "'let*' x ':=' m 'in' k" := (bind m (fun x => k))
  (at level 10, x name, m at level 100, k at level 200).

(** [for x in xs: acc = body(acc, x)], stopping at the first exception. *)
Fixpoint for_each {A S : Type} (body : S -> A -> result S) (xs : list A) (s : S)
  : result S :=
  match xs with
  | [] => Ok s
  | x :: xs' => let* s' := body s x in for_each body xs' s'
  end.

(** ** Python built-ins used by the service *)

Module Py.

(** [range(lo, hi)] as a list. *)
Definition range (lo hi : Z) : list Z :=
  map (fun k : nat => lo + Z.of_nat k) (seq 0 (Z.to_nat (hi - lo))).

(** Truth value of an optional string / integer: [None], the empty
    string and [0] are false. *)
Definition truthy_str (s : option string) : bool :=
  match s with
  | None | Some EmptyString => false
  | Some _ => true
  end.

Definition truthy_int (n : option Z) : bool :=
  match n with
  | None => false
  | Some z => negb (z =? 0)
  end.

Definition truthy_list {A} (l : option (list A)) : bool :=
  match l with
  | None | Some [] => false
  | Some _ => true
  end.

(** [s.replace(c, '')] for a one-character [c]. *)
Fixpoint remove_char (c : ascii) (s : string) : string :=
  match s with
  | EmptyString => EmptyString
  | String a r =>
      if Ascii.eqb a c then remove_char c r else String a (remove_char c r)
  end.

(** [c in s]. *)
Fixpoint contains (c : ascii) (s : string) : bool :=
  match s with
  | EmptyString => false
  | String a r => Ascii.eqb a c || contains c r
  end.

(** [s.split(sep)] for a one-character separator: never the empty list,
    [''.split(',') == ['']]. *)
Fixpoint split (sep : ascii) (s : string) : list string :=
  match s with
  | EmptyString => [EmptyString]
  | String a r =>
      if Ascii.eqb a sep then EmptyString :: split sep r
      else match split sep r with
           | [] => [String a EmptyString]
           | h :: t => String a h :: t
           end
  end.

(** White space as [str.strip()] and [str.split()] see it
    ([str.isspace]): tab, line feed, vertical tab, form feed, carriage
    return, the four separators 0x1c-0x1f and the space. *)
Definition is_space (c : ascii) : bool :=
  let n := Z.of_nat (nat_of_ascii c) in
  ((9 <=? n) && (n <=? 13)) || ((28 <=? n) && (n <=? 32)).

(** White space as [int()] skips it around the literal: tab, line feed,
    vertical tab, form feed, carriage return and the space, not the
    separators 0x1c-0x1f ([int('\x1c8')] raises [ValueError]). *)
Definition is_int_space (c : ascii) : bool :=
  let n := Z.of_nat (nat_of_ascii c) in
  ((9 <=? n) && (n <=? 13)) || (n =? 32).

Definition is_digit (c : ascii) : bool :=
  let n := Z.of_nat (nat_of_ascii c) in
  (48 <=? n) && (n <=? 57).

Definition digit_value (c : ascii) : Z := Z.of_nat (nat_of_ascii c) - 48.

(** Dropping the characters that [space] accepts from the left end, from
    the right end, and from both. *)
Fixpoint lstrip_of (space : ascii -> bool) (s : string) : string :=
  match s with
  | EmptyString => EmptyString
  | String a r => if space a then lstrip_of space r else s
  end.

Fixpoint rstrip_of (space : ascii -> bool) (s : string) : string :=
  match s with
  | EmptyString => EmptyString
  | String a r =>
      match rstrip_of space r with
      | EmptyString => if space a then EmptyString else String a EmptyString
      | r' => String a r'
      end
  end.

Definition strip_of (space : ascii -> bool) (s : string) : string :=
  rstrip_of space (lstrip_of space s).

(** [s.strip()] *)
Definition strip (s : string) : string := strip_of is_space s.

(** The digit part of an integer literal: decimal digits, where a single
    underscore may stand between two digits.  [seen] tells whether the
    previous character was a digit. *)
Fixpoint int_digits (acc : Z) (seen : bool) (s : string) : option Z :=
  match s with
  | EmptyString => if seen then Some acc else None
  | String a r =>
      if is_digit a then int_digits (10 * acc + digit_value a) true r
      else if Ascii.eqb a "_" && seen then int_digits acc false r
      else None
  end.

(** [int(s)] for a string: surrounding white space, an optional sign,
    then the digits; anything else raises [ValueError].  (CPython also
    raises [ValueError] for a literal of more than
    [sys.get_int_max_str_digits()] digits, 4300 unless configured
    otherwise; that limit is not represented.) *)
Definition int (s : string) : result Z :=
  let body :=
    match strip_of is_int_space s with
    | EmptyString => None
    | String a r =>
        if Ascii.eqb a "+" then int_digits 0 false r
        else if Ascii.eqb a "-" then option_map Z.opp (int_digits 0 false r)
        else int_digits 0 false (String a r)
    end in
  match body with
  | Some z => Ok z
  | None => Err ValueError
  end.

(** [s.lower()] on ASCII letters. *)
Definition lower_char (c : ascii) : ascii :=
  let n := nat_of_ascii c in
  if (65 <=? n)%nat && (n <=? 90)%nat then ascii_of_nat (n + 32) else c.

Fixpoint lower (s : string) : string :=
  match s with
  | EmptyString => EmptyString
  | String a r => String (lower_char a) (lower r)
  end.

(** [[f(x) for x in xs]] where [f] may raise. *)
Fixpoint comprehension {A B} (f : A -> result B) (xs : list A) : result (list B) :=
  match xs with
  | [] => Ok []
  | x :: xs' =>
      let* y := f x in
      let* ys := comprehension f xs' in
      Ok (y :: ys)
  end.

(** [enumerate(xs)]. *)
Definition enumerate {A} (xs : list A) : list (Z * A) :=
  imap (fun k x => (Z.of_nat k, x)) xs.

(** [xs[i]] on a sequence: negative indices count from the end, an index
    outside [-len, len) raises [IndexError]. *)
Definition getitem {A} (xs : list A) (i : Z) : result A :=
  let n := Z.of_nat (length xs) in
  let j := if i <? 0 then i + n else i in
  if (0 <=? j) && (j <? n) then
    match xs !! Z.to_nat j with
    | Some x => Ok x
    | None => Err IndexError
    end
  else Err IndexError.

(** [sorted(set(xs))] on integers. *)
Definition sorted_set (xs : list Z) : list Z :=
  merge_sort Z.le (elements (list_to_set xs : gset Z)).

End Py.

(** ** The PDF libraries *)

Module PyPDF2.

(** A page as [PdfReader] yields it: its [/Rotate] entry and the rest of
    the page dictionary ([body], opaque here). *)
Record PageObject : Type := { body : nat; Rotate : Z }.

(** Modelled from the spec: [PageObject.rotate] belongs to PyPDF2, which
    is not part of the repository; section 4.5 gives its effect as
    "additive, modulo 360" on the existing rotation value of the page. *)
Definition rotate (angle : Z) (page : PageObject) : PageObject :=
  {| body := body page; Rotate := (Rotate page + angle) mod 360 |}.

End PyPDF2.

(** What [PdfReader(io.BytesIO(pdf_data)).pages] reads from a buffer, and
    what a [PdfWriter]/[PdfMerger] writes: the page sequence. *)
Abbreviation Pdf := (list PyPDF2.PageObject).

Module fitz.

(** The PyMuPDF operations the service calls.  They are an interface: the
    service is written against them, the library implements them. *)
Class Library : Type := {
  Pixmap : Type;
  Stream : Type;
  (** [pix.width], [pix.height], [pix.n], [pix.alpha] *)
  width : Pixmap -> Z;
  height : Pixmap -> Z;
  n : Pixmap -> Z;
  alpha : Pixmap -> Z;
  (** [fitz.Pixmap(doc, xref)]: the pixmap of a stored image stream *)
  decode : Stream -> Pixmap;
  (** [fitz.Pixmap(pix, 0)]: a copy without the alpha channel *)
  drop_alpha : Pixmap -> Pixmap;
  (** [pix.rescale(fx, fy)] *)
  rescale : Q -> Q -> Pixmap -> Pixmap;
  (** [pix.tobytes(fmt)] and [pix.tobytes(fmt, quality=q)] *)
  tobytes : string -> option Z -> Pixmap -> Stream;
  (** dropping the alpha channel keeps the dimensions *)
  drop_alpha_width : forall pix, width (drop_alpha pix) = width pix;
  drop_alpha_height : forall pix, height (drop_alpha pix) = height pix
}.

(** An image object of the cross-reference table: its [/Filter] entry and
    its stream. *)
Record ImageObject `{Library} : Type := {
  Filter : option string;
  stream : Stream
}.

(** An opened document: for every page the xrefs that
    [page.get_images()] lists, and the image objects by xref. *)
Record Document `{Library} : Type := {
  page_images : list (list Z);
  xref_table : gmap Z ImageObject
}.

(** [pdf_document.save(output, garbage=..., deflate=..., clean=...)]: the
    document as it stands when [save] is called, and the options.  The
    bytes that the library writes are determined by these; what the
    options make it do while writing (with [garbage=4] it leaves out
    objects nothing refers to, renumbers the table and merges duplicate
    objects; [deflate] and [clean] rewrite streams) is the library's
    work and is not described here. *)
Record Saved `{Library} : Type := {
  saved_document : Document;
  garbage : Z;
  deflate : bool;
  clean : bool
}.

End fitz.

(** ** PDFService *)

Module PDFService.

(** One comma-separated piece of the expression, appended to
    [page_list]. *)
Definition parse_range_str (total_pages : Z) (page_list : list Z)
    (range_str : string) : result (list Z) :=
  if Py.contains "-" range_str then
    match Py.split "-" range_str with
    | [s; e] =>
        let* start := Py.int s in
        let* end_ := Py.int e in
        Ok (page_list ++ Py.range (start - 1) (Z.min end_ total_pages))
    | _ => Err ValueError
    end
  else
    let* num := Py.int range_str in
    let page_num := num - 1 in
    if (0 <=? page_num) && (page_num <? total_pages)
    then Ok (page_list ++ [page_num])
    else Ok page_list.

Definition parse_page_ranges (pages : option string) (total_pages : Z)
  : result (list Z) :=
  match pages with
  | None | Some EmptyString => Ok (Py.range 0 total_pages)
  | Some pages =>
      let ranges := Py.split "," (Py.remove_char " " pages) in
      let* page_list := for_each (parse_range_str total_pages) ranges [] in
      Ok (Py.sorted_set page_list)
  end.

(** [self.parse_page_ranges(pages, total_pages) if pages else
    range(total_pages)], as written in [rotate_pdf], [add_watermark],
    [extract_text] and [extract_images]. *)
Definition pages_or_all (pages : option string) (total_pages : Z)
  : result (list Z) :=
  if Py.truthy_str pages then parse_page_ranges pages total_pages
  else Ok (Py.range 0 total_pages).

Definition merge_pdfs (pdf_files : list Pdf) (order : option (list Z))
  : result Pdf :=
  let* pdf_files :=
    match order with
    | Some (i :: rest) => Py.comprehension (Py.getitem pdf_files) (i :: rest)
    | Some [] | None => Ok pdf_files
    end in
  for_each (fun merger pdf_reader => Ok (merger ++ pdf_reader)) pdf_files [].

(** The pages [range(start, end)] of the reader, added to a new writer. *)
Definition write_pages (pdf_reader : Pdf) (page_nums : list Z) : result Pdf :=
  for_each
    (fun writer page_num =>
       let* page := Py.getitem pdf_reader page_num in
       Ok (writer ++ [page]))
    page_nums [].

Definition split_chunks (pdf_reader : Pdf) (chunks : Z) : result (list Pdf) :=
  let total_pages := Z.of_nat (length pdf_reader) in
  let pages_per_chunk := total_pages / chunks in
  let remainder := total_pages mod chunks in
  let* final :=
    for_each
      (fun '(start, results) i =>
         let end_ := start + pages_per_chunk + (if i <? remainder then 1 else 0) in
         let* output := write_pages pdf_reader (Py.range start end_) in
         Ok (end_, results ++ [output]))
      (Py.range 0 chunks) (0, []) in
  Ok (snd final).

(** The [else] branch of [split_pdf]: one output with the pages the
    expression selects. *)
Definition split_pages (pdf_reader : Pdf) (pages : option string)
  : result (list Pdf) :=
  let total_pages := Z.of_nat (length pdf_reader) in
  let* page_list := parse_page_ranges pages total_pages in
  let* output := write_pages pdf_reader page_list in
  Ok [output].

Definition split_pdf (pdf_data : Pdf) (pages : option string)
    (chunks : option Z) : result (list Pdf) :=
  if Py.truthy_int chunks
  then split_chunks pdf_data (default 0 chunks)
  else split_pages pdf_data pages.

Definition rotate_pdf (pdf_data : Pdf) (angle : Z) (pages : option string)
  : result Pdf :=
  let total_pages := Z.of_nat (length pdf_data) in
  let* pages_to_rotate := pages_or_all pages total_pages in
  for_each
    (fun pdf_writer page_num =>
       let* page := Py.getitem pdf_data page_num in
       let page :=
         if bool_decide (page_num ∈ pages_to_rotate)
         then PyPDF2.rotate angle page else page in
       Ok (pdf_writer ++ [page]))
    (Py.range 0 total_pages) [].

Section WithFitz.
Context `{fitz.Library}.
Import fitz.

Record CompressionSetting : Type := {
  image_quality : Z;
  remove_duplication : bool
}.

Definition compression_settings : gmap string CompressionSetting :=
  <["low"%string := {| image_quality := 85; remove_duplication := true |}]>
  (<["medium"%string := {| image_quality := 70; remove_duplication := true |}]>
  (<["high"%string := {| image_quality := 50; remove_duplication := true |}]>
  (<["extreme"%string := {| image_quality := 30; remove_duplication := true |}]>
   ∅))).

(** [compression_settings.get(compression_level,
    compression_settings["medium"])] *)
Definition settings_for (compression_level : string)
  : result CompressionSetting :=
  let* medium :=
    match compression_settings !! "medium"%string with
    | Some st => Ok st
    | None => Err KeyError
    end in
  Ok (default medium (compression_settings !! compression_level)).

(** [a / b] on integers: the quotient as a fraction (Python rounds it
    to the nearest float). *)
Definition truediv (a b : Z) : result Q :=
  if b =? 0 then Err ZeroDivisionError
  else Ok (inject_Z a / inject_Z b)%Q.

(** [fitz.Pixmap(pdf_document, xref)] *)
Definition load_pixmap (table : gmap Z ImageObject) (xref : Z)
  : result Pixmap :=
  match table !! xref with
  | Some obj => Ok (decode (stream obj))
  | None => Err ValueError
  end.

(** The body of the loop over [image_list] in [compress_pdf]. *)
Definition compress_image (target_dpi : Z) (settings : CompressionSetting)
    (table : gmap Z ImageObject) (xref : Z)
  : result (gmap Z ImageObject) :=
  let* pix := load_pixmap table xref in
  if n pix - alpha pix <? 4 then
    let* pix :=
      if (width pix >? target_dpi) || (height pix >? target_dpi) then
        let pix := drop_alpha pix in
        let* fx := truediv target_dpi (width pix) in
        let* fy := truediv target_dpi (height pix) in
        let factor := Qmin fx fy in
        Ok (rescale factor factor pix)
      else Ok pix in
    let img_data := tobytes "jpeg" (Some (image_quality settings)) pix in
    Ok (<[xref := {| Filter := Some "[/DCTDecode]"%string;
                     stream := img_data |}]> table)
  else Ok table.

(** The returned buffer is what [save] writes: it is represented by the
    call of [save], that is the document after the loop over the pages
    and the options [garbage=4, deflate=True, clean=True].  The second
    component of the source's result, the ratio
    [(1 - len(compressed_data) / original_size) * 100], is a function
    of byte lengths and is not represented. *)
Definition compress_pdf (pdf_data : Document) (compression_level : string)
    (target_dpi : Z) : result Saved :=
  let* settings := settings_for compression_level in
  let* table :=
    for_each
      (fun table image_list =>
         for_each (compress_image target_dpi settings) image_list table)
      (page_images pdf_data) (xref_table pdf_data) in
  Ok {| saved_document :=
          {| page_images := page_images pdf_data; xref_table := table |};
        garbage := 4; deflate := true; clean := true |}.

Record ExtractedImage : Type := {
  page : Z;
  index : Z;
  img_width : Z;
  img_height : Z;
  data : Stream;
  format : string
}.

(** The body of the loop over [enumerate(image_list)] in
    [extract_images]. *)
Definition extract_image (table : gmap Z ImageObject) (page_num : Z)
    (min_width min_height : Z) (image_format : string)
    (extracted_images : list ExtractedImage) (entry : Z * Z)
  : result (list ExtractedImage) :=
  let '(img_index, xref) := entry in
  let* pix := load_pixmap table xref in
  if (width pix >=? min_width) && (height pix >=? min_height) then
    let img_data :=
      if bool_decide (Py.lower image_format ∈ ["jpg"%string; "jpeg"%string])
      then tobytes "jpeg" None pix
      else tobytes "png" None pix in
    Ok (extracted_images ++
        [{| page := page_num + 1; index := img_index;
            img_width := width pix; img_height := height pix;
            data := img_data; format := image_format |}])
  else Ok extracted_images.

Definition extract_images (pdf_data : Document) (pages : option string)
    (min_width min_height : Z) (image_format : string)
  : result (list ExtractedImage) :=
  let total_pages := Z.of_nat (length (page_images pdf_data)) in
  let* pages_to_extract := pages_or_all pages total_pages in
  for_each
    (fun extracted_images page_num =>
       let* image_list := Py.getitem (page_images pdf_data) page_num in
       for_each
         (extract_image (xref_table pdf_data) page_num
            min_width min_height image_format)
         (Py.enumerate image_list) extracted_images)
    pages_to_extract [].

End WithFitz.

End PDFService.

(** ** Request models ([app/models/requests.py]) *)

Module Requests.

Record MergePDFRequest : Type := {
  urls : option (list string);
  order : option (list Z)
}.

(** The validator of [order]: it sees the value [v] and the already
    validated [urls]. *)
Definition validate_order (v : option (list Z)) (urls : option (list string))
  : result (option (list Z)) :=
  if Py.truthy_list v && Py.truthy_list urls then
    if bool_decide (length (default [] v) ≠ length (default [] urls))
    then Err ValueError
    else Ok v
  else Ok v.

(** Building the request object runs the validator. *)
Definition new_MergePDFRequest (urls : option (list string))
    (order : option (list Z)) : result MergePDFRequest :=
  let* order := validate_order order urls in
  Ok {| urls := urls; order := order |}.

End Requests.

(** ** Route handlers ([app/api/v1/pdf_manipulation.py])

    Every handler is one [try] block closed by [except Exception as e:
    raise HTTPException(status_code=500, ...)]: [catch_all].  Since
    [HTTPException] is an [Exception], the 400 errors that a handler
    raises inside its [try] block leave the handler as status 500.

    [merge_pdfs_call] and [split_pdf_call] are the first statements of the
    [try] blocks of the handlers [merge_pdfs] and [split_pdf], up to and
    including the call of the service, applied to the uploaded documents
    once [validate_pdf_file] has accepted them (one buffer per file, so
    [len(files)] is the number of buffers).  They are parts of a handler,
    not handlers: the handlers themselves are [Handlers.merge_pdfs] and
    [Handlers.split_pdf] below. *)

Module Routes.

Definition catch_all {A} (r : result A) : result A :=
  match r with
  | Ok a => Ok a
  | Err _ => Err (HTTPException 500)
  end.

(** [[int(x.strip()) for x in order.split(',')]] *)
Definition order_list_of (order : string) : result (list Z) :=
  Py.comprehension (fun x => Py.int (Py.strip x)) (Py.split "," order).

(** "Parse order if provided" in [merge_pdfs]. *)
Definition parse_order (n_files : nat) (order : option string)
  : result (option (list Z)) :=
  match order with
  | None | Some EmptyString => Ok None
  | Some order =>
      let attempt :=
        let* order_list := order_list_of order in
        if bool_decide (length order_list ≠ n_files)
        then Err ValueError
        else Ok (Some order_list) in
      match attempt with
      | Err ValueError => Err (HTTPException 400)
      | r => r
      end
  end.

Definition merge_pdfs_call (pdf_contents : list Pdf) (order : option string)
  : result Pdf :=
  let* order_list := parse_order (length pdf_contents) order in
  PDFService.merge_pdfs pdf_contents order_list.

Definition split_pdf_call (pdf_content : Pdf) (pages : option string)
    (chunks : option Z) : result (list Pdf) :=
  if Py.truthy_str pages && Py.truthy_int chunks
  then Err (HTTPException 400)
  else if negb (Py.truthy_str pages) && negb (Py.truthy_int chunks)
  then Err (HTTPException 400)
  else PDFService.split_pdf pdf_content pages chunks.

End Routes.

(** ** The page range grammar (section 6 of the specification)

    [range-list = token *("," token)], [token = number / number "-" number],
    a number being a non-empty run of decimal digits. *)

Module Grammar.

Fixpoint all_digits (s : string) : bool :=
  match s with
  | EmptyString => true
  | String a r => Py.is_digit a && all_digits r
  end.

Definition is_number (s : string) : bool :=
  match s with
  | EmptyString => false
  | String _ _ => all_digits s
  end.

(** The value of a run of digits, most significant first. *)
Fixpoint decimal (acc : Z) (s : string) : Z :=
  match s with
  | EmptyString => acc
  | String a r => decimal (10 * acc + Py.digit_value a) r
  end.

Definition value (s : string) : Z := decimal 0 s.

Inductive token : Type :=
  | Single (num : string)
  | Range (a b : string).

Definition well_formed (t : token) : bool :=
  match t with
  | Single num => is_number num
  | Range a b => is_number a && is_number b
  end.

Definition token_text (t : token) : string :=
  match t with
  | Single num => num
  | Range a b => a +:+ String "-" b
  end.

Fixpoint join (sep : ascii) (parts : list string) : string :=
  match parts with
  | [] => EmptyString
  | [x] => x
  | x :: rest => x +:+ String sep (join sep rest)
  end.

Definition range_list_text (toks : list token) : string :=
  join "," (map token_text toks).

(** The page indices one token stands for in a document of [total]
    pages. *)
Definition indices (total : Z) (t : token) : list Z :=
  match t with
  | Single num =>
      if (0 <=? value num - 1) && (value num - 1 <? total)
      then [value num - 1] else []
  | Range a b => Py.range (value a - 1) (Z.min (value b) total)
  end.

End Grammar.

(** ** Sample documents *)

Definition sample_page (k : nat) : PyPDF2.PageObject :=
  {| PyPDF2.body := k; PyPDF2.Rotate := 0 |}.

(** A document of [count] pages whose bodies are numbered from [first]. *)
Definition sample_pdf (first count : nat) : Pdf :=
  map sample_page (seq first count).

(** ** Chunk sizes (section 4.3) *)

(** Size of group [i] when [total] pages go into [chunks] groups:
    [floor(total/chunks)], one more for the first [total mod chunks]
    groups. *)
Definition chunk_size (total chunks i : Z) : Z :=
  total / chunks + (if i <? total mod chunks then 1 else 0).

(** Consecutive slices of [doc] of the given sizes, starting at [start]. *)
Fixpoint slices (doc : Pdf) (start : Z) (sizes : list Z) : list Pdf :=
  match sizes with
  | [] => []
  | size :: sizes' =>
      take (Z.to_nat size) (drop (Z.to_nat start) doc)
      :: slices doc (start + size) sizes'
  end.

Definition page_count (doc : Pdf) : Z := Z.of_nat (length doc).

Definition total_size (sizes : list Z) : Z := fold_right Z.add 0 sizes.

(** The chunks rule as the specification words it, for a request in
    chunks mode with the count [chunks]: exactly [chunks] outputs, output
    [i] of size [chunk_size total chunks i], the pages in their original
    order, the sizes adding up to the total and no two of them differing
    by more than one. *)
Definition chunks_rule (doc : Pdf) (pages : option string) (chunks : Z) : Prop :=
  exists outputs,
    PDFService.split_pdf doc pages (Some chunks) = Ok outputs /\
    Z.of_nat (length outputs) = chunks /\
    map page_count outputs
    = map (chunk_size (page_count doc) chunks) (Py.range 0 chunks) /\
    concat outputs = doc /\
    total_size (map page_count outputs) = page_count doc /\
    forall a b, a ∈ outputs -> b ∈ outputs -> page_count a - page_count b <= 1.

(** ** Rotation of selected pages (section 4.5) *)

Definition rotate_selected (angle : Z) (selected : list Z) (doc : Pdf) : Pdf :=
  imap (fun k page =>
          if bool_decide (Z.of_nat k ∈ selected)
          then PyPDF2.rotate angle page else page)
       doc.

(** ** The compression rule (sections 4.4 and 6) *)

Section CompressionRule.
Context `{fitz.Library}.
Import fitz.

(** Quality by named level. *)
Definition level_quality (level : string) : option Z :=
  if String.eqb level "low" then Some 85
  else if String.eqb level "medium" then Some 70
  else if String.eqb level "high" then Some 50
  else if String.eqb level "extreme" then Some 30
  else None.

Definition image_pixmap (obj : ImageObject) : Pixmap := decode (stream obj).

(** Gray or RGB: fewer than four colour components. *)
Definition gray_or_rgb (obj : ImageObject) : bool :=
  n (image_pixmap obj) - alpha (image_pixmap obj) <? 4.

Definition exceeds (target : Z) (obj : ImageObject) : bool :=
  (width (image_pixmap obj) >? target) || (height (image_pixmap obj) >? target).

(** [min(target/width, target/height)] *)
Definition downscale_factor (target : Z) (obj : ImageObject) : Q :=
  Qmin (inject_Z target / inject_Z (width (image_pixmap obj)))
       (inject_Z target / inject_Z (height (image_pixmap obj))).

(** The image object after the rule: downscaled when a side exceeds the
    target, re-encoded as JPEG at [quality], stored as a DCT stream. *)
Definition recompressed (target quality : Z) (obj : ImageObject) : ImageObject :=
  let pix :=
    if exceeds target obj
    then rescale (downscale_factor target obj) (downscale_factor target obj)
           (drop_alpha (image_pixmap obj))
    else image_pixmap obj in
  {| Filter := Some "[/DCTDecode]"%string;
     stream := tobytes "jpeg" (Some quality) pix |}.

(** The rule as the specification words it: every image listed on a
    page ends up recompressed. *)
Definition image_rule_as_stated (target quality : Z) (doc out : Document) : Prop :=
  forall (xref : Z) (obj : ImageObject),
    xref ∈ concat (page_images doc) ->
    xref_table doc !! xref = Some obj ->
    xref_table out !! xref = Some (recompressed target quality obj).

(** Every image a page lists is in the table. *)
Definition images_present (doc : Document) : Prop :=
  forall xref, xref ∈ concat (page_images doc) -> is_Some (xref_table doc !! xref).

(** A document whose pages list each image once, every listed image
    being in the table with non-zero sides. *)
Definition compressible (doc : Document) : Prop :=
  NoDup (concat (page_images doc)) /\
  forall xref, xref ∈ concat (page_images doc) ->
    exists obj, xref_table doc !! xref = Some obj /\
                width (image_pixmap obj) <> 0 /\
                height (image_pixmap obj) <> 0.

End CompressionRule.

(** ** A small implementation of the library interface

    A pixmap is its four numbers; a stream records how it was made. *)

Module Sample.

Record pixmap : Type := { w : Z; h : Z; comps : Z; transparency : Z }.

Inductive image_stream : Type :=
  | Embedded (pix : pixmap)
  | Encoded (fmt : string) (quality : option Z) (pix : pixmap).

Definition pixmap_of (s : image_stream) : pixmap :=
  match s with
  | Embedded pix | Encoded _ _ pix => pix
  end.

Definition without_alpha (pix : pixmap) : pixmap :=
  {| w := w pix; h := h pix;
     comps := comps pix - transparency pix; transparency := 0 |}.

Definition scaled (fx fy : Q) (pix : pixmap) : pixmap :=
  {| w := Z.max 1 (Qfloor (inject_Z (w pix) * fx));
     h := Z.max 1 (Qfloor (inject_Z (h pix) * fy));
     comps := comps pix; transparency := transparency pix |}.

Definition library : fitz.Library :=
  {| fitz.Pixmap := pixmap;
     fitz.Stream := image_stream;
     fitz.width := w;
     fitz.height := h;
     fitz.n := comps;
     fitz.alpha := transparency;
     fitz.decode := pixmap_of;
     fitz.drop_alpha := without_alpha;
     fitz.rescale := scaled;
     fitz.tobytes := Encoded;
     fitz.drop_alpha_width := fun _ => eq_refl;
     fitz.drop_alpha_height := fun _ => eq_refl |}.

Definition image (width height components : Z) : @fitz.ImageObject library :=
  @fitz.Build_ImageObject library None
    (Embedded {| w := width; h := height; comps := components;
                 transparency := 0 |}).

(** One page with one CMYK image of 2000 x 2000 pixels at xref 7. *)
Definition cmyk_document : @fitz.Document library :=
  {| fitz.page_images := [[7]];
     fitz.xref_table := {[ 7 := image 2000 2000 4 ]} |}.

(** Two pages; xref 3 is 50 x 2000 RGB, xref 4 is 640 x 480 gray, xref 5
    is 300 x 200 RGB. *)
Definition photo_document : @fitz.Document library :=
  {| fitz.page_images := [[3; 4]; [5]];
     fitz.xref_table :=
       <[3 := image 50 2000 3]>
       (<[4 := image 640 480 1]> {[ 5 := image 300 200 3 ]}) |}.

End Sample.

(** ** The extraction rule (section 4.9) *)

Section ExtractionRule.
Context `{fitz.Library}.
Import fitz.

Definition meets_minimum (min_width min_height : Z) (obj : ImageObject) : bool :=
  (min_width <=? width (image_pixmap obj))
  && (min_height <=? height (image_pixmap obj)).

(** The record returned for image number [img_index] of page index
    [page_num]. *)
Definition extracted (page_num img_index : Z) (image_format : string)
    (obj : ImageObject) : PDFService.ExtractedImage :=
  {| PDFService.page := page_num + 1;
     PDFService.index := img_index;
     PDFService.img_width := width (image_pixmap obj);
     PDFService.img_height := height (image_pixmap obj);
     PDFService.data :=
       if bool_decide (Py.lower image_format ∈ ["jpg"%string; "jpeg"%string])
       then tobytes "jpeg" None (image_pixmap obj)
       else tobytes "png" None (image_pixmap obj);
     PDFService.format := image_format |}.

(** The images of one page that meet both minimums, in page order. *)
Definition page_extract (table : gmap Z ImageObject) (page_num : Z)
    (min_width min_height : Z) (image_format : string)
    (entries : list (Z * Z)) : list PDFService.ExtractedImage :=
  flat_map
    (fun entry =>
       match table !! entry.2 with
       | Some obj =>
           if meets_minimum min_width min_height obj
           then [extracted page_num entry.1 image_format obj]
           else []
       | None => []
       end)
    entries.

Definition document_extract (doc : Document) (selected : list Z)
    (min_width min_height : Z) (image_format : string)
  : list PDFService.ExtractedImage :=
  flat_map
    (fun page_num =>
       match Py.getitem (page_images doc) page_num with
       | Ok image_list =>
           page_extract (xref_table doc) page_num min_width min_height
             image_format (Py.enumerate image_list)
       | Err _ => []
       end)
    selected.

End ExtractionRule.

(** ** Items of a sequence by Python index *)

(** [x] is [xs[i]]: the index is inside [-len, len) and counts from the
    end when negative. *)
Definition item_at {A} (xs : list A) (i : Z) (x : A) : Prop :=
  - Z.of_nat (length xs) <= i < Z.of_nat (length xs) /\
  xs !! Z.to_nat (i mod Z.of_nat (length xs)) = Some x.

(** ** PDFService.secure_pdf and its handler *)

Module Secure.

Section WithPermissionBits.
(** The members [PRINT], [MODIFY], [EXTRACT] and [ADD_OR_MODIFY] of
    [PyPDF2.constants.UserAccessPermissions]: integer flags of the
    library, taken as given. *)
Variables PRINT MODIFY EXTRACT ADD_OR_MODIFY : Z.

Definition permission_mapping : gmap string Z :=
  <["print"%string := PRINT]>
  (<["modify"%string := MODIFY]>
  (<["copy"%string := EXTRACT]>
  (<["annotate"%string := ADD_OR_MODIFY]> ∅))).

(** The loop [for perm in permissions: if perm in permission_mapping:
    permission_flags |= permission_mapping[perm]]. *)
Definition add_permissions (permission_flags : Z) (permissions : list string) : Z :=
  fold_left
    (fun flags perm =>
       match permission_mapping !! perm with
       | Some bit => Z.lor flags bit
       | None => flags
       end)
    permissions permission_flags.

(** Bit [n] of the flag a permission name maps to; no bit for a name
    outside the mapping. *)
Definition permission_bit_at (n : Z) (perm : string) : bool :=
  match permission_mapping !! perm with
  | Some bit => Z.testbit bit n
  | None => false
  end.

(** What [pdf_writer.encrypt(...)] is called with, and the pages copied
    into the writer before. *)
Record Encrypted : Type := {
  pages : Pdf;
  user_password : option string;
  owner_password : option string;
  use_128bit : bool;
  permissions_flag : Z
}.

Definition secure_pdf (pdf_data : Pdf) (user_password owner_password : option string)
    (permissions : option (list string)) (encryption_level : Z) : Encrypted :=
  let pdf_writer := fold_left (fun writer page => writer ++ [page]) pdf_data [] in
  let permission_flags :=
    match permissions with
    | Some (p :: ps) => add_permissions 0 (p :: ps)
    | Some [] | None => 0
    end in
  {| pages := pdf_writer;
     user_password := user_password;
     owner_password := owner_password;
     use_128bit := encryption_level =? 128;
     permissions_flag := permission_flags |}.

(** The [try] block of the handler [secure_pdf] of
    [pdf_manipulation.py], from the validation of the encryption level to
    the call of the service. *)
Definition valid_permissions : list string :=
  ["print"; "modify"; "copy"; "annotate"]%string.

Definition secure_pdf_route (pdf_content : Pdf)
    (user_password : option string) (owner_password : string)
    (permissions : option string) (encryption_level : Z) : result Encrypted :=
  if negb (bool_decide (encryption_level ∈ [40; 128])) then Err (HTTPException 400)
  else
    let* permission_list :=
      match permissions with
      | None | Some EmptyString => Ok []
      | Some permissions =>
          let permission_list := map Py.strip (Py.split "," permissions) in
          let invalid :=
            filter (fun p => p ∉ valid_permissions) permission_list in
          match invalid with
          | [] => Ok permission_list
          | _ :: _ => Err (HTTPException 400)
          end
      end in
    Ok (secure_pdf pdf_content user_password (Some owner_password)
          (Some permission_list) encryption_level).

End WithPermissionBits.

End Secure.

(** ** Plans, rate limits and API keys ([app/core/config.py],
    [app/core/dependencies.py]) *)

Module Config.

Definition RATE_LIMIT_BASIC : Z := 100.
Definition RATE_LIMIT_PRO : Z := 1000.
Definition RATE_LIMIT_ENTERPRISE : Z := 10000.
Definition MAX_UPLOAD_SIZE : Z := 50 * 1024 * 1024.
Definition ALLOWED_EXTENSIONS : gset string :=
  {[ ".pdf"; ".jpg"; ".jpeg"; ".png"; ".gif"; ".bmp"; ".tiff" ]}%string.

End Config.

Module Dependencies.

(** [check_feature_access(required_plan)] applied to the plan of the
    user: the inner [dependency]. *)
Definition plan_hierarchy : gmap string Z :=
  <["basic"%string := 0]> (<["pro"%string := 1]> (<["enterprise"%string := 2]> ∅)).

Definition check_feature_access (required_plan user_plan : string) : result bool :=
  let user_level := default 0 (plan_hierarchy !! user_plan) in
  let required_level := default 0 (plan_hierarchy !! required_plan) in
  if user_level <? required_level then Err (HTTPException 403) else Ok true.

Definition require_pro_plan : string -> result bool := check_feature_access "pro".
Definition require_enterprise_plan : string -> result bool :=
  check_feature_access "enterprise".

(** The Redis store as far as [check_rate_limit] uses it.  The keys
    [rate_limit:...] are written by [SETEX key 3600 1] and [INCR] only, so
    each holds the decimal text of an integer, kept here as that integer;
    the hashes [api_key:...] hold text fields.  Expiry is not represented:
    a store stands for one rate-limit window. *)
Record Redis : Type := {
  counters : gmap string Z;
  hashes : gmap string (gmap string string)
}.

Definition hget (r : Redis) (name key : string) : option string :=
  hashes r !! name ≫= fun h => h !! key.

(** [limits.get(plan, settings.RATE_LIMIT_BASIC)] *)
Definition limits : gmap string Z :=
  <["basic"%string := Config.RATE_LIMIT_BASIC]>
  (<["pro"%string := Config.RATE_LIMIT_PRO]>
  (<["enterprise"%string := Config.RATE_LIMIT_ENTERPRISE]> ∅)).

Definition check_rate_limit (api_key : string) (r : Redis) : bool * Redis :=
  let key := ("rate_limit:" +:+ api_key)%string in
  match counters r !! key with
  | None =>
      (true, {| counters := <[key := 1]> (counters r); hashes := hashes r |})
  | Some count =>
      let plan :=
        match hget r ("api_key:" +:+ api_key) "plan" with
        | None | Some EmptyString => "basic"%string
        | Some plan => plan
        end in
      let limit := default Config.RATE_LIMIT_BASIC (limits !! plan) in
      if count >=? limit then (false, r)
      else (true, {| counters := <[key := count + 1]> (counters r);
                     hashes := hashes r |})
  end.

(** [n] calls of [check_rate_limit] for the same key, one after the
    other: the answers, first call first, and the store afterwards. *)
Fixpoint check_rate_limit_repeatedly (n : nat) (api_key : string) (r : Redis)
  : list bool * Redis :=
  match n with
  | O => ([], r)
  | S n' =>
      let '(allowed, r1) := check_rate_limit api_key r in
      let '(later, r2) := check_rate_limit_repeatedly n' api_key r1 in
      (allowed :: later, r2)
  end.

(** Uploaded files: the name the client sent and the bytes read. *)
Record UploadFile : Type := { filename : string; content : list Byte.byte }.

(** [os.path.splitext] and [os.path.basename] (POSIX). *)
Fixpoint rfind_from (c : ascii) (i : Z) (s : string) : Z :=
  match s with
  | EmptyString => -1
  | String a rest =>
      let later := rfind_from c (i + 1) rest in
      if 0 <=? later then later else if Ascii.eqb a c then i else -1
  end.

(** [s.rfind(c)]: the index of the last [c], -1 without one. *)
Definition rfind (c : ascii) (s : string) : Z := rfind_from c 0 s.

Fixpoint take_str (k : nat) (s : string) : string :=
  match k, s with
  | S k', String a rest => String a (take_str k' rest)
  | _, _ => EmptyString
  end.

Fixpoint drop_str (k : nat) (s : string) : string :=
  match k, s with
  | S k', String _ rest => drop_str k' rest
  | _, _ => s
  end.

Fixpoint all_dots (s : string) : bool :=
  match s with
  | EmptyString => true
  | String a rest => Ascii.eqb a "." && all_dots rest
  end.

(** The extension starts at the last dot of the last path component,
    unless that component has nothing but dots before it. *)
Definition splitext (p : string) : string * string :=
  let sepIndex := rfind "/" p in
  let dotIndex := rfind "." p in
  if dotIndex >? sepIndex then
    let leading :=
      take_str (Z.to_nat (dotIndex - (sepIndex + 1)))
        (drop_str (Z.to_nat (sepIndex + 1)) p) in
    if all_dots leading then (p, EmptyString)
    else (take_str (Z.to_nat dotIndex) p, drop_str (Z.to_nat dotIndex) p)
  else (p, EmptyString).

Definition basename (p : string) : string :=
  drop_str (Z.to_nat (rfind "/" p + 1)) p.

Definition validate_file_extension (filename : string)
    (allowed_extensions : option (gset string)) : bool :=
  let allowed_extensions :=
    match allowed_extensions with
    | None => Config.ALLOWED_EXTENSIONS
    | Some allowed =>
        if bool_decide (allowed = ∅) then Config.ALLOWED_EXTENSIONS else allowed
    end in
  let ext := Py.lower (splitext filename).2 in
  bool_decide (ext ∈ allowed_extensions).

Definition validate_file_size (file_size : Z) : bool :=
  file_size <=? Config.MAX_UPLOAD_SIZE.

(** [content.startswith(prefix)] *)
Fixpoint startswith (content prefix : list Byte.byte) : bool :=
  match prefix, content with
  | [], _ => true
  | p :: prefix', c :: content' => Byte.eqb c p && startswith content' prefix'
  | _ :: _, [] => false
  end.

(** The bytes of ["%PDF"]. *)
Definition pdf_signature : list Byte.byte :=
  [Byte.x25; Byte.x50; Byte.x44; Byte.x46].

Definition validate_pdf_file (file : UploadFile) : result (list Byte.byte) :=
  if negb (validate_file_extension (filename file) (Some {[ ".pdf"%string ]}))
  then Err (HTTPException 400)
  else
    let content := content file in
    if negb (validate_file_size (Z.of_nat (length content)))
    then Err (HTTPException 413)
    else if negb (startswith content pdf_signature)
    then Err (HTTPException 400)
    else Ok content.

Definition validate_multiple_pdf_files (files : list UploadFile)
  : result (list (list Byte.byte)) :=
  match files with
  | [] => Err (HTTPException 400)
  | _ :: _ =>
      if Z.of_nat (length files) >? 20 then Err (HTTPException 400)
      else
        for_each
          (fun pdf_contents file =>
             let* content := validate_pdf_file file in
             Ok (pdf_contents ++ [content]))
          files []
  end.

(** [get_file_url] *)
Definition get_file_url (file_path : string) : string :=
  ("/api/v1/files/" +:+ basename file_path)%string.

End Dependencies.

(** ** Reading the handlers' and limits' inputs *)

(** The names the handler of [secure_pdf] reads from the permissions
    field: none for an absent or empty field, else the stripped pieces. *)
Definition permission_pieces (permissions : option string) : list string :=
  match permissions with
  | None | Some EmptyString => []
  | Some permissions => map Py.strip (Py.split "," permissions)
  end.

(** The hourly limit of a plan: 100 for basic and for anything that is
    not a plan name, 1000 for pro, 10000 for enterprise. *)
Definition limit_for_plan (plan : option string) : Z :=
  match plan with
  | Some plan =>
      if String.eqb plan "pro" then 1000
      else if String.eqb plan "enterprise" then 10000
      else 100
  | None => 100
  end.

(** ** PDFService.get_pdf_metadata and the complete [try] blocks *)

Module Handlers.

(** Of the dictionary [get_pdf_metadata] returns, the entries that are
    read from the pages: ["pages"] and the first page, whose media box
    gives ["page_size"].  The entries copied from the document
    information, the byte size and the encryption flag are not part of
    the page sequence and are not represented.  Reading the first page of
    a document without pages raises [IndexError]. *)
Record Metadata : Type := { pages : Z; first_page : PyPDF2.PageObject }.

Definition get_pdf_metadata (pdf_data : Pdf) : result Metadata :=
  let* first_page := Py.getitem pdf_data 0 in
  Ok {| pages := Z.of_nat (length pdf_data); first_page := first_page |}.

(** One entry of [result_files] in the handler [split_pdf]: ["pages"] and
    ["part"] (the URL and the byte size are not represented). *)
Record SplitFile : Type := { file_pages : Z; part : Z }.

Definition split_file (entry : Z * Pdf) : result SplitFile :=
  let* metadata := get_pdf_metadata entry.2 in
  Ok {| file_pages := pages metadata; part := entry.1 + 1 |}.

(** The [try] block of the handler [split_pdf]: the checks and the service
    call ([Routes.split_pdf_call]), then the metadata of every output; and
    the handler, which is the [try] block under [except Exception]. *)
Definition split_pdf_try (pdf_content : Pdf) (pages : option string)
    (chunks : option Z) : result (list SplitFile) :=
  let* split_pdfs := Routes.split_pdf_call pdf_content pages chunks in
  for_each
    (fun result_files entry =>
       let* file := split_file entry in
       Ok (result_files ++ [file]))
    (Py.enumerate split_pdfs) [].

Definition split_pdf (pdf_content : Pdf) (pages : option string)
    (chunks : option Z) : result (list SplitFile) :=
  Routes.catch_all (split_pdf_try pdf_content pages chunks).

(** The [try] block of the handler [merge_pdfs] and the handler: the
    response carries the page count of the merged document. *)
Definition merge_pdfs_try (pdf_contents : list Pdf) (order : option string)
  : result Z :=
  let* merged_pdf := Routes.merge_pdfs_call pdf_contents order in
  let* metadata := get_pdf_metadata merged_pdf in
  Ok (pages metadata).

Definition merge_pdfs (pdf_contents : list Pdf) (order : option string)
  : result Z :=
  Routes.catch_all (merge_pdfs_try pdf_contents order).

End Handlers.

(** ** PDFService.extract_text *)

Module Text.

(** [text.split()]: the maximal runs of characters that are not white
    space. *)
Fixpoint split_words (s : string) : list string :=
  match s with
  | EmptyString => []
  | String a rest =>
      if Py.is_space a then split_words rest
      else
        match rest with
        | EmptyString => [String a EmptyString]
        | String b _ =>
            if Py.is_space b then String a EmptyString :: split_words rest
            else
              match split_words rest with
              | word :: later => String a word :: later
              | [] => [String a EmptyString]
              end
        end
    end.

(** [str(n)] for an integer. *)
Definition str (n : Z) : string := NilZero.string_of_int (Z.to_int n).

(** [sep.join(parts)] *)
Fixpoint join (sep : string) (parts : list string) : string :=
  match parts with
  | [] => EmptyString
  | [x] => x
  | x :: rest => x +:+ sep +:+ join sep rest
  end.

Definition newline : string := String (ascii_of_nat 10) EmptyString.

(** One entry of [extracted_text]. *)
Record PageText : Type := { page : Z; text : string; words : Z }.

(** The returned dictionary: ["text"] or ["pages"], with ["word_count"]
    and ["page_count"]. *)
Inductive TextResult : Type :=
  | WithText (text : string) (word_count page_count : Z)
  | WithPages (pages : list PageText) (word_count page_count : Z).

(** [pdf_document] is represented by what [page.get_text()] returns for
    each of its pages; [pdf_document[page_num]] counts a negative index
    from the end, as a Python sequence does. *)
Definition extract_text (pdf_document : list string) (pages : option string)
    (output_format : string) : result TextResult :=
  let total_pages := Z.of_nat (length pdf_document) in
  let* pages_to_extract := PDFService.pages_or_all pages total_pages in
  let* extracted :=
    for_each
      (fun '(extracted_text, word_count) page_num =>
         let* text := Py.getitem pdf_document page_num in
         let count := Z.of_nat (length (split_words text)) in
         Ok (extracted_text
             ++ [{| page := page_num + 1; text := text; words := count |}],
             word_count + count))
      pages_to_extract ([], 0) in
  let '(extracted_text, word_count) := extracted in
  let page_count := Z.of_nat (length pages_to_extract) in
  if String.eqb output_format "text" then
    Ok (WithText
          (join (newline +:+ newline)
             (map (fun item => "Page " +:+ str (page item) +:+ ":" +:+ newline
                               +:+ text item)%string
                extracted_text))
          word_count page_count)
  else if String.eqb output_format "json" then
    Ok (WithPages extracted_text word_count page_count)
  else
    Ok (WithText
          (join (newline +:+ newline)
             (map (fun item => "## Page " +:+ str (page item) +:+ newline +:+ newline
                               +:+ text item)%string
                extracted_text))
          word_count page_count).

Definition word_count_of (r : TextResult) : Z :=
  match r with
  | WithText _ word_count _ | WithPages _ word_count _ => word_count
  end.

Definition page_count_of (r : TextResult) : Z :=
  match r with
  | WithText _ _ page_count | WithPages _ _ page_count => page_count
  end.

End Text.

(** The entries [extract_text] builds for the page indices [selected] and
    the texts of those pages, and the number of words of a text. *)
Definition word_total (text : string) : Z :=
  Z.of_nat (length (Text.split_words text)).

Definition text_entries (selected : list Z) (texts : list string)
  : list Text.PageText :=
  zip_with
    (fun page_num text =>
       {| Text.page := page_num + 1; Text.text := text;
          Text.words := word_total text |})
    selected texts.

(** * Properties *)

(** ** Facts about the Python built-ins *)

(** [x ∉ [a; b; ...]] for concrete, distinct values. *)
Ltac not_in_list :=
  let Hin := fresh "Hin" in
  let Heq := fresh "Heq" in
  intros Hin;
  repeat (apply elem_of_cons in Hin as [ Heq | Hin ]; [discriminate Heq|]);
  inversion Hin.

Ltac bool_to_prop :=
  repeat match goal with
    | H : (_ && _)%bool = true |- _ => apply andb_true_iff in H; destruct H
    | H : (_ || _)%bool = false |- _ => apply orb_false_iff in H; destruct H
    | H : (_ <=? _) = true |- _ => apply Z.leb_le in H
    | H : (_ <=? _) = false |- _ => apply Z.leb_gt in H
    | H : (_ <? _) = true |- _ => apply Z.ltb_lt in H
    | H : (_ <? _) = false |- _ => apply Z.ltb_ge in H
    end.

Lemma string_app_nil_l (s : string) : EmptyString +:+ s = s.
Proof. reflexivity. Qed.

Lemma string_app_cons (a : ascii) (s t : string) :
  String a s +:+ t = String a (s +:+ t).
Proof. reflexivity. Qed.

Lemma range_elem (lo hi i : Z) : i ∈ Py.range lo hi <-> lo <= i < hi.
Proof.
  unfold Py.range. rewrite list_elem_of_fmap. split.
  - intros (k & -> & Hk). apply elem_of_seq in Hk. lia.
  - intros Hi. exists (Z.to_nat (i - lo)). split; [lia|].
    apply elem_of_seq. lia.
Qed.

Lemma range_length (lo hi : Z) : length (Py.range lo hi) = Z.to_nat (hi - lo).
Proof. unfold Py.range. now rewrite length_map, length_seq. Qed.

Lemma range_empty (lo hi : Z) : hi <= lo -> Py.range lo hi = [].
Proof.
  intros Hle. unfold Py.range.
  replace (Z.to_nat (hi - lo)) with 0%nat by lia. reflexivity.
Qed.

Lemma range_cons (lo hi : Z) :
  lo < hi -> Py.range lo hi = lo :: Py.range (lo + 1) hi.
Proof.
  intros Hlt. unfold Py.range.
  replace (Z.to_nat (hi - lo)) with (S (Z.to_nat (hi - (lo + 1)))) by lia.
  cbn [seq map]. f_equal; [lia|].
  rewrite <- seq_shift, map_map. apply map_ext. intros k. lia.
Qed.

Lemma range_app (lo mid hi : Z) :
  lo <= mid <= hi -> Py.range lo hi = Py.range lo mid ++ Py.range mid hi.
Proof.
  intros [Hlm Hmh].
  remember (Z.to_nat (mid - lo)) as k eqn:Hk.
  revert lo Hlm Hk. induction k as [|k IH]; intros lo Hlm Hk.
  - assert (lo = mid) as -> by lia. now rewrite (range_empty mid mid) by lia.
  - rewrite (range_cons lo hi) by lia. rewrite (range_cons lo mid) by lia.
    cbn [app]. f_equal. apply IH; lia.
Qed.

Lemma sorted_set_elem (xs : list Z) (i : Z) : i ∈ Py.sorted_set xs <-> i ∈ xs.
Proof.
  unfold Py.sorted_set. rewrite merge_sort_Permutation.
  rewrite elem_of_elements. apply elem_of_list_to_set.
Qed.

Lemma sorted_set_NoDup (xs : list Z) : NoDup (Py.sorted_set xs).
Proof.
  unfold Py.sorted_set. rewrite merge_sort_Permutation. apply NoDup_elements.
Qed.

Lemma sorted_set_ascending (xs : list Z) : StronglySorted Z.lt (Py.sorted_set xs).
Proof.
  assert (Hle : StronglySorted Z.le (Py.sorted_set xs)).
  { unfold Py.sorted_set. apply StronglySorted_merge_sort; [apply _|].
    intros x y. lia. }
  pose proof (sorted_set_NoDup xs) as Hnd.
  induction Hle as [|x l Hl IH Hx]; [constructor|].
  apply NoDup_cons in Hnd as [Hnotin Hnd].
  constructor; [auto|].
  rewrite Forall_forall in *. intros y Hy.
  assert (x <> y) by (intros ->; contradiction).
  specialize (Hx y Hy). lia.
Qed.

(** *** Splitting and joining *)

Lemma contains_app (c : ascii) (s t : string) :
  Py.contains c (s +:+ t) = Py.contains c s || Py.contains c t.
Proof.
  induction s as [|a s IH]; [reflexivity|].
  rewrite string_app_cons. cbn [Py.contains]. rewrite IH. apply orb_assoc.
Qed.

Lemma split_no_sep (sep : ascii) (s : string) :
  Py.contains sep s = false -> Py.split sep s = [s].
Proof.
  induction s as [|a s IH]; [reflexivity|].
  cbn [Py.contains Py.split]. intros Hc.
  apply orb_false_iff in Hc as [-> Hc]. now rewrite IH.
Qed.

Lemma split_app_sep (sep : ascii) (s t : string) :
  Py.contains sep s = false ->
  Py.split sep (s +:+ String sep t) = s :: Py.split sep t.
Proof.
  induction s as [|a s IH]; intros Hc.
  - rewrite string_app_nil_l. cbn [Py.split]. now rewrite Ascii.eqb_refl.
  - cbn [Py.contains] in Hc. apply orb_false_iff in Hc as [Ha Hc].
    rewrite string_app_cons. cbn [Py.split]. now rewrite Ha, IH.
Qed.

Lemma split_join (sep : ascii) (parts : list string) :
  parts <> [] ->
  Forall (fun p => Py.contains sep p = false) parts ->
  Py.split sep (Grammar.join sep parts) = parts.
Proof.
  induction parts as [|x rest IH]; [congruence|].
  intros _ Hall. apply Forall_cons in Hall as [Hx Hrest].
  destruct rest as [|y rest'].
  - now apply split_no_sep.
  - cbn [Grammar.join]. rewrite split_app_sep by assumption.
    f_equal. now apply IH.
Qed.

Lemma split_parts_no_sep (sep : ascii) (s : string) :
  Forall (fun p => Py.contains sep p = false) (Py.split sep s).
Proof.
  induction s as [|a s IH]; cbn [Py.split].
  - now repeat constructor.
  - destruct (Ascii.eqb a sep) eqn:Ha.
    + now constructor.
    + destruct (Py.split sep s) as [|h t].
      { constructor; [|constructor]. cbn [Py.contains]. now rewrite Ha. }
      apply Forall_cons in IH as [Hh Ht].
      constructor; [|assumption]. cbn [Py.contains]. now rewrite Ha, Hh.
Qed.

Lemma split_nonempty (sep : ascii) (s : string) : Py.split sep s <> [].
Proof.
  destruct s as [|a s]; cbn [Py.split]; [congruence|].
  destruct (Ascii.eqb a sep); [congruence|].
  destruct (Py.split sep s); congruence.
Qed.

(** *** Reading integers *)

Lemma digit_not_space (a : ascii) :
  Py.is_digit a = true -> Py.is_int_space a = false.
Proof.
  unfold Py.is_digit, Py.is_int_space. intros Hd. bool_to_prop.
  apply orb_false_iff; split; [apply andb_false_iff; rewrite !Z.leb_gt|]; lia.
Qed.

Lemma digit_not_char (a c : ascii) :
  Py.is_digit c = false -> Py.is_digit a = true -> Ascii.eqb a c = false.
Proof.
  intros Hc Ha. destruct (Ascii.eqb_spec a c) as [ -> | ]; congruence.
Qed.

Lemma digit_value_bounds (a : ascii) :
  Py.is_digit a = true -> 0 <= Py.digit_value a <= 9.
Proof.
  unfold Py.is_digit, Py.digit_value. intros Hd. bool_to_prop. lia.
Qed.

Lemma all_digits_contains (c : ascii) (s : string) :
  Py.is_digit c = false -> Grammar.all_digits s = true -> Py.contains c s = false.
Proof.
  intros Hc. induction s as [|a s IH]; [reflexivity|].
  cbn [Grammar.all_digits Py.contains]. intros Hs. bool_to_prop.
  rewrite (digit_not_char a c), IH by assumption. reflexivity.
Qed.

Lemma number_all_digits (s : string) :
  Grammar.is_number s = true -> Grammar.all_digits s = true.
Proof. destruct s; [discriminate|auto]. Qed.

Lemma number_nonempty (s : string) :
  Grammar.is_number s = true -> s <> EmptyString.
Proof. destruct s; [discriminate|congruence]. Qed.

Lemma all_digits_rstrip (s : string) :
  Grammar.all_digits s = true -> Py.rstrip_of Py.is_int_space s = s.
Proof.
  induction s as [|a s IH]; [reflexivity|].
  cbn [Grammar.all_digits Py.rstrip_of]. intros Hs. bool_to_prop.
  rewrite IH by assumption. destruct s; [|reflexivity].
  now rewrite digit_not_space.
Qed.

Lemma number_strip (s : string) :
  Grammar.is_number s = true -> Py.strip_of Py.is_int_space s = s.
Proof.
  intros Hs. unfold Py.strip_of.
  assert (Py.lstrip_of Py.is_int_space s = s) as ->.
  { destruct s as [|a s]; [reflexivity|]. cbn in Hs. bool_to_prop.
    cbn [Py.lstrip_of]. now rewrite digit_not_space. }
  apply all_digits_rstrip. now apply number_all_digits.
Qed.

Lemma int_digits_all_digits (s : string) (acc : Z) (seen : bool) :
  Grammar.all_digits s = true ->
  s <> EmptyString \/ seen = true ->
  Py.int_digits acc seen s = Some (Grammar.decimal acc s).
Proof.
  revert acc seen. induction s as [|a s IH]; intros acc seen Hs Hne.
  - destruct Hne as [ ? | -> ]; [congruence|reflexivity].
  - cbn [Grammar.all_digits] in Hs. bool_to_prop.
    cbn [Py.int_digits Grammar.decimal].
    match goal with Ha : Py.is_digit a = true |- _ => rewrite Ha end.
    apply IH; auto.
Qed.

Lemma int_number (s : string) :
  Grammar.is_number s = true -> Py.int s = Ok (Grammar.value s).
Proof.
  intros Hs. unfold Py.int. rewrite number_strip by assumption.
  destruct s as [|a s]; [discriminate|].
  pose proof Hs as Hd. cbn in Hd. bool_to_prop.
  rewrite (digit_not_char a "+"), (digit_not_char a "-") by (assumption || reflexivity).
  rewrite int_digits_all_digits;
    [reflexivity | now apply number_all_digits | left; congruence].
Qed.

Lemma int_digits_nonneg (s : string) (acc : Z) (seen : bool) (z : Z) :
  0 <= acc -> Py.int_digits acc seen s = Some z -> 0 <= z.
Proof.
  revert acc seen. induction s as [|a s IH]; intros acc seen Hacc.
  - cbn. destruct seen; [|discriminate]. intros [= <-]. assumption.
  - cbn [Py.int_digits]. destruct (Py.is_digit a) eqn:Ha.
    + apply IH. pose proof (digit_value_bounds a Ha). lia.
    + destruct (Ascii.eqb a "_" && seen); [|discriminate]. now apply IH.
Qed.

Lemma contains_lstrip (space : ascii -> bool) (c : ascii) (s : string) :
  Py.contains c (Py.lstrip_of space s) = true -> Py.contains c s = true.
Proof.
  induction s as [|a s IH]; [auto|].
  cbn [Py.lstrip_of]. destruct (space a); [|auto].
  intros Hc. cbn [Py.contains]. rewrite IH by assumption. apply orb_true_r.
Qed.

Lemma contains_rstrip (space : ascii -> bool) (c : ascii) (s : string) :
  Py.contains c (Py.rstrip_of space s) = true -> Py.contains c s = true.
Proof.
  induction s as [|a s IH]; [auto|].
  cbn [Py.rstrip_of]. destruct (Py.rstrip_of space s) as [|b r] eqn:Hr.
  - destruct (space a); [discriminate|].
    cbn [Py.contains]. rewrite orb_false_r. intros ->. reflexivity.
  - cbn [Py.contains] in *. intros Hc.
    apply orb_true_iff in Hc as [ -> | Hc ]; [reflexivity|].
    rewrite IH by assumption. apply orb_true_r.
Qed.

Lemma contains_strip (space : ascii -> bool) (c : ascii) (s : string) :
  Py.contains c (Py.strip_of space s) = true -> Py.contains c s = true.
Proof.
  intros Hc. eapply contains_lstrip, contains_rstrip. exact Hc.
Qed.

(** An integer read from a string without a minus sign is not negative. *)
Lemma int_nonneg (s : string) (z : Z) :
  Py.contains "-" s = false -> Py.int s = Ok z -> 0 <= z.
Proof.
  intros Hc. unfold Py.int.
  destruct (Py.strip_of Py.is_int_space s) as [|a r] eqn:Hs; [discriminate|].
  destruct (Ascii.eqb a "+") eqn:Hplus.
  - destruct (Py.int_digits 0 false r) eqn:Hd; [|discriminate].
    intros [= <-]. eapply int_digits_nonneg; [|eassumption]. lia.
  - destruct (Ascii.eqb_spec a "-") as [ -> | _ ].
    + assert (Py.contains "-" s = true); [|congruence].
      apply (contains_strip Py.is_int_space). now rewrite Hs.
    + destruct (Py.int_digits 0 false (String a r)) eqn:Hd; [|discriminate].
      intros [= <-]. eapply int_digits_nonneg; [|eassumption]. lia.
Qed.

(** ** The page range resolver *)

Lemma for_each_invariant {A S : Type} (P : S -> Prop)
    (body : S -> A -> result S) (xs : list A) :
  (forall s x s', P s -> x ∈ xs -> body s x = Ok s' -> P s') ->
  forall s s', P s -> for_each body xs s = Ok s' -> P s'.
Proof.
  induction xs as [|x xs IH]; intros Hbody s s' Hs.
  - cbn. now intros [= <-].
  - cbn [for_each]. destruct (body s x) as [s1|e] eqn:Hb; [|discriminate].
    cbn [bind]. apply IH.
    + intros s0 y s0' Hs0 Hy. apply Hbody; [assumption|now right].
    + eapply Hbody; [eassumption|now left|eassumption].
Qed.

Lemma token_text_no_comma (t : Grammar.token) :
  Grammar.well_formed t = true -> Py.contains "," (Grammar.token_text t) = false.
Proof.
  destruct t as [num|a b]; cbn [Grammar.well_formed Grammar.token_text]; intros Hwf.
  - apply all_digits_contains; [reflexivity|now apply number_all_digits].
  - bool_to_prop. rewrite contains_app. cbn [Py.contains].
    rewrite !all_digits_contains by (reflexivity || now apply number_all_digits).
    reflexivity.
Qed.

Lemma token_text_nonempty (t : Grammar.token) :
  Grammar.well_formed t = true -> Grammar.token_text t <> EmptyString.
Proof.
  destruct t as [num|a b]; cbn [Grammar.well_formed Grammar.token_text]; intros Hwf.
  - now apply number_nonempty.
  - destruct a; [|rewrite string_app_cons]; discriminate.
Qed.

Lemma join_nonempty (sep : ascii) (x : string) (rest : list string) :
  x <> EmptyString -> Grammar.join sep (x :: rest) <> EmptyString.
Proof.
  destruct x as [|a x]; [congruence|]. intros _.
  destruct rest; cbn [Grammar.join]; [|rewrite string_app_cons]; discriminate.
Qed.

Lemma parse_token_text (total : Z) (page_list : list Z) (t : Grammar.token) :
  Grammar.well_formed t = true ->
  PDFService.parse_range_str total page_list (Grammar.token_text t)
  = Ok (page_list ++ Grammar.indices total t).
Proof.
  destruct t as [num|a b]; cbn [Grammar.well_formed Grammar.token_text]; intros Hwf;
    unfold PDFService.parse_range_str.
  - rewrite all_digits_contains by (reflexivity || now apply number_all_digits).
    rewrite int_number by assumption. cbn [bind Grammar.indices].
    destruct ((0 <=? Grammar.value num - 1) && (Grammar.value num - 1 <? total));
      [reflexivity|now rewrite app_nil_r].
  - bool_to_prop. rewrite contains_app. cbn [Py.contains].
    rewrite Ascii.eqb_refl, orb_true_r.
    rewrite split_app_sep
      by (apply all_digits_contains; [reflexivity|now apply number_all_digits]).
    rewrite split_no_sep
      by (apply all_digits_contains; [reflexivity|now apply number_all_digits]).
    rewrite !int_number by assumption. reflexivity.
Qed.

Lemma for_each_tokens (total : Z) (toks : list Grammar.token) (page_list : list Z) :
  Forall (fun t => Grammar.well_formed t = true) toks ->
  for_each (PDFService.parse_range_str total) (map Grammar.token_text toks) page_list
  = Ok (page_list ++ flat_map (Grammar.indices total) toks).
Proof.
  revert page_list. induction toks as [|t toks IH]; intros page_list Hwf.
  - cbn. now rewrite app_nil_r.
  - apply Forall_cons in Hwf as [Ht Htoks].
    cbn [map for_each flat_map]. rewrite parse_token_text by assumption.
    cbn [bind]. rewrite IH by assumption. now rewrite app_assoc.
Qed.

Lemma parse_well_formed (total : Z) (pages : string) (toks : list Grammar.token) :
  toks <> [] ->
  Forall (fun t => Grammar.well_formed t = true) toks ->
  Py.remove_char " " pages = Grammar.range_list_text toks ->
  PDFService.parse_page_ranges (Some pages) total
  = Ok (Py.sorted_set (flat_map (Grammar.indices total) toks)).
Proof.
  intros Hne Hwf Htext. unfold PDFService.parse_page_ranges.
  destruct pages as [|c pages'].
  { exfalso. cbn in Htext. destruct toks as [|t toks]; [congruence|].
    apply Forall_cons in Hwf as [Ht _]. symmetry in Htext. revert Htext.
    apply join_nonempty. now apply token_text_nonempty. }
  rewrite Htext. unfold Grammar.range_list_text. rewrite split_join.
  - now rewrite for_each_tokens.
  - destruct toks; [congruence|discriminate].
  - apply Forall_map. eapply Forall_impl; [eassumption|].
    intros t. apply token_text_no_comma.
Qed.

(** C1: Page range resolution.  A null or empty expression resolves to all
    indices [0, total).  For a well-formed expression (tokens separated by
    commas, spaces allowed anywhere), the result holds exactly the indices
    its tokens contribute: a single integer [n] contributes [n-1] when
    [0 <= n-1 < total] and nothing otherwise, a range [a-b] contributes
    every index of [a-1, min(b, total)).  In particular "1-3,5,7-10" on 12
    pages gives 0,1,2,4,6,7,8,9 and "2,4-6" on 6 pages gives 1,3,4,5. *)
Theorem page_range_resolution (total : Z) :
  (PDFService.parse_page_ranges None total = Ok (Py.range 0 total) /\
   PDFService.parse_page_ranges (Some EmptyString) total = Ok (Py.range 0 total) /\
   forall i, i ∈ Py.range 0 total <-> 0 <= i < total) /\
  (forall (pages : string) (toks : list Grammar.token),
     toks <> [] ->
     Forall (fun t => Grammar.well_formed t = true) toks ->
     Py.remove_char " " pages = Grammar.range_list_text toks ->
     exists resolved,
       PDFService.parse_page_ranges (Some pages) total = Ok resolved /\
       forall i, i ∈ resolved <->
                 exists t, t ∈ toks /\ i ∈ Grammar.indices total t) /\
  (forall (num : string) (i : Z),
     i ∈ Grammar.indices total (Grammar.Single num) <->
     i = Grammar.value num - 1 /\ 0 <= i < total) /\
  (forall (a b : string) (i : Z),
     i ∈ Grammar.indices total (Grammar.Range a b) <->
     Grammar.value a - 1 <= i < Z.min (Grammar.value b) total) /\
  PDFService.parse_page_ranges (Some "1-3,5,7-10"%string) 12 = Ok [0; 1; 2; 4; 6; 7; 8; 9] /\
  PDFService.parse_page_ranges (Some "2,4-6"%string) 6 = Ok [1; 3; 4; 5].
Proof.
  split; [|split; [|split; [|split; [|split]]]].
  - split; [reflexivity|split; [reflexivity|apply range_elem]].
  - intros pages toks Hne Hwf Htext.
    exists (Py.sorted_set (flat_map (Grammar.indices total) toks)).
    split; [apply parse_well_formed; assumption|].
    intros i. rewrite sorted_set_elem, list_elem_of_In, in_flat_map.
    split; intros (t & Ht & Hi); exists t;
      rewrite ?list_elem_of_In in *; auto.
  - intros num i. cbn [Grammar.indices].
    destruct ((0 <=? Grammar.value num - 1) && (Grammar.value num - 1 <? total)) eqn:Hb.
    + bool_to_prop. rewrite list_elem_of_singleton. lia.
    + split; [intros Hi; inversion Hi|].
      intros [-> Hi]. apply andb_false_iff in Hb as [Hb|Hb]; bool_to_prop; lia.
  - intros a b i. cbn [Grammar.indices]. apply range_elem.
  - vm_compute. reflexivity.
  - vm_compute. reflexivity.
Qed.

(** What the resolver does guarantee for every expression it accepts: the
    result is strictly ascending (so without duplicates) and below
    [total]; from below it is bounded by [-1], not by [0]. *)

Lemma range_ascending (lo hi : Z) : StronglySorted Z.lt (Py.range lo hi).
Proof.
  remember (Z.to_nat (hi - lo)) as k eqn:Hk. revert lo Hk.
  induction k as [|k IH]; intros lo Hk.
  - rewrite range_empty by lia. constructor.
  - rewrite range_cons by lia. constructor; [apply IH; lia|].
    apply Forall_forall. intros i Hi. apply range_elem in Hi. lia.
Qed.

Lemma parse_range_str_bounds (total : Z) (page_list out : list Z) (range_str : string) :
  Forall (fun i => -1 <= i < total) page_list ->
  PDFService.parse_range_str total page_list range_str = Ok out ->
  Forall (fun i => -1 <= i < total) out.
Proof.
  intros Hacc. unfold PDFService.parse_range_str.
  destruct (Py.contains "-" range_str) eqn:Hc.
  - pose proof (split_parts_no_sep "-" range_str) as Hparts.
    destruct (Py.split "-" range_str) as [|s [|e [|x rest]]]; try discriminate.
    apply Forall_cons in Hparts as [Hs _].
    destruct (Py.int s) as [start|] eqn:Hstart; [|discriminate].
    destruct (Py.int e) as [end_|]; [|discriminate].
    cbn [bind]. intros [= <-].
    apply Forall_app; split; [assumption|].
    apply Forall_forall. intros i Hi. apply range_elem in Hi.
    pose proof (int_nonneg s start Hs Hstart). lia.
  - destruct (Py.int range_str) as [num|]; [|discriminate]. cbn [bind].
    destruct ((0 <=? num - 1) && (num - 1 <? total)) eqn:Hb; intros [= <-];
      [|assumption].
    bool_to_prop. apply Forall_app; split; [assumption|].
    repeat constructor; lia.
Qed.

Lemma parse_page_ranges_bounds (pages : option string) (total : Z) (out : list Z) :
  PDFService.parse_page_ranges pages total = Ok out ->
  Forall (fun i => -1 <= i < total) out /\ StronglySorted Z.lt out.
Proof.
  assert (Hall : Forall (fun i => -1 <= i < total) (Py.range 0 total)).
  { apply Forall_forall. intros i Hi. apply range_elem in Hi. lia. }
  unfold PDFService.parse_page_ranges.
  destruct pages as [[|c pages]|].
  - intros [= <-]. split; [assumption|apply range_ascending].
  - destruct (for_each _ _ _) as [page_list|] eqn:Hloop; [|discriminate].
    cbn [bind]. intros [= <-]. split; [|apply sorted_set_ascending].
    assert (Hlist : Forall (fun i => -1 <= i < total) page_list).
    { eapply (for_each_invariant (Forall (fun i => -1 <= i < total)));
        [|apply Forall_nil_2|exact Hloop].
      intros s x s' Hs _. now apply parse_range_str_bounds. }
    rewrite Forall_forall in Hlist.
    apply Forall_forall. intros i Hi. apply Hlist. now apply sorted_set_elem.
  - intros [= <-]. split; [assumption|apply range_ascending].
Qed.

(** C2: PageRangeSpec invariant.  The expression "0-2" is accepted on a
    5-page document and resolves to -1, 0, 1: the range branch clamps its
    upper end to [total] but not its lower end to 0, so the index -1 is in
    the output. *)
Theorem range_from_zero_yields_negative_index :
  PDFService.parse_page_ranges (Some "0-2"%string) 5 = Ok [-1; 0; 1] /\
  ~ Forall (fun i => 0 <= i < 5) [-1; 0; 1].
Proof.
  split; [vm_compute; reflexivity|].
  intros Hall. apply Forall_cons in Hall as [Hneg _]. lia.
Qed.

(** ** Merging *)

Lemma merger_appends (pdf_files : list Pdf) (merger : Pdf) :
  for_each (fun merger pdf_reader => Ok (merger ++ pdf_reader)) pdf_files merger
  = Ok (merger ++ concat pdf_files).
Proof.
  revert merger. induction pdf_files as [|d rest IH]; intros merger.
  - cbn. now rewrite app_nil_r.
  - cbn [for_each bind concat]. rewrite IH. now rewrite app_assoc.
Qed.

Lemma getitem_error {A} (xs : list A) (i : Z) (e : exn) :
  Py.getitem xs i = Err e -> e = IndexError.
Proof.
  unfold Py.getitem.
  destruct (_ && _); [destruct (xs !! _)|]; congruence.
Qed.

Lemma order_list_of_nonempty_string (order : string) (order_list : list Z) :
  Routes.order_list_of order = Ok order_list -> order <> EmptyString.
Proof. intros Hparse ->. discriminate. Qed.

Lemma merge_route_parsed (docs : list Pdf) (order : string) (order_list : list Z) :
  Routes.order_list_of order = Ok order_list ->
  Routes.merge_pdfs_call docs (Some order)
  = if bool_decide (length order_list <> length docs)
    then Err (HTTPException 400)
    else PDFService.merge_pdfs docs (Some order_list).
Proof.
  intros Hparse. pose proof (order_list_of_nonempty_string _ _ Hparse) as Hne.
  unfold Routes.merge_pdfs_call, Routes.parse_order.
  destruct order as [|c order]; [congruence|].
  rewrite Hparse. cbn [bind]. now destruct (bool_decide _).
Qed.

(** C3: Merge order validation.  Two documents are uploaded with the
    order "0", which reads as a list of length one.  The handler's check
    raises the 400 validation error inside the [try] block, and the
    closing [except Exception] replaces it: the request ends in status
    500, not in a validation error.  The service itself has no length
    check: called with this order it merges the first document alone. *)
Theorem merge_order_length_error_is_swallowed :
  Routes.order_list_of "0" = Ok [0] /\
  length [0] <> length [sample_pdf 0 1; sample_pdf 1 1] /\
  Routes.merge_pdfs_call [sample_pdf 0 1; sample_pdf 1 1] (Some "0"%string)
  = Err (HTTPException 400) /\
  Handlers.merge_pdfs [sample_pdf 0 1; sample_pdf 1 1] (Some "0"%string)
  = Err (HTTPException 500) /\
  PDFService.merge_pdfs [sample_pdf 0 1; sample_pdf 1 1] (Some [0])
  = Ok (sample_pdf 0 1).
Proof.
  split; [reflexivity|]. split; [discriminate|].
  split; [reflexivity|]. split; reflexivity.
Qed.

(** C9: Implicit merge edge case.  An explicitly supplied empty order list
    is treated by the service as no order at all: every document is kept
    and the result is the concatenation of the documents in input order.
    The request model lets the empty list through, whatever the number of
    URLs. *)
Theorem merge_empty_order_is_no_order (docs : list Pdf) :
  PDFService.merge_pdfs docs (Some []) = PDFService.merge_pdfs docs None /\
  PDFService.merge_pdfs docs (Some []) = Ok (concat docs) /\
  forall urls, Requests.validate_order (Some []) urls = Ok (Some []).
Proof.
  split; [reflexivity|]. split; [|reflexivity].
  unfold PDFService.merge_pdfs. cbn [bind]. apply merger_appends.
Qed.

(** ** Splitting *)

(** C4: Split parameter exclusivity.  With both parameters set (pages
    "1-2" and chunks 2) and with neither set, the handler's checks raise
    the 400 validation error inside the [try] block, and the closing
    [except Exception] replaces it: both requests end in status 500, not
    in a validation error.  The service has no such check: called with
    both it splits into chunks and ignores the pages.  The handler's test
    is the truth value of the parameters, so a request that supplies both
    pages "1-2" and chunks 0 goes through, in pages mode. *)
Theorem split_exclusivity_error_is_swallowed :
  Routes.split_pdf_call (sample_pdf 0 4) (Some "1-2"%string) (Some 2)
  = Err (HTTPException 400) /\
  Handlers.split_pdf (sample_pdf 0 4) (Some "1-2"%string) (Some 2)
  = Err (HTTPException 500) /\
  Routes.split_pdf_call (sample_pdf 0 4) None None = Err (HTTPException 400) /\
  Handlers.split_pdf (sample_pdf 0 4) None None = Err (HTTPException 500) /\
  PDFService.split_pdf (sample_pdf 0 4) (Some "1-2"%string) (Some 2)
  = Ok [sample_pdf 0 2; sample_pdf 2 2] /\
  Handlers.split_pdf (sample_pdf 0 4) (Some "1-2"%string) (Some 0)
  = Ok [{| Handlers.file_pages := 2; Handlers.part := 1 |}].
Proof.
  repeat split; vm_compute; reflexivity.
Qed.

(** Reading the items [lo..hi) of a sequence one by one and appending
    [g i xs[i]] to the accumulator: no [IndexError] inside the bounds. *)
Lemma getitem_lookup {A} (xs : list A) (i : Z) (x : A) :
  0 <= i -> xs !! Z.to_nat i = Some x -> Py.getitem xs i = Ok x.
Proof.
  intros Hi Hx. unfold Py.getitem.
  pose proof (lookup_lt_Some _ _ _ Hx) as Hlt.
  destruct (i <? 0) eqn:Hneg; bool_to_prop; [lia|].
  replace ((0 <=? i) && (i <? Z.of_nat (length xs))) with true.
  - now rewrite Hx.
  - symmetry. apply andb_true_iff. split; [apply Z.leb_le|apply Z.ltb_lt]; lia.
Qed.

Lemma for_each_getitem {A B} (xs : list A) (g : Z -> A -> B) (count : nat) :
  forall (lo : Z) (acc : list B),
    0 <= lo -> lo + Z.of_nat count <= Z.of_nat (length xs) ->
    for_each
      (fun acc i => let* x := Py.getitem xs i in Ok (acc ++ [g i x]))
      (Py.range lo (lo + Z.of_nat count)) acc
    = Ok (acc ++ imap (fun k x => g (lo + Z.of_nat k) x)
                   (take count (drop (Z.to_nat lo) xs))).
Proof.
  induction count as [|count IH]; intros lo acc Hlo Hhi.
  - rewrite range_empty by lia. cbn. now rewrite app_nil_r.
  - rewrite range_cons by lia. cbn [for_each].
    destruct (lookup_lt_is_Some_2 xs (Z.to_nat lo)) as [x Hx]; [lia|].
    rewrite (getitem_lookup xs lo x) by assumption. cbn [bind].
    replace (lo + Z.of_nat (S count)) with (lo + 1 + Z.of_nat count) by lia.
    rewrite IH by lia.
    rewrite (drop_S xs x (Z.to_nat lo)) by assumption.
    cbn [take imap]. rewrite <- app_assoc. cbn [app].
    replace (Z.to_nat (lo + 1)) with (S (Z.to_nat lo)) by lia.
    do 3 f_equal; [f_equal; lia|].
    apply imap_ext. intros k y _. cbn. f_equal. lia.
Qed.

Lemma imap_id_snd {A} (xs : list A) (f : nat -> Z) :
  imap (fun k x => (fun (_ : Z) (y : A) => y) (f k) x) xs = xs.
Proof.
  revert f. induction xs as [|x xs IH]; intros f; [reflexivity|].
  cbn [imap]. f_equal. apply (IH (f ∘ S)).
Qed.

Lemma write_pages_range (doc : Pdf) (start size : Z) :
  0 <= start -> 0 <= size -> start + size <= page_count doc ->
  PDFService.write_pages doc (Py.range start (start + size))
  = Ok (take (Z.to_nat size) (drop (Z.to_nat start) doc)).
Proof.
  intros Hstart Hsize Hfit. unfold page_count in Hfit.
  pose proof (for_each_getitem doc (fun _ y => y) (Z.to_nat size) start [])
    as Hloop.
  rewrite Z2Nat.id in Hloop by assumption.
  unfold PDFService.write_pages. cbn beta in Hloop.
  rewrite Hloop by lia. cbn [app]. f_equal.
  apply (imap_id_snd _ (fun k => start + Z.of_nat k)).
Qed.

Lemma total_size_cons (size : Z) (sizes : list Z) :
  total_size (size :: sizes) = size + total_size sizes.
Proof. reflexivity. Qed.

Lemma total_size_nonneg (sizes : list Z) :
  Forall (fun size => 0 <= size) sizes -> 0 <= total_size sizes.
Proof.
  induction 1 as [|size sizes Hsize _ IH]; [cbn; lia|].
  rewrite total_size_cons. lia.
Qed.

Lemma slices_sizes (doc : Pdf) (sizes : list Z) :
  forall start,
    0 <= start -> Forall (fun size => 0 <= size) sizes ->
    start + total_size sizes <= page_count doc ->
    map page_count (slices doc start sizes) = sizes.
Proof.
  unfold page_count.
  induction sizes as [|size sizes IH]; intros start Hstart Hpos Hfit; [reflexivity|].
  apply Forall_cons in Hpos as [Hsize Hpos]. rewrite total_size_cons in Hfit.
  pose proof (total_size_nonneg sizes Hpos).
  cbn [slices map]. rewrite IH by (assumption || lia). f_equal.
  rewrite length_take, length_drop. lia.
Qed.

Lemma slices_concat (doc : Pdf) (sizes : list Z) :
  forall start,
    0 <= start -> Forall (fun size => 0 <= size) sizes ->
    start + total_size sizes = page_count doc ->
    concat (slices doc start sizes) = drop (Z.to_nat start) doc.
Proof.
  unfold page_count.
  induction sizes as [|size sizes IH]; intros start Hstart Hpos Hfit.
  - cbn in *. rewrite drop_ge by lia. reflexivity.
  - apply Forall_cons in Hpos as [Hsize Hpos]. rewrite total_size_cons in Hfit.
    pose proof (total_size_nonneg sizes Hpos).
    cbn [slices concat]. rewrite IH by (assumption || lia).
    replace (Z.to_nat (start + size)) with (Z.to_nat start + Z.to_nat size)%nat by lia.
    rewrite <- drop_drop. apply take_drop.
Qed.

Lemma slices_length (doc : Pdf) (sizes : list Z) (start : Z) :
  length (slices doc start sizes) = length sizes.
Proof.
  revert start. induction sizes as [|size sizes IH]; intros start; [reflexivity|].
  cbn [slices length]. now rewrite IH.
Qed.

Lemma chunk_sizes_sum (per rem : Z) (count : nat) :
  forall lo,
    0 <= lo ->
    total_size
      (map (fun i => per + (if i <? rem then 1 else 0))
         (Py.range lo (lo + Z.of_nat count)))
    = Z.of_nat count * per + (Z.min (lo + Z.of_nat count) rem - Z.min lo rem).
Proof.
  induction count as [|count IH]; intros lo Hlo.
  - rewrite range_empty by lia. cbn. lia.
  - rewrite range_cons by lia. cbn [map]. rewrite total_size_cons.
    replace (lo + Z.of_nat (S count)) with (lo + 1 + Z.of_nat count) by lia.
    rewrite IH by lia. rewrite Nat2Z.inj_succ, Z.mul_succ_l.
    destruct (lo <? rem) eqn:Hlt; bool_to_prop; lia.
Qed.

Lemma split_loop (doc : Pdf) (per rem : Z) (indices : list Z) :
  0 <= per ->
  forall (start : Z) (results : list Pdf),
    0 <= start ->
    start + total_size (map (fun i => per + (if i <? rem then 1 else 0)) indices)
    <= page_count doc ->
    for_each
      (fun '(start, results) i =>
         let end_ := start + per + (if i <? rem then 1 else 0) in
         let* output := PDFService.write_pages doc (Py.range start end_) in
         Ok (end_, results ++ [output]))
      indices (start, results)
    = Ok (start + total_size (map (fun i => per + (if i <? rem then 1 else 0)) indices),
          results ++ slices doc start
                       (map (fun i => per + (if i <? rem then 1 else 0)) indices)).
Proof.
  intros Hper. set (size := fun i => per + (if i <? rem then 1 else 0)).
  assert (Hsize : forall i, 0 <= size i) by (intros i; unfold size; destruct (i <? rem); lia).
  induction indices as [|i indices IH]; intros start results Hstart Hfit.
  - cbn. now rewrite Z.add_0_r, app_nil_r.
  - cbn [map] in *. rewrite total_size_cons in *.
    assert (0 <= total_size (map size indices)).
    { apply total_size_nonneg, Forall_map, Forall_forall. intros j _. apply Hsize. }
    pose proof (Hsize i).
    cbn [for_each].
    replace (start + per + (if i <? rem then 1 else 0)) with (start + size i)
      by (unfold size; lia).
    rewrite write_pages_range by lia. cbn [bind].
    rewrite IH by lia.
    cbn [slices]. rewrite <- app_assoc. cbn [app]. do 2 f_equal. lia.
Qed.

Lemma split_chunks_slices (doc : Pdf) (chunks : Z) :
  0 < chunks ->
  PDFService.split_chunks doc chunks
  = Ok (slices doc 0
          (map (chunk_size (page_count doc) chunks) (Py.range 0 chunks))) /\
  total_size (map (chunk_size (page_count doc) chunks) (Py.range 0 chunks))
  = page_count doc /\
  Forall (fun size => 0 <= size)
    (map (chunk_size (page_count doc) chunks) (Py.range 0 chunks)).
Proof.
  intros Hchunks. set (total := page_count doc).
  assert (Htotal : 0 <= total) by (unfold total, page_count; lia).
  assert (Hper : 0 <= total / chunks) by (apply Z.div_pos; lia).
  pose proof (Z.mod_pos_bound total chunks Hchunks) as Hrem.
  pose proof (Z.div_mod total chunks ltac:(lia)) as Hdiv.
  assert (Hsum : total_size (map (chunk_size total chunks) (Py.range 0 chunks)) = total).
  { pose proof (chunk_sizes_sum (total / chunks) (total mod chunks)
                  (Z.to_nat chunks) 0 ltac:(lia)) as Hs.
    rewrite Z.add_0_l, Z2Nat.id in Hs by lia.
    unfold chunk_size. rewrite Hs. lia. }
  split; [|split; [exact Hsum|]].
  - unfold PDFService.split_chunks. cbv zeta. fold (page_count doc). fold total.
    pose proof (split_loop doc (total / chunks) (total mod chunks)
                  (Py.range 0 chunks) Hper 0 []) as Hloop.
    cbv beta zeta in Hloop. unfold chunk_size in Hsum. rewrite Hsum in Hloop.
    rewrite Hloop by (fold total; lia). reflexivity.
  - apply Forall_map, Forall_forall. intros i _. unfold chunk_size.
    destruct (i <? total mod chunks); lia.
Qed.

(** C5 (as amended): Split chunks arithmetic.  In chunks mode with a
    positive chunk count the service returns exactly [chunks] documents;
    document [i] has floor(total/chunks) pages, one more when
    [i < total mod chunks]; laid end to end the outputs are the input, so
    the page order is kept and the page counts add up to [total]; two
    outputs never differ by more than one page.  Ten pages in three chunks
    come out as 4, 3 and 3. *)
Theorem split_chunks_arithmetic :
  (forall (doc : Pdf) (pages : option string) (chunks : Z),
     0 < chunks -> chunks_rule doc pages chunks) /\
  PDFService.split_pdf (sample_pdf 0 10) None (Some 3)
  = Ok [sample_pdf 0 4; sample_pdf 4 3; sample_pdf 7 3] /\
  map page_count [sample_pdf 0 4; sample_pdf 4 3; sample_pdf 7 3] = [4; 3; 3].
Proof.
  split; [|split; vm_compute; reflexivity].
  intros doc pages chunks Hchunks.
  destruct (split_chunks_slices doc chunks Hchunks) as (Hrun & Hsum & Hpos).
  set (sizes := map (chunk_size (page_count doc) chunks) (Py.range 0 chunks)) in *.
  assert (Hsizes : map page_count (slices doc 0 sizes) = sizes)
    by (apply slices_sizes; (assumption || lia)).
  exists (slices doc 0 sizes). repeat split.
  - unfold PDFService.split_pdf, Py.truthy_int.
    replace (chunks =? 0) with false by (symmetry; apply Z.eqb_neq; lia).
    exact Hrun.
  - rewrite slices_length. unfold sizes. rewrite length_map, range_length. lia.
  - exact Hsizes.
  - rewrite slices_concat by (assumption || lia). reflexivity.
  - now rewrite Hsizes.
  - intros a b Ha Hb.
    assert (Hin : forall d, d ∈ slices doc 0 sizes ->
                  page_count d = page_count doc / chunks \/
                  page_count d = page_count doc / chunks + 1).
    { intros d Hd.
      assert (Hmem : page_count d ∈ sizes).
      { rewrite <- Hsizes. apply list_elem_of_fmap. eauto. }
      unfold sizes in Hmem. apply list_elem_of_fmap in Hmem as (i & -> & _).
      unfold chunk_size. destruct (i <? page_count doc mod chunks); lia. }
    destruct (Hin a Ha), (Hin b Hb); lia.
Qed.

Lemma split_chunks_arithmetic_witness :
  0 < 2 /\ chunks_rule (sample_pdf 0 7) None 2.
Proof.
  split; [lia|]. apply (proj1 split_chunks_arithmetic (sample_pdf 0 7) None 2). lia.
Defined.

(** The rule as the specification words it, for every chunk count in
    chunks mode, fails for a negative count: -2 is true as a condition, so
    the request is in chunks mode, and the loop over [range(chunks)] runs
    no round; there is no output, not -2 of them, and the three pages of
    the input are in none. *)
Lemma chunks_rule_counterexample :
  Py.truthy_int (Some (-2)) = true /\
  PDFService.split_pdf (sample_pdf 0 3) None (Some (-2)) = Ok [] /\
  ~ chunks_rule (sample_pdf 0 3) None (-2).
Proof.
  split; [reflexivity|]. split; [reflexivity|].
  intros (outputs & Hrun & Hlen & _).
  assert (outputs = []) as -> by (vm_compute in Hrun; congruence).
  discriminate.
Qed.

(** ** Rotating *)

Lemma rotate_pdf_selected (doc : Pdf) (angle : Z) (pages : option string)
    (selected : list Z) :
  PDFService.pages_or_all pages (page_count doc) = Ok selected ->
  PDFService.rotate_pdf doc angle pages = Ok (rotate_selected angle selected doc).
Proof.
  intros Hsel. unfold PDFService.rotate_pdf. cbv zeta.
  fold (page_count doc). rewrite Hsel. cbn [bind].
  pose proof (for_each_getitem doc
                (fun i page => if bool_decide (i ∈ selected)
                               then PyPDF2.rotate angle page else page)
                (length doc) 0 []) as Hloop.
  cbv beta in Hloop. rewrite Z.add_0_l in Hloop. fold (page_count doc) in Hloop.
  rewrite Hloop by (unfold page_count; lia).
  cbn [app Z.to_nat drop]. rewrite firstn_all. reflexivity.
Qed.

Lemma rotate_all_pages (doc : Pdf) (angle : Z) :
  PDFService.rotate_pdf doc angle None = Ok (map (PyPDF2.rotate angle) doc).
Proof.
  rewrite (rotate_pdf_selected doc angle None (Py.range 0 (page_count doc)))
    by reflexivity.
  f_equal. unfold rotate_selected. apply list_eq. intros k.
  change (map (PyPDF2.rotate angle) doc) with (PyPDF2.rotate angle <$> doc).
  rewrite list_lookup_imap, list_lookup_fmap.
  destruct (doc !! k) as [page|] eqn:Hk; [|reflexivity]. cbn.
  rewrite bool_decide_true; [reflexivity|].
  apply range_elem. apply lookup_lt_Some in Hk. unfold page_count. lia.
Qed.

Lemma rotate_twice (a b : Z) (page : PyPDF2.PageObject) :
  PyPDF2.rotate b (PyPDF2.rotate a page) = PyPDF2.rotate (a + b) page.
Proof.
  unfold PyPDF2.rotate. cbn. f_equal.
  rewrite Z.add_mod_idemp_l by lia. f_equal. lia.
Qed.

(** C6: Rotation composition.  [rotate_pdf] keeps the number and order of
    the pages; a page inside the selection gets its rotation value
    replaced by (old value + angle) mod 360 and is otherwise unchanged, a
    page outside the selection is copied as it is; and rotating all pages
    by 90 twice gives the same document, hence the same per-page rotation
    values, as rotating all pages once by 180. *)
Theorem rotation_composition :
  (forall (doc : Pdf) (angle : Z) (pages : option string) (selected : list Z),
     PDFService.pages_or_all pages (page_count doc) = Ok selected ->
     exists rotated,
       PDFService.rotate_pdf doc angle pages = Ok rotated /\
       length rotated = length doc /\
       forall (k : nat) (page : PyPDF2.PageObject),
         doc !! k = Some page ->
         (Z.of_nat k ∈ selected ->
          rotated !! k
          = Some {| PyPDF2.body := PyPDF2.body page;
                    PyPDF2.Rotate := (PyPDF2.Rotate page + angle) mod 360 |}) /\
         (Z.of_nat k ∉ selected -> rotated !! k = Some page)) /\
  (forall doc : Pdf,
     exists once twice half,
       PDFService.rotate_pdf doc 90 None = Ok once /\
       PDFService.rotate_pdf once 90 None = Ok twice /\
       PDFService.rotate_pdf doc 180 None = Ok half /\
       twice = half /\
       map PyPDF2.Rotate twice = map PyPDF2.Rotate half).
Proof.
  split.
  - intros doc angle pages selected Hsel.
    exists (rotate_selected angle selected doc).
    split; [now apply rotate_pdf_selected|].
    split; [apply length_imap|].
    intros k page Hk. unfold rotate_selected.
    rewrite list_lookup_imap, Hk. cbn.
    split; intros Hmem.
    + now rewrite bool_decide_true.
    + now rewrite bool_decide_false.
  - intros doc.
    exists (map (PyPDF2.rotate 90) doc),
           (map (PyPDF2.rotate 90) (map (PyPDF2.rotate 90) doc)),
           (map (PyPDF2.rotate 180) doc).
    rewrite !rotate_all_pages.
    assert (Heq : map (PyPDF2.rotate 90) (map (PyPDF2.rotate 90) doc)
                  = map (PyPDF2.rotate 180) doc).
    { rewrite map_map. apply map_ext. intros page. apply rotate_twice. }
    rewrite Heq. repeat split; reflexivity.
Qed.

Lemma rotation_composition_witness :
  exists rotated,
    PDFService.rotate_pdf (sample_pdf 0 3) 90 (Some "2"%string) = Ok rotated /\
    length rotated = length (sample_pdf 0 3) /\
    forall (k : nat) (page : PyPDF2.PageObject),
      sample_pdf 0 3 !! k = Some page ->
      (Z.of_nat k ∈ [1] ->
       rotated !! k
       = Some {| PyPDF2.body := PyPDF2.body page;
                 PyPDF2.Rotate := (PyPDF2.Rotate page + 90) mod 360 |}) /\
      (Z.of_nat k ∉ [1] -> rotated !! k = Some page).
Proof.
  apply (proj1 rotation_composition (sample_pdf 0 3) 90 (Some "2"%string) [1]).
  vm_compute. reflexivity.
Defined.

(** ** Compressing and extracting images *)

Lemma for_each_app {A S : Type} (body : S -> A -> result S) (xs ys : list A) (s : S) :
  for_each body (xs ++ ys) s
  = let* s' := for_each body xs s in for_each body ys s'.
Proof.
  revert s. induction xs as [|x xs IH]; intros s; [reflexivity|].
  cbn [app for_each]. destruct (body s x); cbn [bind]; [apply IH|reflexivity].
Qed.

Lemma for_each_concat {A S : Type} (body : S -> A -> result S)
    (xss : list (list A)) (s : S) :
  for_each (fun s xs => for_each body xs s) xss s = for_each body (concat xss) s.
Proof.
  revert s. induction xss as [|xs xss IH]; intros s; [reflexivity|].
  cbn [for_each concat]. rewrite for_each_app.
  destruct (for_each body xs s); cbn [bind]; [apply IH|reflexivity].
Qed.

Lemma getitem_in_bounds {A} (xs : list A) (i : Z) :
  - Z.of_nat (length xs) <= i < Z.of_nat (length xs) ->
  exists x, Py.getitem xs i = Ok x.
Proof.
  intros Hi. unfold Py.getitem.
  set (j := if i <? 0 then i + Z.of_nat (length xs) else i).
  assert (Hj : 0 <= j < Z.of_nat (length xs)).
  { unfold j. destruct (i <? 0) eqn:Hneg; bool_to_prop; lia. }
  destruct (lookup_lt_is_Some_2 xs (Z.to_nat j)) as [x Hx]; [lia|].
  exists x. rewrite Hx.
  replace ((0 <=? j) && (j <? Z.of_nat (length xs))) with true; [reflexivity|].
  symmetry. apply andb_true_iff. split; [apply Z.leb_le|apply Z.ltb_lt]; lia.
Qed.

Lemma pages_or_all_bounds (pages : option string) (total : Z) (selected : list Z) :
  PDFService.pages_or_all pages total = Ok selected ->
  Forall (fun i => -1 <= i < total) selected.
Proof.
  unfold PDFService.pages_or_all. destruct (Py.truthy_str pages).
  - intros Hparse. now apply parse_page_ranges_bounds in Hparse.
  - intros [= <-]. apply Forall_forall. intros i Hi. apply range_elem in Hi. lia.
Qed.

Section FitzProperties.
Context `{L : fitz.Library}.
Import fitz.

Lemma settings_for_level (level : string) (quality : Z) :
  level_quality level = Some quality ->
  PDFService.settings_for level
  = Ok {| PDFService.image_quality := quality;
          PDFService.remove_duplication := true |}.
Proof.
  unfold level_quality.
  destruct (String.eqb_spec level "low") as [ -> | _ ];
    [intros [= <-]; vm_compute; reflexivity|].
  destruct (String.eqb_spec level "medium") as [ -> | _ ];
    [intros [= <-]; vm_compute; reflexivity|].
  destruct (String.eqb_spec level "high") as [ -> | _ ];
    [intros [= <-]; vm_compute; reflexivity|].
  destruct (String.eqb_spec level "extreme") as [ -> | _ ];
    [intros [= <-]; vm_compute; reflexivity|].
  discriminate.
Qed.

Lemma settings_for_unknown (level : string) :
  level ∉ ["low"%string; "medium"%string; "high"%string; "extreme"%string] ->
  PDFService.settings_for level
  = Ok {| PDFService.image_quality := 70;
          PDFService.remove_duplication := true |}.
Proof.
  intros Hlevel. unfold PDFService.settings_for.
  assert (Hmiss : PDFService.compression_settings !! level = None).
  { unfold PDFService.compression_settings.
    rewrite !lookup_insert_ne, lookup_empty; [reflexivity|..];
      intros <-; apply Hlevel; set_solver. }
  rewrite Hmiss. vm_compute. reflexivity.
Qed.

(** The step of the image loop on an image that is in the table. *)
Lemma compress_image_step (target : Z) (st : PDFService.CompressionSetting)
    (table : gmap Z ImageObject) (xref : Z) (obj : ImageObject) :
  table !! xref = Some obj ->
  width (image_pixmap obj) <> 0 ->
  height (image_pixmap obj) <> 0 ->
  PDFService.compress_image target st table xref
  = Ok (if gray_or_rgb obj
        then <[xref := recompressed target (PDFService.image_quality st) obj]> table
        else table).
Proof.
  intros Hobj Hw Hh. unfold PDFService.compress_image, PDFService.load_pixmap.
  rewrite Hobj. cbn [bind]. fold (image_pixmap obj). unfold gray_or_rgb.
  destruct (n (image_pixmap obj) - alpha (image_pixmap obj) <? 4); [|reflexivity].
  unfold recompressed, exceeds, downscale_factor.
  destruct ((width (image_pixmap obj) >? target)
            || (height (image_pixmap obj) >? target)); [|reflexivity].
  rewrite drop_alpha_width, drop_alpha_height. unfold PDFService.truediv.
  apply Z.eqb_neq in Hw, Hh. rewrite Hw, Hh. reflexivity.
Qed.

(** The image loop over a list of distinct xrefs. *)
Lemma compress_images_distinct (target : Z) (st : PDFService.CompressionSetting)
    (xrefs : list Z) :
  NoDup xrefs ->
  forall table : gmap Z ImageObject,
    (forall xref, xref ∈ xrefs ->
       exists obj, table !! xref = Some obj /\
                   width (image_pixmap obj) <> 0 /\
                   height (image_pixmap obj) <> 0) ->
    exists table',
      for_each (PDFService.compress_image target st) xrefs table = Ok table' /\
      (forall xref obj,
         xref ∈ xrefs -> table !! xref = Some obj ->
         table' !! xref
         = Some (if gray_or_rgb obj
                 then recompressed target (PDFService.image_quality st) obj
                 else obj)) /\
      (forall xref, xref ∉ xrefs -> table' !! xref = table !! xref).
Proof.
  induction 1 as [|x xrefs Hnotin Hnodup IH]; intros table Hpresent.
  - exists table. split; [reflexivity|]. split; [|reflexivity].
    intros xref obj Hin. inversion Hin.
  - destruct (Hpresent x ltac:(left)) as (obj & Hobj & Hw & Hh).
    cbn [for_each]. rewrite (compress_image_step target st table x obj) by assumption.
    cbn [bind].
    set (table1 := if gray_or_rgb obj
                   then <[x := recompressed target (PDFService.image_quality st) obj]> table
                   else table).
    assert (Hx : table1 !! x
                 = Some (if gray_or_rgb obj
                         then recompressed target (PDFService.image_quality st) obj
                         else obj)).
    { unfold table1. destruct (gray_or_rgb obj); [apply lookup_insert_eq|assumption]. }
    assert (Hother : forall y, y <> x -> table1 !! y = table !! y).
    { intros y Hy. unfold table1. destruct (gray_or_rgb obj); [|reflexivity].
      now apply lookup_insert_ne. }
    destruct (IH table1) as (table' & Hrun & Hin & Hout).
    { intros y Hy. rewrite Hother by (intros ->; contradiction).
      apply Hpresent. now right. }
    exists table'. split; [exact Hrun|]. split.
    + intros y objy Hy Hobjy. apply elem_of_cons in Hy as [ -> | Hy ].
      * assert (obj = objy) as <- by congruence.
        rewrite Hout by assumption. exact Hx.
      * apply Hin; [assumption|]. rewrite Hother by (intros ->; contradiction).
        assumption.
    + intros y Hy. apply not_elem_of_cons in Hy as [Hne Hy].
      rewrite Hout by assumption. now apply Hother.
Qed.

Lemma compress_pdf_with_settings (doc : Document) (level : string)
    (st : PDFService.CompressionSetting) (target : Z) :
  PDFService.settings_for level = Ok st ->
  compressible doc ->
  exists out,
    PDFService.compress_pdf doc level target
    = Ok {| saved_document := out; garbage := 4; deflate := true; clean := true |} /\
    page_images out = page_images doc /\
    (forall xref obj,
       xref ∈ concat (page_images doc) ->
       xref_table doc !! xref = Some obj ->
       xref_table out !! xref
       = Some (if gray_or_rgb obj
               then recompressed target (PDFService.image_quality st) obj
               else obj)) /\
    (forall xref,
       xref ∉ concat (page_images doc) ->
       xref_table out !! xref = xref_table doc !! xref).
Proof.
  intros Hst [Hnodup Hpresent].
  destruct (compress_images_distinct target st _ Hnodup (xref_table doc) Hpresent)
    as (table' & Hrun & Hin & Hout).
  exists {| page_images := page_images doc; xref_table := table' |}.
  split; [|split; [reflexivity|split; assumption]].
  unfold PDFService.compress_pdf. rewrite Hst. cbn [bind].
  rewrite for_each_concat, Hrun. reflexivity.
Qed.

(** C7 (as amended): Compression image rule.  The named levels give the
    qualities low 85, medium 70, high 50, extreme 30.  An image with
    fewer than four colour components (gray or RGB) is, when its width
    or height exceeds the target value, downscaled by
    min(target/width, target/height), then re-encoded as JPEG at the
    quality of the level, and its stream is replaced in place; an image
    with four or more colour components is left as it is.  In a document
    whose pages list each image once this is the state of every listed
    image in the document [compress_pdf] saves (with the options
    garbage 4, deflate, clean); the page lists and all other objects of
    that document are unchanged. *)
Theorem compression_image_rule :
  (PDFService.image_quality <$> PDFService.compression_settings !! "low"%string = Some 85 /\
   PDFService.image_quality <$> PDFService.compression_settings !! "medium"%string = Some 70 /\
   PDFService.image_quality <$> PDFService.compression_settings !! "high"%string = Some 50 /\
   PDFService.image_quality <$> PDFService.compression_settings !! "extreme"%string = Some 30) /\
  (forall (target : Z) (st : PDFService.CompressionSetting)
          (table : gmap Z ImageObject) (xref : Z) (obj : ImageObject),
     table !! xref = Some obj ->
     width (image_pixmap obj) <> 0 ->
     height (image_pixmap obj) <> 0 ->
     PDFService.compress_image target st table xref
     = Ok (if gray_or_rgb obj
           then <[xref := recompressed target (PDFService.image_quality st) obj]> table
           else table)) /\
  (forall (doc : Document) (level : string) (quality target : Z),
     level_quality level = Some quality ->
     compressible doc ->
     exists out,
       PDFService.compress_pdf doc level target
       = Ok {| saved_document := out; garbage := 4; deflate := true;
               clean := true |} /\
       page_images out = page_images doc /\
       (forall xref obj,
          xref ∈ concat (page_images doc) ->
          xref_table doc !! xref = Some obj ->
          xref_table out !! xref
          = Some (if gray_or_rgb obj
                  then recompressed target quality obj
                  else obj)) /\
       (forall xref,
          xref ∉ concat (page_images doc) ->
          xref_table out !! xref = xref_table doc !! xref)).
Proof.
  split; [repeat split; vm_compute; reflexivity|].
  split; [apply compress_image_step|].
  intros doc level quality target Hlevel Hdoc.
  apply (compress_pdf_with_settings doc level _ target
           (settings_for_level level quality Hlevel) Hdoc).
Qed.

(** C10: Implicit compression fallback.  A level name outside low,
    medium, high, extreme does not make the settings lookup fail: it
    yields the medium settings (quality 70), the run is the run with
    level "medium", and on a document whose images are present it
    succeeds with every gray or RGB image re-encoded at quality 70. *)
Theorem compression_level_fallback (doc : Document) (level : string) (target : Z) :
  level ∉ ["low"%string; "medium"%string; "high"%string; "extreme"%string] ->
  PDFService.settings_for level
  = Ok {| PDFService.image_quality := 70; PDFService.remove_duplication := true |} /\
  PDFService.compress_pdf doc level target
  = PDFService.compress_pdf doc "medium" target /\
  (compressible doc ->
   exists out,
     PDFService.compress_pdf doc level target
     = Ok {| saved_document := out; garbage := 4; deflate := true;
             clean := true |} /\
     forall xref obj,
       xref ∈ concat (page_images doc) ->
       xref_table doc !! xref = Some obj ->
       xref_table out !! xref
       = Some (if gray_or_rgb obj then recompressed target 70 obj else obj)).
Proof.
  intros Hlevel. pose proof (settings_for_unknown level Hlevel) as Hst.
  split; [exact Hst|]. split.
  - unfold PDFService.compress_pdf. rewrite Hst.
    now rewrite (settings_for_level "medium" 70 eq_refl).
  - intros Hdoc.
    destruct (compress_pdf_with_settings doc level _ target Hst Hdoc)
      as (out & Hrun & _ & Hin & _).
    exists out. split; assumption.
Qed.

End FitzProperties.

Lemma photo_document_compressible :
  @compressible Sample.library Sample.photo_document.
Proof.
  split.
  - cbn. repeat (apply NoDup_cons_2; [not_in_list|]). apply NoDup_nil_2.
  - intros xref Hin. cbn in Hin.
    repeat (apply elem_of_cons in Hin as [ -> | Hin ]);
      [| | |inversion Hin];
      eexists; (split; [vm_compute; reflexivity|split; cbn; lia]).
Defined.

Lemma compression_image_rule_witness :
  exists out,
    PDFService.compress_pdf Sample.photo_document "high" 150
    = Ok {| fitz.saved_document := out; fitz.garbage := 4;
            fitz.deflate := true; fitz.clean := true |} /\
    fitz.page_images out = fitz.page_images Sample.photo_document /\
    (forall xref obj,
       xref ∈ concat (fitz.page_images Sample.photo_document) ->
       fitz.xref_table Sample.photo_document !! xref = Some obj ->
       fitz.xref_table out !! xref
       = Some (if gray_or_rgb obj then recompressed 150 50 obj else obj)) /\
    (forall xref,
       xref ∉ concat (fitz.page_images Sample.photo_document) ->
       fitz.xref_table out !! xref = fitz.xref_table Sample.photo_document !! xref).
Proof.
  apply (proj2 (proj2 (@compression_image_rule Sample.library))
           Sample.photo_document "high"%string 50 150 eq_refl
           photo_document_compressible).
Defined.

(** The rule as the specification words it fails on a page with a CMYK
    image: [compress_pdf] leaves the image as it was embedded. *)
Lemma image_rule_counterexample :
  PDFService.compress_pdf Sample.cmyk_document "medium" 150
  = Ok {| fitz.saved_document := Sample.cmyk_document; fitz.garbage := 4;
          fitz.deflate := true; fitz.clean := true |} /\
  ~ image_rule_as_stated 150 70 Sample.cmyk_document Sample.cmyk_document.
Proof.
  split; [vm_compute; reflexivity|].
  intros Hrule.
  specialize (Hrule 7 (Sample.image 2000 2000 4)).
  assert (Hin : 7 ∈ concat (fitz.page_images Sample.cmyk_document))
    by (cbn; set_solver).
  assert (Hobj : fitz.xref_table Sample.cmyk_document !! 7
                 = Some (Sample.image 2000 2000 4))
    by apply lookup_singleton_eq.
  specialize (Hrule Hin Hobj). rewrite Hobj in Hrule. discriminate.
Qed.

Lemma compression_level_fallback_witness :
  PDFService.settings_for "ultra"
  = Ok {| PDFService.image_quality := 70; PDFService.remove_duplication := true |} /\
  PDFService.compress_pdf Sample.photo_document "ultra" 150
  = PDFService.compress_pdf Sample.photo_document "medium" 150.
Proof.
  assert (Hlevel : "ultra"%string
                   ∉ ["low"%string; "medium"%string; "high"%string; "extreme"%string]).
  { not_in_list. }
  split.
  - apply (proj1 (@compression_level_fallback Sample.library
                    Sample.photo_document "ultra"%string 150 Hlevel)).
  - apply (proj1 (proj2 (@compression_level_fallback Sample.library
                           Sample.photo_document "ultra"%string 150 Hlevel))).
Defined.

Lemma getitem_elem {A} (xs : list A) (i : Z) (x : A) :
  Py.getitem xs i = Ok x -> x ∈ xs.
Proof.
  unfold Py.getitem. destruct (_ && _); [|discriminate].
  destruct (xs !! _) eqn:Hx; [|discriminate].
  intros [= <-]. eapply list_elem_of_lookup_2. eassumption.
Qed.

Lemma enumerate_elem {A} (xs : list A) (entry : Z * A) :
  entry ∈ Py.enumerate xs <->
  exists k : nat, entry.1 = Z.of_nat k /\ xs !! k = Some entry.2.
Proof.
  unfold Py.enumerate. rewrite elem_of_lookup_imap. split.
  - intros (k & x & -> & Hx). exists k. split; [reflexivity|exact Hx].
  - intros (k & Hk & Hx). exists k, entry.2. split; [|exact Hx].
    destruct entry as [i x]. cbn in *. now subst.
Qed.

Section ExtractionProperties.
Context `{L : fitz.Library}.
Import fitz.

Lemma extract_image_step (table : gmap Z ImageObject) (page_num : Z)
    (min_width min_height : Z) (image_format : string)
    (extracted_images : list PDFService.ExtractedImage)
    (img_index xref : Z) (obj : ImageObject) :
  table !! xref = Some obj ->
  PDFService.extract_image table page_num min_width min_height image_format
    extracted_images (img_index, xref)
  = Ok (extracted_images
        ++ (if meets_minimum min_width min_height obj
            then [extracted page_num img_index image_format obj]
            else [])).
Proof.
  intros Hobj. unfold PDFService.extract_image, PDFService.load_pixmap.
  rewrite Hobj. cbn [bind]. fold (image_pixmap obj).
  unfold meets_minimum. rewrite !Z.geb_leb.
  destruct ((min_width <=? width (image_pixmap obj))
            && (min_height <=? height (image_pixmap obj)));
    [reflexivity|now rewrite app_nil_r].
Qed.

Lemma extract_page (table : gmap Z ImageObject) (page_num : Z)
    (min_width min_height : Z) (image_format : string)
    (entries : list (Z * Z)) :
  Forall (fun entry => is_Some (table !! entry.2)) entries ->
  forall extracted_images,
    for_each
      (PDFService.extract_image table page_num min_width min_height image_format)
      entries extracted_images
    = Ok (extracted_images
          ++ page_extract table page_num min_width min_height image_format entries).
Proof.
  induction 1 as [|[img_index xref] entries [obj Hobj] _ IH];
    intros extracted_images.
  - cbn. now rewrite app_nil_r.
  - cbn [snd] in Hobj. cbn [for_each].
    rewrite (extract_image_step _ _ _ _ _ _ _ _ obj Hobj). cbn [bind].
    rewrite IH. unfold page_extract. cbn [flat_map fst snd]. rewrite Hobj.
    now rewrite <- app_assoc.
Qed.

Lemma extract_pages (doc : Document) (min_width min_height : Z)
    (image_format : string) (selected : list Z) :
  images_present doc ->
  Forall (fun i => - Z.of_nat (length (page_images doc)) <= i
                   < Z.of_nat (length (page_images doc))) selected ->
  forall extracted_images,
    for_each
      (fun extracted_images page_num =>
         let* image_list := Py.getitem (page_images doc) page_num in
         for_each
           (PDFService.extract_image (xref_table doc) page_num
              min_width min_height image_format)
           (Py.enumerate image_list) extracted_images)
      selected extracted_images
    = Ok (extracted_images
          ++ document_extract doc selected min_width min_height image_format).
Proof.
  intros Hpresent. induction 1 as [|page_num selected Hbound _ IH];
    intros extracted_images.
  - cbn. now rewrite app_nil_r.
  - cbn [for_each document_extract flat_map].
    fold (document_extract doc selected min_width min_height image_format).
    destruct (getitem_in_bounds _ _ Hbound) as [image_list Hget].
    rewrite Hget. cbn [bind]. rewrite extract_page.
    + cbn [bind]. rewrite IH. now rewrite <- app_assoc.
    + apply Forall_forall. intros entry Hentry.
      apply enumerate_elem in Hentry as (k & _ & Hk).
      apply Hpresent. apply list_elem_of_In, in_concat.
      exists image_list. split; apply list_elem_of_In.
      * eapply getitem_elem. eassumption.
      * eapply list_elem_of_lookup_2. eassumption.
Qed.

(** C8: Image extraction threshold.  On a document with at least one
    page whose listed images are all present, and for every page
    selection the resolver accepts, [extract_images] returns exactly the
    images of the selected pages whose width is at least [min_width] and
    whose height is at least [min_height]; no returned image is below
    either minimum, whatever its other side. *)
Theorem image_extraction_threshold (doc : Document) (pages : option string)
    (selected : list Z) (min_width min_height : Z) (image_format : string) :
  images_present doc ->
  page_images doc <> [] ->
  PDFService.pages_or_all pages (Z.of_nat (length (page_images doc))) = Ok selected ->
  exists images,
    PDFService.extract_images doc pages min_width min_height image_format
    = Ok images /\
    (forall e,
       e ∈ images <->
       exists (page_num : Z) (image_list : list Z) (k : nat) (xref : Z)
              (obj : ImageObject),
         page_num ∈ selected /\
         Py.getitem (page_images doc) page_num = Ok image_list /\
         image_list !! k = Some xref /\
         xref_table doc !! xref = Some obj /\
         (min_width <= width (image_pixmap obj) /\
          min_height <= height (image_pixmap obj)) /\
         e = extracted page_num (Z.of_nat k) image_format obj) /\
    (forall e,
       e ∈ images ->
       min_width <= PDFService.img_width e /\
       min_height <= PDFService.img_height e).
Proof.
  intros Hpresent Hpages Hsel.
  assert (Hbounds : Forall (fun i => - Z.of_nat (length (page_images doc)) <= i
                                     < Z.of_nat (length (page_images doc))) selected).
  { apply pages_or_all_bounds in Hsel. eapply Forall_impl; [exact Hsel|].
    intros i Hi. cbn in Hi. destruct (page_images doc); [congruence|].
    cbn [length] in *. lia. }
  exists (document_extract doc selected min_width min_height image_format).
  assert (Hmem : forall e,
    e ∈ document_extract doc selected min_width min_height image_format <->
    exists (page_num : Z) (image_list : list Z) (k : nat) (xref : Z)
           (obj : ImageObject),
      page_num ∈ selected /\
      Py.getitem (page_images doc) page_num = Ok image_list /\
      image_list !! k = Some xref /\
      xref_table doc !! xref = Some obj /\
      (min_width <= width (image_pixmap obj) /\
       min_height <= height (image_pixmap obj)) /\
      e = extracted page_num (Z.of_nat k) image_format obj).
  { intros e. unfold document_extract. rewrite list_elem_of_In, in_flat_map. split.
    - intros (page_num & Hpn & He). apply list_elem_of_In in Hpn.
      destruct (Py.getitem (page_images doc) page_num) as [image_list|] eqn:Hget;
        [|inversion He].
      unfold page_extract in He. apply in_flat_map in He as ([i xref] & Hentry & He).
      apply list_elem_of_In, enumerate_elem in Hentry as (k & Hi & Hk).
      cbn [fst snd] in *. subst i.
      destruct (xref_table doc !! xref) as [obj|] eqn:Hobj; [|inversion He].
      destruct (meets_minimum min_width min_height obj) eqn:Hmin; [|inversion He].
      destruct He as [<-|[]].
      unfold meets_minimum in Hmin. bool_to_prop.
      exists page_num, image_list, k, xref, obj. repeat split; assumption.
    - intros (page_num & image_list & k & xref & obj
              & Hpn & Hget & Hk & Hobj & [Hw Hh] & ->).
      exists page_num. split; [now apply list_elem_of_In|].
      rewrite Hget. unfold page_extract. apply in_flat_map.
      exists (Z.of_nat k, xref). split.
      + apply list_elem_of_In, enumerate_elem. exists k. split; [reflexivity|exact Hk].
      + cbn [fst snd]. rewrite Hobj. unfold meets_minimum.
        apply Z.leb_le in Hw, Hh. rewrite Hw, Hh. now left. }
  split; [|split; [exact Hmem|]].
  - unfold PDFService.extract_images. cbv zeta. rewrite Hsel. cbn [bind].
    now rewrite extract_pages.
  - intros e He. apply Hmem in He
      as (page_num & image_list & k & xref & obj & _ & _ & _ & _ & Hmin & ->).
    exact Hmin.
Qed.

End ExtractionProperties.

Lemma photo_document_images_present :
  @images_present Sample.library Sample.photo_document.
Proof.
  intros xref Hin.
  destruct (proj2 photo_document_compressible xref Hin) as (obj & Hobj & _).
  exists obj. exact Hobj.
Defined.

(** With both minimums at 100 the 50 x 2000 image of the first page is
    left out; the two larger images are returned. *)
Lemma image_extraction_threshold_witness :
  PDFService.extract_images Sample.photo_document None 100 100 "png"
  = Ok [extracted 0 1 "png" (Sample.image 640 480 1);
        extracted 1 0 "png" (Sample.image 300 200 3)] /\
  exists images,
    PDFService.extract_images Sample.photo_document None 100 100 "png" = Ok images /\
    (forall e,
       e ∈ images <->
       exists (page_num : Z) (image_list : list Z) (k : nat) (xref : Z)
              (obj : @fitz.ImageObject Sample.library),
         page_num ∈ [0; 1] /\
         Py.getitem (fitz.page_images Sample.photo_document) page_num = Ok image_list /\
         image_list !! k = Some xref /\
         fitz.xref_table Sample.photo_document !! xref = Some obj /\
         (100 <= fitz.width (image_pixmap obj) /\
          100 <= fitz.height (image_pixmap obj)) /\
         e = extracted page_num (Z.of_nat k) "png" obj) /\
    (forall e,
       e ∈ images ->
       100 <= PDFService.img_width e /\ 100 <= PDFService.img_height e).
Proof.
  split; [vm_compute; reflexivity|].
  apply (@image_extraction_threshold Sample.library Sample.photo_document
           None [0; 1] 100 100 "png" photo_document_images_present).
  - discriminate.
  - reflexivity.
Defined.

Lemma page_range_resolution_witness :
  exists resolved,
    PDFService.parse_page_ranges (Some " 2, 4-6"%string) 5 = Ok resolved /\
    forall i, i ∈ resolved <->
              exists t, t ∈ [Grammar.Single "2"; Grammar.Range "4" "6"] /\
                        i ∈ Grammar.indices 5 t.
Proof.
  apply (proj1 (proj2 (page_range_resolution 5))
           " 2, 4-6"%string [Grammar.Single "2"; Grammar.Range "4" "6"]).
  - discriminate.
  - repeat constructor.
  - reflexivity.
Defined.

(** * Further properties of the engine *)

(** ** The resolver: shape of the result, errors, canonical form *)

Lemma ascending_NoDup (xs : list Z) : StronglySorted Z.lt xs -> NoDup xs.
Proof.
  induction 1 as [|x xs _ IH Hx]; [apply NoDup_nil_2|].
  apply NoDup_cons_2; [|exact IH].
  intros Hin. rewrite Forall_forall in Hx. specialize (Hx x Hin). lia.
Qed.

Lemma ascending_le (xs : list Z) : StronglySorted Z.lt xs -> StronglySorted Z.le xs.
Proof.
  induction 1 as [|x xs _ IH Hx]; constructor; [exact IH|].
  eapply Forall_impl; [exact Hx|]. intros y Hy. cbn in Hy. lia.
Qed.

(** Two lists with the same members have the same [sorted(set(...))]. *)
Lemma sorted_set_ext (xs ys : list Z) :
  (forall i, i ∈ xs <-> i ∈ ys) -> Py.sorted_set xs = Py.sorted_set ys.
Proof.
  intros Hsame. unfold Py.sorted_set.
  assert (Heq : (list_to_set xs : gset Z) = list_to_set ys).
  { apply set_eq. intros i. rewrite !elem_of_list_to_set. apply Hsame. }
  now rewrite Heq.
Qed.

(** An ascending list is its own [sorted(set(...))]. *)
Lemma sorted_set_ascending_id (xs : list Z) :
  StronglySorted Z.lt xs -> Py.sorted_set xs = xs.
Proof.
  intros Hasc.
  apply (StronglySorted_unique Z.le).
  - apply ascending_le, sorted_set_ascending.
  - now apply ascending_le.
  - apply NoDup_Permutation.
    + apply sorted_set_NoDup.
    + now apply ascending_NoDup.
    + apply sorted_set_elem.
Qed.

Lemma for_each_error {A S : Type} (P : exn -> Prop)
    (body : S -> A -> result S) (xs : list A) :
  (forall s x e, body s x = Err e -> P e) ->
  forall s e, for_each body xs s = Err e -> P e.
Proof.
  intros Hbody. induction xs as [|x xs IH]; intros s e; [discriminate|].
  cbn [for_each]. destruct (body s x) as [s'|e'] eqn:Hb; cbn [bind].
  - apply IH.
  - intros [= <-]. eapply Hbody. eassumption.
Qed.

Lemma for_each_fails {A S : Type} (body : S -> A -> result S) (bad : A)
    (xs : list A) (e0 : exn) :
  bad ∈ xs ->
  (forall s, body s bad = Err e0) ->
  (forall s x e, body s x = Err e -> e = e0) ->
  forall s, for_each body xs s = Err e0.
Proof.
  intros Hin Hbad Hclass. induction xs as [|x xs IH]; intros s; [inversion Hin|].
  cbn [for_each]. apply elem_of_cons in Hin as [ <- | Hin ].
  - now rewrite Hbad.
  - destruct (body s x) as [s'|e] eqn:Hb; cbn [bind]; [now apply IH|].
    f_equal. eapply Hclass. eassumption.
Qed.

Lemma int_error (s : string) (e : exn) : Py.int s = Err e -> e = ValueError.
Proof.
  unfold Py.int.
  destruct (match Py.strip_of Py.is_int_space s with EmptyString => _ | _ => _ end);
    congruence.
Qed.

Lemma parse_range_str_error (total : Z) (page_list : list Z) (range_str : string)
    (e : exn) :
  PDFService.parse_range_str total page_list range_str = Err e -> e = ValueError.
Proof.
  unfold PDFService.parse_range_str. destruct (Py.contains "-" range_str).
  - destruct (Py.split "-" range_str) as [|s [|t [|x rest]]]; try congruence.
    destruct (Py.int s) eqn:Hs; cbn [bind]; [|intros [= <-]; eauto using int_error].
    destruct (Py.int t) eqn:Ht; cbn [bind]; [discriminate|].
    intros [= <-]. eauto using int_error.
  - destruct (Py.int range_str) eqn:Hs; cbn [bind];
      [|intros [= <-]; eauto using int_error].
    destruct (_ && _); discriminate.
Qed.

(** X1: Every list the resolver returns is strictly ascending and free of
    duplicates, and each of its indices [i] satisfies [-1 <= i < total]. *)
Theorem resolver_output_invariant (pages : option string) (total : Z)
    (resolved : list Z) :
  PDFService.parse_page_ranges pages total = Ok resolved ->
  StronglySorted Z.lt resolved /\
  NoDup resolved /\
  Forall (fun i => -1 <= i < total) resolved.
Proof.
  intros Hparse. apply parse_page_ranges_bounds in Hparse as [Hbound Hasc].
  split; [exact Hasc|]. split; [now apply ascending_NoDup|exact Hbound].
Qed.

Lemma resolver_output_invariant_witness :
  StronglySorted Z.lt [0; 1; 2; 4] /\ NoDup [0; 1; 2; 4] /\
  Forall (fun i => -1 <= i < 5) [0; 1; 2; 4].
Proof.
  apply (resolver_output_invariant (Some "5,3-1,1-3,2"%string) 5 [0; 1; 2; 4]).
  vm_compute. reflexivity.
Defined.

(** X2: The resolver raises nothing but [ValueError]; and it raises it for
    every non-empty expression in which a comma-separated piece (spaces
    removed) is empty or begins with a minus sign, such as a trailing
    comma or a negative page number. *)
Theorem resolver_rejections (pages : string) (total : Z) :
  (forall e, PDFService.parse_page_ranges (Some pages) total = Err e ->
             e = ValueError) /\
  (forall piece,
     pages <> EmptyString ->
     piece ∈ Py.split "," (Py.remove_char " " pages) ->
     piece = EmptyString \/ (exists rest, piece = String "-" rest) ->
     PDFService.parse_page_ranges (Some pages) total = Err ValueError).
Proof.
  split.
  - intros e. unfold PDFService.parse_page_ranges.
    destruct pages as [|c pages]; [discriminate|].
    destruct (for_each _ _ _) eqn:Hloop; cbn [bind]; [discriminate|].
    intros [= <-]. revert Hloop.
    apply (for_each_error (fun e' => e' = ValueError)).
    intros s x e'. apply parse_range_str_error.
  - intros piece Hne Hin Hbad. unfold PDFService.parse_page_ranges.
    destruct pages as [|c pages]; [congruence|].
    rewrite (for_each_fails _ piece _ ValueError); [reflexivity|exact Hin| |].
    + intros s. destruct Hbad as [ -> | [rest ->] ]; [reflexivity|].
      unfold PDFService.parse_range_str. cbn [Py.contains Py.split].
      rewrite Ascii.eqb_refl. cbn [orb].
      destruct (Py.split "-" rest) as [|t [|x r]]; reflexivity.
    + intros s x e. apply parse_range_str_error.
Qed.

Lemma resolver_rejections_witness :
  PDFService.parse_page_ranges (Some "1-3, ,7"%string) 9 = Err ValueError /\
  PDFService.parse_page_ranges (Some "2,-4"%string) 9 = Err ValueError.
Proof.
  split.
  - apply (proj2 (resolver_rejections "1-3, ,7" 9) EmptyString).
    + discriminate.
    + vm_compute. apply list_elem_of_further, list_elem_of_here.
    + left. reflexivity.
  - apply (proj2 (resolver_rejections "2,-4" 9) "-4"%string).
    + discriminate.
    + vm_compute. apply list_elem_of_further, list_elem_of_here.
    + right. exists "4"%string. reflexivity.
Defined.

Lemma remove_char_absent (c : ascii) (s : string) :
  Py.contains c s = false -> Py.remove_char c s = s.
Proof.
  induction s as [|a s IH]; [reflexivity|].
  cbn [Py.contains Py.remove_char]. intros Hc.
  apply orb_false_iff in Hc as [-> Hc]. now rewrite IH.
Qed.

(** X3: The resolver's answer depends only on the set of indices the
    tokens stand for: two well-formed expressions whose tokens contribute
    the same indices (tokens reordered, repeated, or ranges overlapping)
    resolve to the same list. *)
Theorem resolver_canonical (total : Z) (pages1 pages2 : string)
    (toks1 toks2 : list Grammar.token) :
  toks1 <> [] -> toks2 <> [] ->
  Forall (fun t => Grammar.well_formed t = true) toks1 ->
  Forall (fun t => Grammar.well_formed t = true) toks2 ->
  Py.remove_char " " pages1 = Grammar.range_list_text toks1 ->
  Py.remove_char " " pages2 = Grammar.range_list_text toks2 ->
  (forall i, (exists t, t ∈ toks1 /\ i ∈ Grammar.indices total t) <->
             (exists t, t ∈ toks2 /\ i ∈ Grammar.indices total t)) ->
  PDFService.parse_page_ranges (Some pages1) total
  = PDFService.parse_page_ranges (Some pages2) total.
Proof.
  intros Hne1 Hne2 Hwf1 Hwf2 Htext1 Htext2 Hsame.
  rewrite (parse_well_formed total pages1 toks1) by assumption.
  rewrite (parse_well_formed total pages2 toks2) by assumption.
  f_equal. apply sorted_set_ext. intros i.
  rewrite !list_elem_of_In, !in_flat_map.
  split; intros (t & Ht & Hi).
  - destruct (proj1 (Hsame i)) as (t' & Ht' & Hi').
    { exists t. split; now apply list_elem_of_In. }
    exists t'. split; now apply list_elem_of_In.
  - destruct (proj2 (Hsame i)) as (t' & Ht' & Hi').
    { exists t. split; now apply list_elem_of_In. }
    exists t'. split; now apply list_elem_of_In.
Qed.

Lemma same_indices_by_evaluation (total : Z) (toks1 toks2 : list Grammar.token) :
  Py.sorted_set (flat_map (Grammar.indices total) toks1)
  = Py.sorted_set (flat_map (Grammar.indices total) toks2) ->
  forall i, (exists t, t ∈ toks1 /\ i ∈ Grammar.indices total t) <->
            (exists t, t ∈ toks2 /\ i ∈ Grammar.indices total t).
Proof.
  intros Heq i.
  assert (Hmem : forall toks,
            (exists t, t ∈ toks /\ i ∈ Grammar.indices total t)
            <-> i ∈ Py.sorted_set (flat_map (Grammar.indices total) toks)).
  { intros toks. rewrite sorted_set_elem, list_elem_of_In, in_flat_map.
    split; intros (t & Ht & Hi); exists t; split;
      now apply list_elem_of_In. }
  now rewrite !Hmem, Heq.
Qed.

Lemma resolver_canonical_witness :
  PDFService.parse_page_ranges (Some "3, 1-2, 2"%string) 4
  = PDFService.parse_page_ranges (Some "1-3"%string) 4.
Proof.
  apply (resolver_canonical 4 "3, 1-2, 2" "1-3"
           [Grammar.Single "3"; Grammar.Range "1" "2"; Grammar.Single "2"]
           [Grammar.Range "1" "3"]).
  - discriminate.
  - discriminate.
  - repeat constructor.
  - repeat constructor.
  - reflexivity.
  - reflexivity.
  - apply same_indices_by_evaluation. vm_compute. reflexivity.
Defined.

(** X4: A range that starts at page 1 and ends at or beyond the last page
    resolves to all pages, the value an absent expression resolves to. *)
Theorem resolver_full_range (a b : string) (total : Z) :
  Grammar.is_number a = true ->
  Grammar.is_number b = true ->
  Grammar.value a = 1 ->
  total <= Grammar.value b ->
  PDFService.parse_page_ranges (Some (a +:+ String "-" b)) total
  = PDFService.parse_page_ranges None total.
Proof.
  intros Ha Hb Hone Hlast.
  rewrite (parse_well_formed total (a +:+ String "-" b) [Grammar.Range a b]).
  - cbn [flat_map Grammar.indices PDFService.parse_page_ranges].
    rewrite app_nil_r, Hone, Z.min_r by lia. f_equal.
    apply sorted_set_ascending_id, range_ascending.
  - discriminate.
  - repeat constructor. cbn. now rewrite Ha, Hb.
  - unfold Grammar.range_list_text. cbn [map Grammar.join Grammar.token_text].
    apply remove_char_absent. rewrite contains_app. cbn [Py.contains].
    rewrite !all_digits_contains
      by (reflexivity || now apply number_all_digits).
    reflexivity.
Qed.

Lemma resolver_full_range_witness :
  PDFService.parse_page_ranges (Some "1-99"%string) 12
  = PDFService.parse_page_ranges None 12.
Proof.
  apply (resolver_full_range "1" "99" 12); [reflexivity|reflexivity|reflexivity|].
  vm_compute. discriminate.
Defined.

(** ** Merging: page counts, orders, failures *)

Lemma getitem_item_at {A} (xs : list A) (i : Z) (x : A) :
  item_at xs i x <-> Py.getitem xs i = Ok x.
Proof.
  unfold item_at, Py.getitem. set (len := Z.of_nat (length xs)).
  destruct (i <? 0) eqn:Hneg; bool_to_prop.
  - split.
    + intros [Hi Hx].
      assert (Hmod : i mod len = i + len)
        by (symmetry; apply Z.mod_unique with (q := -1); lia).
      rewrite Hmod in Hx. rewrite Hx.
      replace ((0 <=? i + len) && (i + len <? len)) with true; [reflexivity|].
      symmetry. apply andb_true_iff. split; [apply Z.leb_le|apply Z.ltb_lt]; lia.
    + destruct ((0 <=? i + len) && (i + len <? len)) eqn:Hb; [|discriminate].
      bool_to_prop. destruct (xs !! Z.to_nat (i + len)) eqn:Hx; [|discriminate].
      intros [= <-]. split; [lia|].
      assert (Hmod : i mod len = i + len)
        by (symmetry; apply Z.mod_unique with (q := -1); lia).
      now rewrite Hmod.
  - split.
    + intros [Hi Hx]. rewrite Z.mod_small in Hx by lia. rewrite Hx.
      replace ((0 <=? i) && (i <? len)) with true; [reflexivity|].
      symmetry. apply andb_true_iff. split; [apply Z.leb_le|apply Z.ltb_lt]; lia.
    + destruct ((0 <=? i) && (i <? len)) eqn:Hb; [|discriminate].
      bool_to_prop. destruct (xs !! Z.to_nat i) eqn:Hx; [|discriminate].
      intros [= <-]. split; [lia|]. now rewrite Z.mod_small by lia.
Qed.

Lemma getitem_ok_iff {A} (xs : list A) (i : Z) :
  (exists x, Py.getitem xs i = Ok x)
  <-> - Z.of_nat (length xs) <= i < Z.of_nat (length xs).
Proof.
  split; [|apply getitem_in_bounds].
  intros [x Hx]. apply getitem_item_at in Hx. now destruct Hx.
Qed.

Lemma comprehension_Forall2 {A B} (f : A -> result B) (xs : list A) (ys : list B) :
  Py.comprehension f xs = Ok ys <-> Forall2 (fun x y => f x = Ok y) xs ys.
Proof.
  revert ys. induction xs as [|x xs IH]; intros ys.
  - cbn. split.
    + intros [= <-]. constructor.
    + intros Hall. apply Forall2_nil_inv_l in Hall. now subst.
  - cbn [Py.comprehension]. split.
    + destruct (f x) as [y|] eqn:Hfx; cbn [bind]; [|discriminate].
      destruct (Py.comprehension f xs) as [ys'|] eqn:Hrest; cbn [bind]; [|discriminate].
      intros [= <-]. constructor; [exact Hfx|]. now apply IH.
    + intros Hall. apply Forall2_cons_inv_l in Hall as (y & ys' & Hfx & Hrest & ->).
      rewrite Hfx. cbn [bind]. apply IH in Hrest. now rewrite Hrest.
Qed.

Lemma comprehension_fails {A B} (f : A -> result B) (xs : list A) (e0 : exn) :
  (forall x e, f x = Err e -> e = e0) ->
  (exists x, x ∈ xs /\ forall y, f x <> Ok y) ->
  Py.comprehension f xs = Err e0.
Proof.
  intros Hclass. induction xs as [|x xs IH]; intros (bad & Hin & Hbad).
  - inversion Hin.
  - cbn [Py.comprehension]. destruct (f x) as [y|e] eqn:Hfx; cbn [bind].
    + apply elem_of_cons in Hin as [ -> | Hin ]; [now elim (Hbad y)|].
      rewrite IH by eauto. reflexivity.
    + f_equal. eapply Hclass. eassumption.
Qed.

Lemma total_size_app (xs ys : list Z) :
  total_size (xs ++ ys) = total_size xs + total_size ys.
Proof.
  induction xs as [|x xs IH]; [reflexivity|].
  cbn [app]. rewrite !total_size_cons, IH. lia.
Qed.

Lemma page_count_concat (docs : list Pdf) :
  page_count (concat docs) = total_size (map page_count docs).
Proof.
  induction docs as [|d docs IH]; [reflexivity|].
  cbn [concat map]. rewrite total_size_cons, <- IH.
  unfold page_count. rewrite length_app. lia.
Qed.

Lemma merge_service_ordered (docs selected : list Pdf) (order : list Z) :
  order <> [] ->
  Forall2 (item_at docs) order selected ->
  PDFService.merge_pdfs docs (Some order) = Ok (concat selected).
Proof.
  intros Hne Hsel. unfold PDFService.merge_pdfs.
  destruct order as [|i rest]; [congruence|].
  assert (Hc : Py.comprehension (Py.getitem docs) (i :: rest) = Ok selected).
  { apply comprehension_Forall2. eapply Forall2_impl; [exact Hsel|].
    intros j d. apply getitem_item_at. }
  rewrite Hc. cbn [bind]. apply merger_appends.
Qed.

(** X5: The page count of a merge is the sum of the page counts of the
    documents merged: of all the inputs without an order, and of the
    documents the entries select (counted as often as they are selected)
    with an order. *)
Theorem merge_page_count (docs : list Pdf) :
  (exists merged,
     PDFService.merge_pdfs docs None = Ok merged /\
     page_count merged = total_size (map page_count docs)) /\
  (forall (order : list Z) (selected : list Pdf),
     order <> [] ->
     Forall2 (item_at docs) order selected ->
     exists merged,
       PDFService.merge_pdfs docs (Some order) = Ok merged /\
       page_count merged = total_size (map page_count selected)).
Proof.
  split.
  - exists (concat docs). split; [|apply page_count_concat].
    unfold PDFService.merge_pdfs. cbn [bind]. apply merger_appends.
  - intros order selected Hne Hsel. exists (concat selected).
    split; [now apply merge_service_ordered|apply page_count_concat].
Qed.

Lemma merge_page_count_witness :
  exists merged,
    PDFService.merge_pdfs [sample_pdf 0 2; sample_pdf 2 3] (Some [1; 1; -2]) = Ok merged /\
    page_count merged
    = total_size (map page_count [sample_pdf 2 3; sample_pdf 2 3; sample_pdf 0 2]).
Proof.
  apply (proj2 (merge_page_count [sample_pdf 0 2; sample_pdf 2 3])
           [1; 1; -2] [sample_pdf 2 3; sample_pdf 2 3; sample_pdf 0 2]).
  - discriminate.
  - repeat constructor; cbn; lia.
Defined.

(** X6: Merging with the identity order 0, 1, ..., n-1 gives what merging
    without an order gives. *)
Theorem merge_identity_order (docs : list Pdf) :
  PDFService.merge_pdfs docs (Some (Py.range 0 (Z.of_nat (length docs))))
  = PDFService.merge_pdfs docs None.
Proof.
  destruct docs as [|d docs]; [reflexivity|].
  rewrite (merge_service_ordered (d :: docs) (d :: docs)).
  - unfold PDFService.merge_pdfs. cbn [bind]. now rewrite merger_appends.
  - rewrite range_cons by (cbn [length]; lia). discriminate.
  - apply Forall2_same_length_lookup_2.
    + rewrite range_length. lia.
    + intros k i doc Hi Hdoc. unfold Py.range in Hi.
      rewrite list_lookup_fmap in Hi.
      destruct (seq 0 _ !! k) as [k'|] eqn:Hk; [|discriminate].
      apply lookup_seq in Hk as [-> Hlt]. cbn in Hi. injection Hi as <-.
      pose proof (lookup_lt_Some _ _ _ Hdoc) as Hlen.
      split; [lia|]. rewrite Z.mod_small by lia.
      now rewrite Z.add_0_l, Nat2Z.id.
Qed.

(** X7: With a non-empty order the service succeeds exactly when every
    entry lies in [-n, n), n being the number of documents (a negative
    entry counts from the end); otherwise it stops with [IndexError]. *)
Theorem merge_order_entries (docs : list Pdf) (order : list Z) :
  order <> [] ->
  ((exists merged, PDFService.merge_pdfs docs (Some order) = Ok merged)
   <-> Forall (fun i => - Z.of_nat (length docs) <= i < Z.of_nat (length docs)) order) /\
  (~ Forall (fun i => - Z.of_nat (length docs) <= i < Z.of_nat (length docs)) order ->
   PDFService.merge_pdfs docs (Some order) = Err IndexError).
Proof.
  intros Hne.
  assert (Hok : Forall (fun i => - Z.of_nat (length docs) <= i < Z.of_nat (length docs)) order ->
                exists merged, PDFService.merge_pdfs docs (Some order) = Ok merged).
  { intros Hall.
    assert (Hsel : exists selected, Forall2 (item_at docs) order selected).
    { clear Hne. induction Hall as [|i order Hi _ [selected IH]]; [exists []; constructor|].
      destruct (getitem_in_bounds docs i Hi) as [d Hd].
      exists (d :: selected). constructor; [now apply getitem_item_at|exact IH]. }
    destruct Hsel as [selected Hsel]. exists (concat selected).
    now apply merge_service_ordered. }
  assert (Hfail : ~ Forall (fun i => - Z.of_nat (length docs) <= i < Z.of_nat (length docs)) order ->
                  PDFService.merge_pdfs docs (Some order) = Err IndexError).
  { intros Hnot. unfold PDFService.merge_pdfs.
    destruct order as [|i rest]; [congruence|].
    rewrite (comprehension_fails (Py.getitem docs) (i :: rest) IndexError);
      [reflexivity|apply getitem_error|].
    apply not_Forall_Exists in Hnot; [|intros j; apply _].
    apply Exists_exists in Hnot as (j & Hj & Hout).
    exists j. split; [exact Hj|]. intros d Hd. apply Hout.
    apply getitem_ok_iff. now exists d. }
  split; [|exact Hfail]. split; [|exact Hok].
  intros [merged Hrun].
  destruct (decide (Forall (fun i => - Z.of_nat (length docs) <= i
                                     < Z.of_nat (length docs)) order)) as [Hall|Hnot];
    [exact Hall|].
  rewrite (Hfail Hnot) in Hrun. discriminate.
Qed.

Lemma merge_order_entries_witness :
  PDFService.merge_pdfs [sample_pdf 0 2; sample_pdf 2 3] (Some [0; 2]) = Err IndexError.
Proof.
  apply (proj2 (merge_order_entries [sample_pdf 0 2; sample_pdf 2 3] [0; 2]
                  ltac:(discriminate))).
  intros Hall. apply Forall_cons in Hall as [_ Hall].
  apply Forall_cons in Hall as [Hbad _]. cbn in Hbad. lia.
Defined.

(** ** Splitting: pages mode and the edges of chunks mode *)

Lemma write_pages_indices (doc output : Pdf) (page_nums : list Z) :
  Forall2 (item_at doc) page_nums output ->
  PDFService.write_pages doc page_nums = Ok output.
Proof.
  intros Hsel. unfold PDFService.write_pages.
  assert (Hgen : forall writer,
            for_each
              (fun writer page_num =>
                 let* page := Py.getitem doc page_num in Ok (writer ++ [page]))
              page_nums writer
            = Ok (writer ++ output)).
  { induction Hsel as [|i page page_nums output Hi _ IH]; intros writer.
    - cbn. now rewrite app_nil_r.
    - cbn [for_each]. apply getitem_item_at in Hi. rewrite Hi. cbn [bind].
      rewrite IH, <- app_assoc. reflexivity. }
  apply (Hgen []).
Qed.

Lemma indices_have_items {A} (xs : list A) (indices : list Z) :
  Forall (fun i => - Z.of_nat (length xs) <= i < Z.of_nat (length xs)) indices ->
  exists items, Forall2 (item_at xs) indices items.
Proof.
  induction 1 as [|i indices Hi _ [items IH]]; [exists []; constructor|].
  destruct (getitem_in_bounds xs i Hi) as [x Hx].
  exists (x :: items). constructor; [now apply getitem_item_at|exact IH].
Qed.

(** X8: In pages mode (no chunk count, or a chunk count of 0) on a
    document with at least one page, every expression the resolver
    accepts yields exactly one output document; its pages are the pages
    at the resolved indices, in ascending index order, each once. *)
Theorem split_pages_mode (doc : Pdf) (pages : option string) (chunks : option Z)
    (resolved : list Z) :
  doc <> [] ->
  Py.truthy_int chunks = false ->
  PDFService.parse_page_ranges pages (page_count doc) = Ok resolved ->
  exists output,
    PDFService.split_pdf doc pages chunks = Ok [output] /\
    Forall2 (item_at doc) resolved output /\
    length output = length resolved.
Proof.
  intros Hdoc Hchunks Hparse.
  destruct (indices_have_items doc resolved) as [output Hsel].
  { apply parse_page_ranges_bounds in Hparse as [Hbound _].
    eapply Forall_impl; [exact Hbound|]. intros i Hi. cbn in Hi.
    unfold page_count in Hi. destruct doc; [congruence|]. cbn [length] in *. lia. }
  exists output. split; [|split; [exact Hsel|]].
  - unfold PDFService.split_pdf. rewrite Hchunks.
    unfold PDFService.split_pages. cbv zeta. fold (page_count doc).
    rewrite Hparse. cbn [bind].
    now rewrite (write_pages_indices doc output resolved Hsel).
  - symmetry. eapply Forall2_length. exact Hsel.
Qed.

Lemma split_pages_mode_witness :
  exists output,
    PDFService.split_pdf (sample_pdf 0 5) (Some "4,1-2,2"%string) None = Ok [output] /\
    Forall2 (item_at (sample_pdf 0 5)) [0; 1; 3] output /\
    length output = length [0; 1; 3].
Proof.
  apply (split_pages_mode (sample_pdf 0 5) (Some "4,1-2,2"%string) None [0; 1; 3]).
  - discriminate.
  - reflexivity.
  - vm_compute. reflexivity.
Defined.

(** X9: Called with neither a page expression nor a chunk count (the
    handler refuses that, the service does not), the service returns the
    whole document as its single output. *)
Theorem split_without_parameters (doc : Pdf) (pages : option string)
    (chunks : option Z) :
  Py.truthy_str pages = false ->
  Py.truthy_int chunks = false ->
  PDFService.split_pdf doc pages chunks = Ok [doc].
Proof.
  intros Hpages Hchunks. unfold PDFService.split_pdf. rewrite Hchunks.
  unfold PDFService.split_pages. cbv zeta.
  assert (Hall : PDFService.parse_page_ranges pages (Z.of_nat (length doc))
                 = Ok (Py.range 0 (Z.of_nat (length doc)))).
  { destruct pages as [[|c s]|]; [reflexivity|discriminate|reflexivity]. }
  rewrite Hall. cbn [bind].
  pose proof (write_pages_range doc 0 (page_count doc)) as Hw.
  unfold page_count in Hw. rewrite Z.add_0_l in Hw.
  rewrite Hw by lia. cbn [bind Z.to_nat drop].
  now rewrite Nat2Z.id, firstn_all.
Qed.

Lemma split_without_parameters_witness :
  PDFService.split_pdf (sample_pdf 0 3) (Some EmptyString) (Some 0)
  = Ok [sample_pdf 0 3].
Proof.
  apply (split_without_parameters (sample_pdf 0 3) (Some EmptyString) (Some 0));
    reflexivity.
Defined.

(** X10: A negative chunk count is let through by the handler (it counts
    as set) and makes the service return no output document at all,
    without an error; the handler then answers with an empty list of
    files. *)
Theorem split_negative_chunks (doc : Pdf) (chunks : Z) :
  chunks < 0 ->
  PDFService.split_pdf doc None (Some chunks) = Ok [] /\
  Routes.split_pdf_call doc None (Some chunks) = Ok [] /\
  Handlers.split_pdf doc None (Some chunks) = Ok [].
Proof.
  intros Hneg.
  assert (Hservice : forall pages, PDFService.split_pdf doc pages (Some chunks) = Ok []).
  { intros pages. unfold PDFService.split_pdf, Py.truthy_int.
    replace (chunks =? 0) with false by (symmetry; apply Z.eqb_neq; lia).
    cbn [negb]. change (default 0 (Some chunks)) with chunks.
    unfold PDFService.split_chunks. cbv zeta.
    rewrite range_empty by lia. reflexivity. }
  split; [apply Hservice|].
  assert (Hcall : Routes.split_pdf_call doc None (Some chunks) = Ok []).
  { unfold Routes.split_pdf_call, Py.truthy_int. cbn [Py.truthy_str andb negb].
    replace (chunks =? 0) with false by (symmetry; apply Z.eqb_neq; lia).
    cbn [negb andb]. apply Hservice. }
  split; [exact Hcall|].
  unfold Handlers.split_pdf, Handlers.split_pdf_try. rewrite Hcall. reflexivity.
Qed.

Lemma split_negative_chunks_witness :
  PDFService.split_pdf (sample_pdf 0 3) None (Some (-2)) = Ok [] /\
  Routes.split_pdf_call (sample_pdf 0 3) None (Some (-2)) = Ok [] /\
  Handlers.split_pdf (sample_pdf 0 3) None (Some (-2)) = Ok [].
Proof.
  apply (split_negative_chunks (sample_pdf 0 3) (-2)). lia.
Defined.

(** X11: Asking for more chunks than the document has pages gives one
    single-page document per page followed by empty documents: output [i]
    has one page when [i < total] and none otherwise. *)
Theorem split_more_chunks_than_pages (doc : Pdf) (pages : option string)
    (chunks : Z) :
  page_count doc < chunks ->
  exists outputs,
    PDFService.split_pdf doc pages (Some chunks) = Ok outputs /\
    Z.of_nat (length outputs) = chunks /\
    map page_count outputs
    = map (fun i => if i <? page_count doc then 1 else 0) (Py.range 0 chunks) /\
    concat outputs = doc.
Proof.
  intros Hmore.
  assert (Htotal : 0 <= page_count doc) by (unfold page_count; lia).
  assert (Hchunks : 0 < chunks) by lia.
  destruct (split_chunks_slices doc chunks Hchunks) as (Hrun & Hsum & Hpos).
  set (sizes := map (chunk_size (page_count doc) chunks) (Py.range 0 chunks)) in *.
  exists (slices doc 0 sizes). split; [|split; [|split]].
  - unfold PDFService.split_pdf, Py.truthy_int.
    replace (chunks =? 0) with false by (symmetry; apply Z.eqb_neq; lia).
    exact Hrun.
  - rewrite slices_length. unfold sizes. rewrite length_map, range_length. lia.
  - rewrite slices_sizes by (assumption || lia). unfold sizes.
    apply map_ext. intros i. unfold chunk_size.
    rewrite Z.div_small, Z.mod_small by lia. reflexivity.
  - rewrite slices_concat by (assumption || lia). reflexivity.
Qed.

Lemma split_more_chunks_than_pages_witness :
  exists outputs,
    PDFService.split_pdf (sample_pdf 0 2) None (Some 4) = Ok outputs /\
    Z.of_nat (length outputs) = 4 /\
    map page_count outputs
    = map (fun i => if i <? page_count (sample_pdf 0 2) then 1 else 0) (Py.range 0 4) /\
    concat outputs = sample_pdf 0 2.
Proof.
  apply (split_more_chunks_than_pages (sample_pdf 0 2) None 4).
  vm_compute. reflexivity.
Defined.

(** ** Rotating, compressing and extracting: what is left untouched *)

(** X12: A page expression that names no page of the document (only page
    numbers beyond the end, or the page number 0) makes [rotate_pdf]
    return the document unchanged, without an error. *)
Theorem rotate_nothing_selected (doc : Pdf) (angle : Z) (pages : option string)
    (selected : list Z) :
  PDFService.pages_or_all pages (page_count doc) = Ok selected ->
  (forall i, i ∈ selected -> ~ (0 <= i < page_count doc)) ->
  PDFService.rotate_pdf doc angle pages = Ok doc.
Proof.
  intros Hsel Hout. rewrite (rotate_pdf_selected doc angle pages selected Hsel).
  f_equal. unfold rotate_selected. apply list_eq. intros k.
  rewrite list_lookup_imap. destruct (doc !! k) as [page|] eqn:Hk; [|reflexivity].
  cbn. rewrite bool_decide_false; [reflexivity|].
  intros Hin. apply (Hout _ Hin). apply lookup_lt_Some in Hk.
  unfold page_count. lia.
Qed.

Lemma rotate_nothing_selected_witness :
  PDFService.rotate_pdf (sample_pdf 0 3) 90 (Some "7, 9-12, 0"%string)
  = Ok (sample_pdf 0 3).
Proof.
  apply (rotate_nothing_selected (sample_pdf 0 3) 90 (Some "7, 9-12, 0"%string) []).
  - vm_compute. reflexivity.
  - intros i Hi. inversion Hi.
Defined.

Section ImageInvariants.
Context `{L : fitz.Library}.
Import fitz.

Lemma compress_image_keeps (target : Z) (st : PDFService.CompressionSetting)
    (table table' : gmap Z ImageObject) (xref : Z) :
  PDFService.compress_image target st table xref = Ok table' ->
  dom table' = dom table /\
  forall other, other <> xref -> table' !! other = table !! other.
Proof.
  unfold PDFService.compress_image, PDFService.load_pixmap.
  destruct (table !! xref) as [obj|] eqn:Hobj; cbn [bind]; [|discriminate].
  destruct (_ <? 4); [|intros [= <-]; auto].
  match goal with
  | |- bind ?m _ = _ -> _ => destruct m as [pix|e]; cbn [bind]; [|discriminate]
  end.
  intros [= <-]. split.
  - rewrite dom_insert_L. apply elem_of_dom_2 in Hobj.
    apply set_eq. intros y. rewrite elem_of_union, elem_of_singleton.
    split; [intros [ -> | Hy ]; assumption|auto].
  - intros other Hother. now rewrite lookup_insert_ne.
Qed.

(** X13: Whenever [compress_pdf] succeeds, it has called [save] once,
    with the options garbage 4, deflate and clean, on a document that the
    loop over the images has changed in the streams of listed images
    only: when [save] is called the page lists are those of the input,
    the table holds exactly the object numbers it held before, and every
    object that no page lists as an image is as it was.  (What [save]
    then leaves out or renumbers under these options is the library's
    doing and is not part of this statement.) *)
Theorem compress_keeps_structure (doc : Document) (saved : Saved)
    (level : string) (target : Z) :
  PDFService.compress_pdf doc level target = Ok saved ->
  garbage saved = 4 /\ deflate saved = true /\ clean saved = true /\
  page_images (saved_document saved) = page_images doc /\
  dom (xref_table (saved_document saved)) = dom (xref_table doc) /\
  forall xref,
    xref ∉ concat (page_images doc) ->
    xref_table (saved_document saved) !! xref = xref_table doc !! xref.
Proof.
  unfold PDFService.compress_pdf.
  destruct (PDFService.settings_for level) as [st|]; cbn [bind]; [|discriminate].
  rewrite for_each_concat.
  destruct (for_each _ _ _) as [table|] eqn:Hloop; cbn [bind]; [|discriminate].
  intros [= <-]. cbn [page_images xref_table saved_document garbage deflate clean].
  do 4 (split; [reflexivity|]).
  revert Hloop.
  apply (for_each_invariant
           (fun t : gmap Z ImageObject =>
              dom t = dom (xref_table doc) /\
              forall xref, xref ∉ concat (page_images doc) ->
                           t !! xref = xref_table doc !! xref)).
  - intros t x t' [Hdom Hkeep] Hx Hstep.
    apply compress_image_keeps in Hstep as [Hdom' Hother].
    split; [congruence|]. intros xref Hxref.
    rewrite Hother by (intros ->; contradiction). now apply Hkeep.
  - split; [reflexivity|auto].
Qed.

End ImageInvariants.

Lemma compress_keeps_structure_witness :
  exists saved,
    PDFService.compress_pdf Sample.photo_document "high" 150 = Ok saved /\
    fitz.garbage saved = 4 /\ fitz.deflate saved = true /\
    fitz.clean saved = true /\
    fitz.page_images (fitz.saved_document saved)
    = fitz.page_images Sample.photo_document /\
    dom (fitz.xref_table (fitz.saved_document saved))
    = dom (fitz.xref_table Sample.photo_document) /\
    forall xref,
      xref ∉ concat (fitz.page_images Sample.photo_document) ->
      fitz.xref_table (fitz.saved_document saved) !! xref
      = fitz.xref_table Sample.photo_document !! xref.
Proof.
  eexists. split; [vm_compute; reflexivity|].
  apply (@compress_keeps_structure Sample.library
           Sample.photo_document _ "high" 150).
  vm_compute. reflexivity.
Defined.

Section ExtractionOrder.
Context `{L : fitz.Library}.
Import fitz.

Lemma page_extract_tighter (table : gmap Z ImageObject) (page_num : Z)
    (min_width min_height min_width' min_height' : Z) (image_format : string)
    (entries : list (Z * Z)) :
  min_width <= min_width' -> min_height <= min_height' ->
  page_extract table page_num min_width' min_height' image_format entries
  = filter (fun e => min_width' <= PDFService.img_width e /\
                     min_height' <= PDFService.img_height e)
      (page_extract table page_num min_width min_height image_format entries).
Proof.
  intros Hw Hh. induction entries as [|[img_index xref] entries IH]; [reflexivity|].
  unfold page_extract in *. cbn [flat_map fst snd].
  rewrite filter_app, <- IH. f_equal.
  destruct (table !! xref) as [obj|]; [|reflexivity].
  unfold meets_minimum.
  destruct (min_width' <=? width (image_pixmap obj)) eqn:Hw';
    destruct (min_height' <=? height (image_pixmap obj)) eqn:Hh';
    destruct (min_width <=? width (image_pixmap obj)) eqn:Hw0;
    destruct (min_height <=? height (image_pixmap obj)) eqn:Hh0;
    bool_to_prop; try lia; cbn [andb]; try reflexivity.
  - rewrite filter_cons_True by (cbn; lia). reflexivity.
  - rewrite filter_cons_False by (cbn; lia). reflexivity.
  - rewrite filter_cons_False by (cbn; lia). reflexivity.
  - rewrite filter_cons_False by (cbn; lia). reflexivity.
Qed.

Lemma document_extract_tighter (doc : Document) (selected : list Z)
    (min_width min_height min_width' min_height' : Z) (image_format : string) :
  min_width <= min_width' -> min_height <= min_height' ->
  document_extract doc selected min_width' min_height' image_format
  = filter (fun e => min_width' <= PDFService.img_width e /\
                     min_height' <= PDFService.img_height e)
      (document_extract doc selected min_width min_height image_format).
Proof.
  intros Hw Hh. induction selected as [|page_num selected IH]; [reflexivity|].
  unfold document_extract in *. cbn [flat_map].
  rewrite filter_app, <- IH. f_equal.
  destruct (Py.getitem (page_images doc) page_num); [|reflexivity].
  now apply page_extract_tighter.
Qed.

(** X14: Raising the minimums only removes images: with the same document
    and page selection, the result for larger minimums is the result for
    the smaller ones filtered by the larger ones, in the same order. *)
Theorem extraction_thresholds_monotone (doc : Document) (pages : option string)
    (selected : list Z) (min_width min_height min_width' min_height' : Z)
    (image_format : string) :
  images_present doc ->
  page_images doc <> [] ->
  PDFService.pages_or_all pages (Z.of_nat (length (page_images doc))) = Ok selected ->
  min_width <= min_width' ->
  min_height <= min_height' ->
  exists loose tight,
    PDFService.extract_images doc pages min_width min_height image_format = Ok loose /\
    PDFService.extract_images doc pages min_width' min_height' image_format = Ok tight /\
    tight = filter (fun e => min_width' <= PDFService.img_width e /\
                             min_height' <= PDFService.img_height e) loose.
Proof.
  intros Hpresent Hpages Hsel Hw Hh.
  assert (Hbounds : Forall (fun i => - Z.of_nat (length (page_images doc)) <= i
                                     < Z.of_nat (length (page_images doc))) selected).
  { apply pages_or_all_bounds in Hsel. eapply Forall_impl; [exact Hsel|].
    intros i Hi. cbn in Hi. destruct (page_images doc); [congruence|].
    cbn [length] in *. lia. }
  exists (document_extract doc selected min_width min_height image_format),
         (document_extract doc selected min_width' min_height' image_format).
  split; [|split].
  - unfold PDFService.extract_images. cbv zeta. rewrite Hsel. cbn [bind].
    now rewrite extract_pages.
  - unfold PDFService.extract_images. cbv zeta. rewrite Hsel. cbn [bind].
    now rewrite extract_pages.
  - now apply document_extract_tighter.
Qed.

End ExtractionOrder.

Lemma extraction_thresholds_monotone_witness :
  exists loose tight,
    PDFService.extract_images Sample.photo_document None 40 100 "png" = Ok loose /\
    PDFService.extract_images Sample.photo_document None 400 300 "png" = Ok tight /\
    tight = filter (fun e => 400 <= PDFService.img_width e /\
                             300 <= PDFService.img_height e) loose.
Proof.
  apply (@extraction_thresholds_monotone Sample.library Sample.photo_document
           None [0; 1] 40 100 400 300 "png" photo_document_images_present).
  - discriminate.
  - reflexivity.
  - lia.
  - lia.
Defined.

(** ** Securing: permission flags and the handler's checks *)

Section SecureProperties.
Variables PRINT MODIFY EXTRACT ADD_OR_MODIFY : Z.

Local Abbreviation mapping :=
  (Secure.permission_mapping PRINT MODIFY EXTRACT ADD_OR_MODIFY).
Local Abbreviation add_permissions :=
  (Secure.add_permissions PRINT MODIFY EXTRACT ADD_OR_MODIFY).
Local Abbreviation permission_bit_at :=
  (Secure.permission_bit_at PRINT MODIFY EXTRACT ADD_OR_MODIFY).

Lemma mapping_known (perm : string) (bit : Z) :
  mapping !! perm = Some bit -> perm ∈ Secure.valid_permissions.
Proof.
  unfold Secure.permission_mapping, Secure.valid_permissions.
  rewrite !lookup_insert_Some, lookup_empty.
  intros [[<- _]|[_ [[<- _]|[_ [[<- _]|[_ [[<- _]|[_ Hnone]]]]]]]].
  - apply list_elem_of_here.
  - apply list_elem_of_further, list_elem_of_here.
  - do 2 apply list_elem_of_further. apply list_elem_of_here.
  - do 3 apply list_elem_of_further. apply list_elem_of_here.
  - discriminate.
Qed.

Lemma add_permissions_testbit (permissions : list string) (flags n : Z) :
  Z.testbit (add_permissions flags permissions) n
  = Z.testbit flags n || existsb (permission_bit_at n) permissions.
Proof.
  revert flags. induction permissions as [|perm permissions IH]; intros flags.
  - cbn. now rewrite orb_false_r.
  - unfold Secure.add_permissions in *. cbn [fold_left existsb]. rewrite IH.
    unfold Secure.permission_bit_at at 2.
    destruct (mapping !! perm) as [bit|].
    + rewrite Z.lor_spec. now rewrite orb_assoc.
    + reflexivity.
Qed.

Lemma permission_bits_same_names (permissions1 permissions2 : list string) (n : Z) :
  (forall perm, perm ∈ Secure.valid_permissions ->
                perm ∈ permissions1 -> perm ∈ permissions2) ->
  existsb (permission_bit_at n) permissions1 = true ->
  existsb (permission_bit_at n) permissions2 = true.
Proof.
  intros Hsub Hex. apply existsb_exists in Hex as (perm & Hin & Hbit).
  apply existsb_exists. exists perm. split; [|exact Hbit].
  apply list_elem_of_In. apply Hsub; [|now apply list_elem_of_In].
  unfold Secure.permission_bit_at in Hbit.
  destruct (mapping !! perm) as [bit|] eqn:Hmap; [|discriminate].
  eapply mapping_known. eassumption.
Qed.

(** X15: The permission flags handed to [encrypt] depend only on which of
    the names print, modify, copy, annotate occur in the list: the order
    of the names, repetitions and any other name make no difference. *)
Theorem permission_flags_by_names (pdf_data : Pdf)
    (user_password owner_password : option string)
    (permissions1 permissions2 : list string) (encryption_level : Z) :
  (forall perm, perm ∈ Secure.valid_permissions ->
                (perm ∈ permissions1 <-> perm ∈ permissions2)) ->
  Secure.permissions_flag
    (Secure.secure_pdf PRINT MODIFY EXTRACT ADD_OR_MODIFY pdf_data
       user_password owner_password (Some permissions1) encryption_level)
  = Secure.permissions_flag
      (Secure.secure_pdf PRINT MODIFY EXTRACT ADD_OR_MODIFY pdf_data
         user_password owner_password (Some permissions2) encryption_level).
Proof.
  intros Hsame. cbn [Secure.secure_pdf Secure.permissions_flag].
  assert (Hflags : forall permissions,
            match permissions with
            | [] => 0
            | p :: ps => add_permissions 0 (p :: ps)
            end = add_permissions 0 permissions).
  { intros [|p ps]; reflexivity. }
  rewrite !Hflags. apply Z.bits_inj. intros n.
  rewrite !add_permissions_testbit. f_equal.
  apply eq_true_iff_eq. split; apply permission_bits_same_names;
    intros perm Hvalid; apply Hsame; exact Hvalid.
Qed.

End SecureProperties.

Lemma permission_flags_by_names_witness :
  Secure.permissions_flag
    (Secure.secure_pdf 4 8 16 32 (sample_pdf 0 2) None (Some "owner"%string)
       (Some ["copy"; "fill_forms"; "print"; "copy"]%string) 128)
  = Secure.permissions_flag
      (Secure.secure_pdf 4 8 16 32 (sample_pdf 0 2) None (Some "owner"%string)
         (Some ["print"; "copy"]%string) 128).
Proof.
  apply (permission_flags_by_names 4 8 16 32).
  intros perm Hvalid.
  repeat (apply elem_of_cons in Hvalid as [ -> | Hvalid ]); [| | | |inversion Hvalid].
  - split; intros _; [apply list_elem_of_here|].
    do 2 apply list_elem_of_further. apply list_elem_of_here.
  - split; intros Hin; exfalso; revert Hin; not_in_list.
  - split; intros _; [apply list_elem_of_further|]; apply list_elem_of_here.
  - split; intros Hin; exfalso; revert Hin; not_in_list.
Defined.

Lemma writer_appends {A} (xs acc : list A) :
  fold_left (fun writer page => writer ++ [page]) xs acc = acc ++ xs.
Proof.
  revert acc. induction xs as [|x xs IH]; intros acc; cbn [fold_left].
  - now rewrite app_nil_r.
  - rewrite IH, <- app_assoc. reflexivity.
Qed.

Lemma filter_empty_iff {A} (P : A -> Prop) `{forall x, Decision (P x)} (xs : list A) :
  filter P xs = [] <-> Forall (fun x => ~ P x) xs.
Proof.
  induction xs as [|x xs IH].
  - split; [constructor|reflexivity].
  - destruct (decide (P x)) as [Hp|Hn].
    + rewrite filter_cons_True by assumption. split; [discriminate|].
      intros Hall. apply Forall_cons in Hall as [Hx _]. contradiction.
    + rewrite filter_cons_False by assumption. rewrite IH. split.
      * intros Hall. now constructor.
      * intros Hall. now apply Forall_cons in Hall as [_ Hall].
Qed.

(** X16: The checks of the handler of [secure_pdf] raise the 400 error
    exactly when the encryption level is neither 40 nor 128 or some name of
    the permissions field (split at commas, stripped) is not one of print,
    modify, copy, annotate.  Otherwise [encrypt] is called on a writer that
    holds the pages unchanged, with the passwords as given and a 128-bit
    key exactly when the level is 128. *)
Theorem secure_handler_checks (PRINT MODIFY EXTRACT ADD_OR_MODIFY : Z)
    (pdf_content : Pdf) (user_password : option string) (owner_password : string)
    (permissions : option string) (encryption_level : Z) :
  (Secure.secure_pdf_route PRINT MODIFY EXTRACT ADD_OR_MODIFY pdf_content
     user_password owner_password permissions encryption_level
   = Err (HTTPException 400)
   <-> encryption_level ∉ [40; 128] \/
       exists perm, perm ∈ permission_pieces permissions /\
                    perm ∉ Secure.valid_permissions) /\
  (forall enc,
     Secure.secure_pdf_route PRINT MODIFY EXTRACT ADD_OR_MODIFY pdf_content
       user_password owner_password permissions encryption_level = Ok enc ->
     Secure.pages enc = pdf_content /\
     Secure.user_password enc = user_password /\
     Secure.owner_password enc = Some owner_password /\
     (Secure.use_128bit enc = true <-> encryption_level = 128)).
Proof.
  unfold Secure.secure_pdf_route.
  destruct (bool_decide_reflect (encryption_level ∈ [40; 128])) as [Hlevel|Hlevel];
    cbn [negb].
  2:{ split; [split; auto|discriminate]. }
  assert (Hpieces :
    match permissions with
    | None | Some EmptyString => Ok []
    | Some permissions =>
        match filter (fun p => p ∉ Secure.valid_permissions)
                (map Py.strip (Py.split "," permissions)) with
        | [] => Ok (map Py.strip (Py.split "," permissions))
        | _ :: _ => Err (HTTPException 400)
        end
    end
    = match filter (fun p => p ∉ Secure.valid_permissions)
              (permission_pieces permissions) with
      | [] => Ok (permission_pieces permissions)
      | _ :: _ => Err (HTTPException 400)
      end).
  { destruct permissions as [[|c s]|]; reflexivity. }
  rewrite Hpieces. clear Hpieces.
  destruct (filter _ (permission_pieces permissions)) as [|bad rest] eqn:Hfilter;
    cbn [bind].
  - apply filter_empty_iff in Hfilter. split.
    + split; [discriminate|].
      intros [Hbad|(perm & Hin & Hbad)]; [contradiction|].
      rewrite Forall_forall in Hfilter. elim (Hfilter perm Hin Hbad).
    + intros enc [= <-]. cbn. rewrite writer_appends. cbn [app].
      repeat split; try reflexivity.
      * now apply Z.eqb_eq.
      * now apply Z.eqb_eq.
  - split; [|discriminate]. split; [|reflexivity]. intros _. right.
    assert (Hbad : bad ∈ filter (fun p => p ∉ Secure.valid_permissions)
                     (permission_pieces permissions))
      by (rewrite Hfilter; apply list_elem_of_here).
    apply list_elem_of_filter in Hbad as [Hbad Hin]. eauto.
Qed.

Lemma secure_handler_checks_witness :
  Secure.secure_pdf_route 4 8 16 32 (sample_pdf 0 2) None "owner"
    (Some "print, fill_forms"%string) 128
  = Err (HTTPException 400).
Proof.
  apply (proj1 (secure_handler_checks 4 8 16 32 (sample_pdf 0 2) None "owner"
                  (Some "print, fill_forms"%string) 128)).
  right. exists "fill_forms"%string. split.
  - vm_compute. apply list_elem_of_further, list_elem_of_here.
  - unfold Secure.valid_permissions. not_in_list.
Defined.

(** ** Plans and rate limits *)

(** X17: [require_pro_plan] admits exactly the plans pro and enterprise,
    [require_enterprise_plan] exactly enterprise; every other plan name is
    treated as basic; and a requirement that names no known plan admits
    every user. *)
Theorem feature_access_by_plan :
  (forall user_plan,
     Dependencies.require_pro_plan user_plan = Ok true
     <-> user_plan = "pro"%string \/ user_plan = "enterprise"%string) /\
  (forall user_plan,
     Dependencies.require_enterprise_plan user_plan = Ok true
     <-> user_plan = "enterprise"%string) /\
  (forall required_plan user_plan,
     Dependencies.check_feature_access required_plan user_plan = Ok true \/
     Dependencies.check_feature_access required_plan user_plan
     = Err (HTTPException 403)) /\
  (forall required_plan user_plan,
     Dependencies.plan_hierarchy !! required_plan = None ->
     Dependencies.check_feature_access required_plan user_plan = Ok true).
Proof.
  assert (Hlevel : forall plan,
            default 0 (Dependencies.plan_hierarchy !! plan)
            = if String.eqb plan "pro" then 1
              else if String.eqb plan "enterprise" then 2 else 0).
  { intros plan. unfold Dependencies.plan_hierarchy.
    destruct (String.eqb_spec plan "pro") as [ -> | Hpro ]; [reflexivity|].
    destruct (String.eqb_spec plan "enterprise") as [ -> | Hent ]; [reflexivity|].
    destruct (String.eqb_spec plan "basic") as [ -> | Hbasic ]; [reflexivity|].
    rewrite !lookup_insert_ne, lookup_empty by congruence. reflexivity. }
  repeat split.
  - unfold Dependencies.require_pro_plan, Dependencies.check_feature_access.
    rewrite !Hlevel. cbn.
    destruct (String.eqb_spec user_plan "pro"); [auto|].
    destruct (String.eqb_spec user_plan "enterprise"); [auto|]. discriminate.
  - unfold Dependencies.require_pro_plan, Dependencies.check_feature_access.
    rewrite !Hlevel. cbn. intros [ -> | -> ]; reflexivity.
  - unfold Dependencies.require_enterprise_plan, Dependencies.check_feature_access.
    rewrite !Hlevel. cbn.
    destruct (String.eqb_spec user_plan "pro") as [ -> | _ ]; [discriminate|].
    destruct (String.eqb_spec user_plan "enterprise"); [auto|]. discriminate.
  - unfold Dependencies.require_enterprise_plan, Dependencies.check_feature_access.
    rewrite !Hlevel. intros ->. reflexivity.
  - intros required_plan user_plan.
    unfold Dependencies.check_feature_access. cbv zeta.
    destruct (default 0 (Dependencies.plan_hierarchy !! user_plan)
              <? default 0 (Dependencies.plan_hierarchy !! required_plan)); auto.
  - intros required_plan user_plan Hnone.
    unfold Dependencies.check_feature_access. rewrite Hnone. cbn.
    rewrite Hlevel.
    destruct (String.eqb user_plan "pro"); [reflexivity|].
    destruct (String.eqb user_plan "enterprise"); reflexivity.
Qed.

Lemma feature_access_by_plan_witness :
  Dependencies.require_pro_plan "enterprise" = Ok true /\
  Dependencies.check_feature_access "premium" "basic" = Ok true.
Proof.
  split.
  - apply (proj2 (proj1 feature_access_by_plan "enterprise"%string)).
    right. reflexivity.
  - apply (proj2 (proj2 (proj2 feature_access_by_plan)) "premium"%string "basic"%string).
    vm_compute. reflexivity.
Defined.

Lemma limit_for_plan_min (plan : option string) : 100 <= limit_for_plan plan.
Proof.
  unfold limit_for_plan. destruct plan as [plan|]; [|lia].
  destruct (String.eqb plan "pro"); [lia|].
  destruct (String.eqb plan "enterprise"); lia.
Qed.

Lemma check_rate_limit_counted (api_key : string) (r : Dependencies.Redis) (count : Z) :
  Dependencies.counters r !! ("rate_limit:" +:+ api_key)%string = Some count ->
  Dependencies.check_rate_limit api_key r
  = let limit :=
      limit_for_plan (Dependencies.hget r ("api_key:" +:+ api_key) "plan") in
    if count >=? limit then (false, r)
    else (true,
          {| Dependencies.counters :=
               <[("rate_limit:" +:+ api_key)%string := count + 1]>
                 (Dependencies.counters r);
             Dependencies.hashes := Dependencies.hashes r |}).
Proof.
  intros Hcount. unfold Dependencies.check_rate_limit. cbv zeta. rewrite Hcount.
  assert (Hlimit :
    default Config.RATE_LIMIT_BASIC
      (Dependencies.limits
         !! match Dependencies.hget r ("api_key:" +:+ api_key) "plan" with
            | None | Some EmptyString => "basic"%string
            | Some plan => plan
            end)
    = limit_for_plan (Dependencies.hget r ("api_key:" +:+ api_key) "plan")).
  { unfold limit_for_plan.
    destruct (Dependencies.hget r ("api_key:" +:+ api_key) "plan") as [plan|];
      [|reflexivity].
    destruct (String.eqb_spec plan "pro") as [ -> | Hpro ]; [reflexivity|].
    destruct (String.eqb_spec plan "enterprise") as [ -> | Hent ]; [reflexivity|].
    destruct plan as [|c plan]; [reflexivity|].
    destruct (String.eqb_spec (String c plan) "basic") as [ -> | Hbasic ];
      [reflexivity|].
    unfold Dependencies.limits.
    rewrite !lookup_insert_ne, lookup_empty by congruence. reflexivity. }
  rewrite Hlimit. reflexivity.
Qed.

Lemma rate_limit_from_count (api_key : string) (n : nat) :
  forall (r : Dependencies.Redis) (count : Z),
    Dependencies.counters r !! ("rate_limit:" +:+ api_key)%string = Some count ->
    Dependencies.check_rate_limit_repeatedly n api_key r
    = (map (fun k : nat =>
              bool_decide (count + Z.of_nat k
                           < limit_for_plan
                               (Dependencies.hget r ("api_key:" +:+ api_key) "plan")))
         (seq 0 n),
       {| Dependencies.counters :=
            <[("rate_limit:" +:+ api_key)%string :=
                Z.max count
                  (Z.min (count + Z.of_nat n)
                     (limit_for_plan
                        (Dependencies.hget r ("api_key:" +:+ api_key) "plan")))]>
              (Dependencies.counters r);
          Dependencies.hashes := Dependencies.hashes r |}).
Proof.
  induction n as [|n IH]; intros r count Hcount.
  - cbn [Dependencies.check_rate_limit_repeatedly seq map]. f_equal.
    replace (Z.max count (Z.min (count + Z.of_nat 0) _)) with count by lia.
    rewrite insert_id by assumption. now destruct r.
  - cbn [Dependencies.check_rate_limit_repeatedly].
    rewrite (check_rate_limit_counted api_key r count Hcount). cbv zeta.
    set (limit := limit_for_plan
                    (Dependencies.hget r ("api_key:" +:+ api_key) "plan")) in *.
    destruct (count >=? limit) eqn:Hfull.
    + rewrite (IH r count Hcount). fold limit.
      rewrite Z.geb_leb in Hfull. apply Z.leb_le in Hfull.
      cbn [seq map]. f_equal.
      * f_equal; [rewrite bool_decide_false by lia; reflexivity|].
        rewrite <- seq_shift, map_map. apply map_ext_in. intros k _.
        rewrite !bool_decide_false by lia. reflexivity.
      * f_equal. f_equal. lia.
    + rewrite Z.geb_leb in Hfull. apply Z.leb_gt in Hfull.
      rewrite (IH _ (count + 1)) by apply lookup_insert_eq.
      unfold Dependencies.hget. cbn [Dependencies.hashes Dependencies.counters].
      fold (Dependencies.hget r ("api_key:" +:+ api_key) "plan"). fold limit.
      cbn [seq map]. f_equal.
      * f_equal; [rewrite bool_decide_true by lia; reflexivity|].
        rewrite <- seq_shift, map_map. apply map_ext_in. intros k _.
        apply bool_decide_ext. lia.
      * rewrite insert_insert_eq. f_equal. f_equal. lia.
Qed.

(** X18: Within one window, starting without a counter for the key, the
    first [limit] calls of [check_rate_limit] answer [True] and every
    later call answers [False], [limit] being 1000 for the plan pro, 10000
    for enterprise and 100 otherwise; the counter ends at the number of
    calls or at the limit, whichever is smaller, and the hashes are not
    touched. *)
Theorem rate_limit_window (api_key : string) (r : Dependencies.Redis) (n : nat) :
  Dependencies.counters r !! ("rate_limit:" +:+ api_key)%string = None ->
  (Dependencies.check_rate_limit_repeatedly n api_key r).1
  = map (fun k : nat =>
           bool_decide (Z.of_nat k
                        < limit_for_plan
                            (Dependencies.hget r ("api_key:" +:+ api_key) "plan")))
      (seq 0 n) /\
  ((0 < n)%nat ->
   Dependencies.counters (Dependencies.check_rate_limit_repeatedly n api_key r).2
     !! ("rate_limit:" +:+ api_key)%string
   = Some (Z.min (Z.of_nat n)
             (limit_for_plan
                (Dependencies.hget r ("api_key:" +:+ api_key) "plan")))) /\
  Dependencies.hashes (Dependencies.check_rate_limit_repeatedly n api_key r).2
  = Dependencies.hashes r.
Proof.
  intros Hfresh.
  pose proof (limit_for_plan_min
                (Dependencies.hget r ("api_key:" +:+ api_key) "plan")) as Hmin.
  destruct n as [|n]; [repeat split; lia|].
  cbn [Dependencies.check_rate_limit_repeatedly].
  assert (Hfirst : Dependencies.check_rate_limit api_key r
                   = (true,
                      {| Dependencies.counters :=
                           <[("rate_limit:" +:+ api_key)%string := 1]>
                             (Dependencies.counters r);
                         Dependencies.hashes := Dependencies.hashes r |})).
  { unfold Dependencies.check_rate_limit. cbv zeta. now rewrite Hfresh. }
  rewrite Hfirst.
  rewrite (rate_limit_from_count api_key n _ 1) by apply lookup_insert_eq.
  unfold Dependencies.hget. cbn [Dependencies.hashes Dependencies.counters fst snd].
  fold (Dependencies.hget r ("api_key:" +:+ api_key) "plan").
  set (limit := limit_for_plan
                  (Dependencies.hget r ("api_key:" +:+ api_key) "plan")) in *.
  split; [|split; [|reflexivity]].
  - cbn [seq map]. f_equal; [rewrite bool_decide_true by lia; reflexivity|].
    rewrite <- seq_shift, map_map. apply map_ext_in. intros k _.
    apply bool_decide_ext. lia.
  - intros _. rewrite lookup_insert_eq. f_equal. lia.
Qed.

Lemma rate_limit_window_witness :
  (Dependencies.check_rate_limit_repeatedly 3 "k"
     {| Dependencies.counters := ∅; Dependencies.hashes := ∅ |}).1
  = map (fun k : nat =>
           bool_decide (Z.of_nat k
                        < limit_for_plan
                            (Dependencies.hget
                               {| Dependencies.counters := ∅;
                                  Dependencies.hashes := ∅ |}
                               ("api_key:" +:+ "k") "plan")))
      (seq 0 3).
Proof.
  apply (proj1 (rate_limit_window "k"
                  {| Dependencies.counters := ∅; Dependencies.hashes := ∅ |} 3
                  (lookup_empty _))).
Defined.

(** ** Uploaded files *)

Lemma collect_loop {A B} (g : A -> result B) (xs : list A) :
  forall (acc out : list B),
    for_each (fun acc x => let* y := g x in Ok (acc ++ [y])) xs acc = Ok out
    <-> exists ys, Forall2 (fun x y => g x = Ok y) xs ys /\ out = acc ++ ys.
Proof.
  induction xs as [|x xs IH]; intros acc out.
  - cbn. split.
    + intros [= <-]. exists []. split; [constructor|now rewrite app_nil_r].
    + intros (ys & Hall & ->). apply Forall2_nil_inv_l in Hall as ->.
      now rewrite app_nil_r.
  - cbn [for_each]. split.
    + destruct (g x) as [y|] eqn:Hg; cbn [bind]; [|discriminate].
      intros Hrest. apply IH in Hrest as (ys & Hall & ->).
      exists (y :: ys). split; [now constructor|]. now rewrite <- app_assoc.
    + intros (ys & Hall & ->).
      apply Forall2_cons_inv_l in Hall as (y & ys' & Hg & Hall & ->).
      rewrite Hg. cbn [bind]. apply IH. exists ys'. split; [exact Hall|].
      now rewrite <- app_assoc.
Qed.

Lemma validate_pdf_file_content (file : Dependencies.UploadFile) (c : list Byte.byte) :
  Dependencies.validate_pdf_file file = Ok c -> c = Dependencies.content file.
Proof.
  unfold Dependencies.validate_pdf_file.
  destruct (negb _); [discriminate|]. cbv zeta.
  destruct (negb _); [discriminate|].
  destruct (negb _); [discriminate|]. now intros [= <-].
Qed.

(** X19: [validate_multiple_pdf_files] succeeds exactly when there are
    between 1 and 20 files and each of them passes [validate_pdf_file];
    it then returns the contents of the files, one per file and in the
    order of the files. *)
Theorem multiple_files_validation (files : list Dependencies.UploadFile)
    (pdf_contents : list (list Byte.byte)) :
  Dependencies.validate_multiple_pdf_files files = Ok pdf_contents
  <-> (1 <= length files <= 20)%nat /\
      Forall (fun file =>
                Dependencies.validate_pdf_file file
                = Ok (Dependencies.content file)) files /\
      pdf_contents = map Dependencies.content files.
Proof.
  assert (Hshape : forall (fs : list Dependencies.UploadFile) (cs : list (list Byte.byte)),
            Forall2 (fun f c => Dependencies.validate_pdf_file f = Ok c) fs cs
            <-> Forall (fun f => Dependencies.validate_pdf_file f
                                 = Ok (Dependencies.content f)) fs /\
                cs = map Dependencies.content fs).
  { intros fs. induction fs as [|f fs IH]; intros cs.
    - split.
      + intros Hall. apply Forall2_nil_inv_l in Hall as ->. split; [constructor|reflexivity].
      + intros [_ ->]. constructor.
    - split.
      + intros Hall. apply Forall2_cons_inv_l in Hall as (c & cs' & Hf & Hall & ->).
        apply IH in Hall as [Hall ->].
        pose proof (validate_pdf_file_content f c Hf) as ->.
        split; [now constructor|reflexivity].
      + intros [Hall ->]. apply Forall_cons in Hall as [Hf Hall].
        cbn [map]. constructor; [exact Hf|]. apply IH. split; [exact Hall|reflexivity]. }
  unfold Dependencies.validate_multiple_pdf_files.
  destruct files as [|f files].
  { split; [discriminate|]. intros [[Hlen _] _]. cbn in Hlen. lia. }
  destruct (Z.of_nat (length (f :: files)) >? 20) eqn:Hmany.
  { split; [discriminate|]. intros [[_ Hlen] _].
    rewrite Z.gtb_ltb in Hmany. apply Z.ltb_lt in Hmany. lia. }
  rewrite Z.gtb_ltb in Hmany. apply Z.ltb_ge in Hmany.
  rewrite collect_loop. split.
  - intros (cs & Hall & ->). apply Hshape in Hall as [Hall ->].
    split; [cbn [length] in *; lia|]. split; [exact Hall|reflexivity].
  - intros (_ & Hall & ->). exists (map Dependencies.content (f :: files)).
    split; [|reflexivity]. apply Hshape. split; [exact Hall|reflexivity].
Qed.

Lemma multiple_files_validation_witness :
  Dependencies.validate_multiple_pdf_files
    [ {| Dependencies.filename := "a.pdf";
         Dependencies.content := [Byte.x25; Byte.x50; Byte.x44; Byte.x46; Byte.x2d] |};
      {| Dependencies.filename := "B.PDF";
         Dependencies.content := [Byte.x25; Byte.x50; Byte.x44; Byte.x46] |} ]
  = Ok [ [Byte.x25; Byte.x50; Byte.x44; Byte.x46; Byte.x2d];
         [Byte.x25; Byte.x50; Byte.x44; Byte.x46] ].
Proof.
  apply (proj2 (multiple_files_validation _ _)).
  split; [cbn; lia|]. split; [|reflexivity].
  repeat constructor.
Defined.

(** *** Extensions and base names *)

Lemma rfind_from_absent (c : ascii) (s : string) (i : Z) :
  Py.contains c s = false -> Dependencies.rfind_from c i s = -1.
Proof.
  revert i. induction s as [|a s IH]; intros i; [reflexivity|].
  cbn [Py.contains Dependencies.rfind_from]. intros Hc.
  apply orb_false_iff in Hc as [Ha Hc]. rewrite IH by assumption.
  cbn. now rewrite Ha.
Qed.

(** The last occurrence of [c] in [s ++ c ++ t], when [t] has none. *)
Lemma rfind_from_last (c : ascii) (s t : string) (i : Z) :
  0 <= i ->
  Py.contains c t = false ->
  Dependencies.rfind_from c i (s +:+ String c t) = i + Z.of_nat (String.length s).
Proof.
  intros Hi Ht. revert i Hi. induction s as [|a s IH]; intros i Hi.
  - rewrite string_app_nil_l. cbn [Dependencies.rfind_from String.length].
    rewrite rfind_from_absent by assumption. cbn. rewrite Ascii.eqb_refl. lia.
  - rewrite string_app_cons. cbn [Dependencies.rfind_from String.length].
    rewrite IH by lia.
    replace (0 <=? i + 1 + Z.of_nat (String.length s)) with true
      by (symmetry; apply Z.leb_le; lia).
    lia.
Qed.

Lemma take_str_app (s t : string) :
  Dependencies.take_str (String.length s) (s +:+ t) = s.
Proof.
  induction s as [|a s IH]; [now destruct t|].
  rewrite string_app_cons. cbn [String.length Dependencies.take_str]. now rewrite IH.
Qed.

Lemma drop_str_app (s t : string) :
  Dependencies.drop_str (String.length s) (s +:+ t) = t.
Proof.
  induction s as [|a s IH]; [now destruct t|].
  rewrite string_app_cons. cbn [String.length Dependencies.drop_str]. exact IH.
Qed.

Lemma string_app_assoc (s t u : string) : (s +:+ t) +:+ u = s +:+ (t +:+ u).
Proof.
  induction s as [|a s IH]; [reflexivity|].
  rewrite !string_app_cons. now rewrite IH.
Qed.

Lemma string_length_app (s t : string) :
  String.length (s +:+ t) = (String.length s + String.length t)%nat.
Proof.
  induction s as [|a s IH]; [reflexivity|].
  rewrite string_app_cons. cbn [String.length]. now rewrite IH.
Qed.

Lemma all_dots_nonempty (s : string) :
  Dependencies.all_dots s = false -> (0 < String.length s)%nat.
Proof. destruct s; [discriminate|cbn; lia]. Qed.

(** The index of the last slash of [dir ++ rest], [rest] having none,
    where [dir] is empty or ends with a slash: one less than the length
    of [dir]. *)
Lemma rfind_sep_dir (dir rest : string) :
  dir = EmptyString \/ (exists d, dir = d +:+ "/") ->
  Py.contains "/" rest = false ->
  Dependencies.rfind "/" (dir +:+ rest) = Z.of_nat (String.length dir) - 1.
Proof.
  intros [ -> | [d ->] ] Hrest; unfold Dependencies.rfind.
  - rewrite string_app_nil_l. now rewrite rfind_from_absent.
  - rewrite string_app_assoc. change ("/" +:+ rest)%string with (String "/" rest).
    rewrite rfind_from_last by (lia || assumption).
    rewrite string_length_app. cbn [String.length]. lia.
Qed.

Lemma splitext_shape (dir stem e : string) :
  dir = EmptyString \/ (exists d, dir = d +:+ "/") ->
  Py.contains "/" stem = false ->
  Py.contains "/" e = false ->
  Py.contains "." e = false ->
  Dependencies.splitext (dir +:+ stem +:+ String "." e)
  = if Dependencies.all_dots stem
    then (dir +:+ stem +:+ String "." e, EmptyString)
    else (dir +:+ stem, String "." e).
Proof.
  intros Hdir Hstem He_sep He_dot. unfold Dependencies.splitext.
  assert (Hsep : Dependencies.rfind "/" (dir +:+ stem +:+ String "." e)
                 = Z.of_nat (String.length dir) - 1).
  { apply rfind_sep_dir; [assumption|].
    rewrite contains_app. cbn [Py.contains]. now rewrite Hstem, He_sep. }
  assert (Hdot : Dependencies.rfind "." (dir +:+ stem +:+ String "." e)
                 = Z.of_nat (String.length dir + String.length stem)).
  { unfold Dependencies.rfind. rewrite <- string_app_assoc.
    rewrite rfind_from_last by (lia || assumption).
    rewrite string_length_app. lia. }
  cbv zeta. rewrite Hsep, Hdot.
  replace (Z.to_nat (Z.of_nat (String.length dir) - 1 + 1))
    with (String.length dir) by lia.
  replace (Z.to_nat (Z.of_nat (String.length dir + String.length stem)
                     - (Z.of_nat (String.length dir) - 1 + 1)))
    with (String.length stem) by lia.
  rewrite drop_str_app, take_str_app.
  destruct (Dependencies.all_dots stem) eqn:Hdots.
  - destruct (_ >? _); reflexivity.
  - apply all_dots_nonempty in Hdots.
    replace (Z.of_nat (String.length dir + String.length stem)
             >? Z.of_nat (String.length dir) - 1) with true
      by (symmetry; rewrite Z.gtb_ltb; apply Z.ltb_lt; lia).
    rewrite Nat2Z.id, <- string_length_app, <- string_app_assoc.
    now rewrite take_str_app, drop_str_app.
Qed.

(** X20: For a file name [dir ++ stem ++ "." ++ e], where [dir] is empty
    or ends with a slash, [stem] has no slash and [e] has neither a slash
    nor a dot, the PDF extension check passes exactly when [e] is "pdf" in
    any letter case and [stem] is not made of dots only: "report.PDF"
    passes, ".pdf" and "..pdf" do not. *)
Theorem pdf_extension_check (dir stem e : string) :
  dir = EmptyString \/ (exists d, dir = d +:+ "/") ->
  Py.contains "/" stem = false ->
  Py.contains "/" e = false ->
  Py.contains "." e = false ->
  Dependencies.validate_file_extension (dir +:+ stem +:+ String "." e)
    (Some {[ ".pdf"%string ]})
  = negb (Dependencies.all_dots stem) && String.eqb (Py.lower e) "pdf".
Proof.
  intros Hdir Hstem He_sep He_dot. unfold Dependencies.validate_file_extension.
  rewrite (bool_decide_false (({[ ".pdf"%string ]} : gset string) = ∅))
    by apply non_empty_singleton_L.
  cbv zeta. rewrite splitext_shape by assumption.
  destruct (Dependencies.all_dots stem); cbn [snd negb andb].
  - apply bool_decide_false. rewrite elem_of_singleton. discriminate.
  - cbn [Py.lower]. change (Py.lower_char ".") with "."%char.
    destruct (String.eqb_spec (Py.lower e) "pdf") as [Heq|Hne].
    + apply bool_decide_true. rewrite elem_of_singleton. now rewrite Heq.
    + apply bool_decide_false. rewrite elem_of_singleton. congruence.
Qed.

Lemma pdf_extension_check_witness :
  Dependencies.validate_file_extension "uploads/report.v2.PDF" (Some {[ ".pdf"%string ]})
  = true /\
  Dependencies.validate_file_extension ".pdf" (Some {[ ".pdf"%string ]}) = false.
Proof.
  split.
  - apply (pdf_extension_check "uploads/" "report.v2" "PDF");
      [right; exists "uploads"%string; reflexivity|reflexivity..].
  - apply (pdf_extension_check "" "" "pdf"); [left; reflexivity|reflexivity..].
Defined.

(** X21: The URL of a stored file is the fixed prefix followed by the last
    path component: the directory part of the path does not show. *)
Theorem file_url_is_base_name (dir name : string) :
  Py.contains "/" name = false ->
  Dependencies.get_file_url (dir +:+ String "/" name)
  = ("/api/v1/files/" +:+ name)%string.
Proof.
  intros Hname. unfold Dependencies.get_file_url, Dependencies.basename.
  unfold Dependencies.rfind. rewrite rfind_from_last by (lia || assumption).
  replace (Z.to_nat (0 + Z.of_nat (String.length dir) + 1))
    with (String.length (dir +:+ "/")) by (rewrite string_length_app; cbn; lia).
  replace (dir +:+ String "/" name) with ((dir +:+ "/") +:+ name)
    by (now rewrite string_app_assoc).
  now rewrite drop_str_app.
Qed.

Lemma file_url_is_base_name_witness :
  Dependencies.get_file_url "/tmp/pdf-api/merged_abc.pdf"
  = "/api/v1/files/merged_abc.pdf"%string.
Proof.
  apply (file_url_is_base_name "/tmp/pdf-api" "merged_abc.pdf"). reflexivity.
Defined.

(** ** The handlers with their metadata step *)

Lemma metadata_of_pages (doc : Pdf) :
  doc <> [] ->
  exists first,
    Handlers.get_pdf_metadata doc
    = Ok {| Handlers.pages := page_count doc; Handlers.first_page := first |}.
Proof.
  destruct doc as [|first rest]; [congruence|]. intros _. exists first.
  unfold Handlers.get_pdf_metadata, Py.getitem. cbn [length].
  replace ((0 <=? 0) && (0 <? Z.of_nat (S (length rest)))) with true
    by (symmetry; apply andb_true_iff; split; [reflexivity|apply Z.ltb_lt; lia]).
  reflexivity.
Qed.

Lemma metadata_of_empty : Handlers.get_pdf_metadata [] = Err IndexError.
Proof. reflexivity. Qed.

Lemma split_file_error (entry : Z * Pdf) (e : exn) :
  Handlers.split_file entry = Err e -> e = IndexError.
Proof.
  unfold Handlers.split_file, Handlers.get_pdf_metadata.
  destruct (Py.getitem entry.2 0) eqn:Hget; cbn [bind]; [discriminate|].
  intros [= <-]. eapply getitem_error. eassumption.
Qed.

Lemma split_files_ok (outputs : list Pdf) :
  Forall (fun d => d <> []) outputs ->
  forall (index : nat -> Z) (result_files : list Handlers.SplitFile),
    for_each
      (fun result_files entry =>
         let* file := Handlers.split_file entry in Ok (result_files ++ [file]))
      (imap (fun k d => (index k, d)) outputs) result_files
    = Ok (result_files
          ++ imap (fun k d => {| Handlers.file_pages := page_count d;
                                 Handlers.part := index k + 1 |}) outputs).
Proof.
  induction 1 as [|d outputs Hd _ IH]; intros index result_files.
  - cbn. now rewrite app_nil_r.
  - cbn [imap for_each]. unfold Handlers.split_file at 1. cbn [fst snd].
    destruct (metadata_of_pages d Hd) as [first ->]. cbn [bind Handlers.pages].
    rewrite (IH (index ∘ S)). rewrite <- app_assoc. reflexivity.
Qed.

Lemma split_files_fail (outputs : list Pdf) (result_files : list Handlers.SplitFile) :
  [] ∈ outputs ->
  for_each
    (fun result_files entry =>
       let* file := Handlers.split_file entry in Ok (result_files ++ [file]))
    (Py.enumerate outputs) result_files
  = Err IndexError.
Proof.
  intros Hin. apply list_elem_of_lookup in Hin as [k Hk].
  apply (for_each_fails _ (Z.of_nat k, [])).
  - apply enumerate_elem. exists k. split; [reflexivity|exact Hk].
  - intros s. reflexivity.
  - intros s x e. destruct (Handlers.split_file x) eqn:Hx; cbn [bind]; [discriminate|].
    intros [= <-]. eapply split_file_error. eassumption.
Qed.

(** X22: In chunks mode the handler of [split_pdf] reads the metadata of
    every output, which fails on a document without pages.  So with a
    positive chunk count it answers with the list of files (file [i]
    numbered [i + 1], with the page count of chunk [i]) when there are at
    most as many chunks as pages, and with status 500 when there are more
    chunks than pages. *)
Theorem split_handler_chunks (doc : Pdf) (pages : option string) (chunks : Z) :
  Py.truthy_str pages = false ->
  0 < chunks ->
  (chunks <= page_count doc ->
   exists files,
     Handlers.split_pdf doc pages (Some chunks) = Ok files /\
     map Handlers.file_pages files
     = map (chunk_size (page_count doc) chunks) (Py.range 0 chunks) /\
     forall (k : nat) file,
       files !! k = Some file -> Handlers.part file = Z.of_nat k + 1) /\
  (page_count doc < chunks ->
   Handlers.split_pdf doc pages (Some chunks) = Err (HTTPException 500)).
Proof.
  intros Hpages Hchunks.
  destruct (split_chunks_slices doc chunks Hchunks) as (Hrun & Hsum & Hpos).
  set (sizes := map (chunk_size (page_count doc) chunks) (Py.range 0 chunks)) in *.
  assert (Hsizes : map page_count (slices doc 0 sizes) = sizes)
    by (apply slices_sizes; (assumption || lia)).
  assert (Hroute : Routes.split_pdf_call doc pages (Some chunks) = Ok (slices doc 0 sizes)).
  { unfold Routes.split_pdf_call, PDFService.split_pdf, Py.truthy_int. rewrite Hpages.
    replace (chunks =? 0) with false by (symmetry; apply Z.eqb_neq; lia).
    exact Hrun. }
  unfold Handlers.split_pdf, Handlers.split_pdf_try. rewrite Hroute. cbn [bind].
  split.
  - intros Hfew.
    assert (Hnonempty : Forall (fun d => d <> []) (slices doc 0 sizes)).
    { apply Forall_forall. intros d Hd Hempty. subst d.
      assert (Hzero : 0 ∈ sizes).
      { rewrite <- Hsizes. apply list_elem_of_fmap. exists []. split; [reflexivity|exact Hd]. }
      unfold sizes in Hzero. apply list_elem_of_fmap in Hzero as (i & Hi & _).
      unfold chunk_size in Hi.
      assert (1 <= page_count doc / chunks) by (apply Z.div_le_lower_bound; lia).
      destruct (i <? page_count doc mod chunks); lia. }
    unfold Py.enumerate.
    rewrite (split_files_ok _ Hnonempty Z.of_nat []). cbn [app Routes.catch_all].
    eexists. split; [reflexivity|]. split.
    + etrans; [|exact Hsizes]. apply list_eq. intros k.
      change (map Handlers.file_pages ?l) with (Handlers.file_pages <$> l).
      change (map page_count ?l) with (page_count <$> l).
      rewrite !list_lookup_fmap, list_lookup_imap.
      now destruct (slices doc 0 sizes !! k).
    + intros k file. rewrite list_lookup_imap.
      destruct (slices doc 0 sizes !! k); [|discriminate].
      now intros [= <-].
  - intros Hmore.
    rewrite split_files_fail; [reflexivity|].
    assert (Hzero : 0 ∈ sizes).
    { unfold sizes. apply list_elem_of_fmap. exists (chunks - 1). split.
      - unfold chunk_size. rewrite Z.div_small, Z.mod_small
          by (unfold page_count in *; lia).
        replace (chunks - 1 <? page_count doc) with false
          by (symmetry; apply Z.ltb_ge; lia).
        reflexivity.
      - apply range_elem. lia. }
    rewrite <- Hsizes in Hzero. apply list_elem_of_fmap in Hzero as (d & Hd & Hin).
    destruct d; [exact Hin|]. unfold page_count in Hd. cbn [length] in Hd. lia.
Qed.

Lemma split_handler_chunks_witness :
  Handlers.split_pdf (sample_pdf 0 2) None (Some 3) = Err (HTTPException 500).
Proof.
  apply (proj2 (split_handler_chunks (sample_pdf 0 2) None 3 eq_refl ltac:(lia))).
  vm_compute. reflexivity.
Defined.

(** X23: In pages mode on a document with at least one page, the handler
    of [split_pdf] answers with one file, numbered 1, holding as many
    pages as the expression resolves to; when the accepted expression
    names no page of the document, the single output is empty, its
    metadata cannot be read, and the answer is status 500. *)
Theorem split_handler_pages (doc : Pdf) (pages : option string) (chunks : option Z)
    (resolved : list Z) :
  doc <> [] ->
  Py.truthy_str pages = true ->
  Py.truthy_int chunks = false ->
  PDFService.parse_page_ranges pages (page_count doc) = Ok resolved ->
  (resolved <> [] ->
   Handlers.split_pdf doc pages chunks
   = Ok [{| Handlers.file_pages := Z.of_nat (length resolved);
            Handlers.part := 1 |}]) /\
  (resolved = [] ->
   Handlers.split_pdf doc pages chunks = Err (HTTPException 500)).
Proof.
  intros Hdoc Hpages Hchunks Hparse.
  destruct (indices_have_items doc resolved) as [output Hsel].
  { apply parse_page_ranges_bounds in Hparse as [Hbound _].
    eapply Forall_impl; [exact Hbound|]. intros i Hi. cbn in Hi.
    unfold page_count in Hi. destruct doc; [congruence|]. cbn [length] in *. lia. }
  pose proof (Forall2_length _ _ _ Hsel) as Hlen.
  assert (Hroute : Routes.split_pdf_call doc pages chunks = Ok [output]).
  { unfold Routes.split_pdf_call, PDFService.split_pdf. rewrite Hpages, Hchunks.
    cbn [andb negb]. unfold PDFService.split_pages. cbv zeta.
    fold (page_count doc). rewrite Hparse. cbn [bind].
    now rewrite (write_pages_indices doc output resolved Hsel). }
  unfold Handlers.split_pdf, Handlers.split_pdf_try. rewrite Hroute. cbn [bind].
  split.
  - intros Hne.
    assert (Hout : output <> []) by (destruct output, resolved; cbn in *; congruence).
    unfold Py.enumerate.
    rewrite (split_files_ok [output] ltac:(repeat constructor; assumption) Z.of_nat []).
    cbn. unfold page_count. now rewrite <- Hlen.
  - intros ->. destruct output; [reflexivity|discriminate].
Qed.

Lemma split_handler_pages_witness :
  Handlers.split_pdf (sample_pdf 0 3) (Some "8-9"%string) None
  = Err (HTTPException 500).
Proof.
  apply (proj2 (split_handler_pages (sample_pdf 0 3) (Some "8-9"%string) None []
                  ltac:(discriminate) eq_refl eq_refl eq_refl)).
  reflexivity.
Defined.

(** X24: Whatever makes the handlers of [split_pdf] and [merge_pdfs] fail,
    the client sees status 500: the closing [except Exception] also
    catches the 400 errors raised by the handlers' own checks (both or
    neither of pages/chunks; an order list of the wrong length). *)
Theorem handler_failures_are_500 :
  (forall doc pages chunks e,
     Handlers.split_pdf doc pages chunks = Err e -> e = HTTPException 500) /\
  (forall docs order e,
     Handlers.merge_pdfs docs order = Err e -> e = HTTPException 500) /\
  (forall doc pages chunks,
     Py.truthy_str pages = Py.truthy_int chunks ->
     Handlers.split_pdf doc pages chunks = Err (HTTPException 500)) /\
  (forall docs order order_list,
     Routes.order_list_of order = Ok order_list ->
     length order_list <> length docs ->
     Handlers.merge_pdfs docs (Some order) = Err (HTTPException 500)).
Proof.
  split; [|split; [|split]].
  - intros doc pages chunks e. unfold Handlers.split_pdf, Routes.catch_all.
    destruct (Handlers.split_pdf_try doc pages chunks); [discriminate|].
    now intros [= <-].
  - intros docs order e. unfold Handlers.merge_pdfs, Routes.catch_all.
    destruct (Handlers.merge_pdfs_try docs order); [discriminate|].
    now intros [= <-].
  - intros doc pages chunks Hsame.
    unfold Handlers.split_pdf, Handlers.split_pdf_try, Routes.split_pdf_call.
    rewrite Hsame. destruct (Py.truthy_int chunks); reflexivity.
  - intros docs order order_list Hparse Hlen.
    unfold Handlers.merge_pdfs, Handlers.merge_pdfs_try.
    rewrite (merge_route_parsed docs order order_list Hparse).
    now rewrite bool_decide_true.
Qed.

Lemma handler_failures_are_500_witness :
  Handlers.split_pdf (sample_pdf 0 4) (Some "1-2"%string) (Some 2)
  = Err (HTTPException 500) /\
  Handlers.merge_pdfs [sample_pdf 0 1; sample_pdf 1 1] (Some "0"%string)
  = Err (HTTPException 500).
Proof.
  split.
  - apply (proj1 (proj2 (proj2 handler_failures_are_500))). reflexivity.
  - apply (proj2 (proj2 (proj2 handler_failures_are_500))
             [sample_pdf 0 1; sample_pdf 1 1] "0"%string [0]).
    + reflexivity.
    + discriminate.
Defined.

(** X25: Without an order, the handler of [merge_pdfs] reports the sum of
    the page counts of the uploaded documents as the page count of the
    result, provided that sum is not zero; when no document has a page,
    the metadata of the empty result cannot be read and the answer is
    status 500. *)
Theorem merge_handler_page_count (docs : list Pdf) (order : option string) :
  Py.truthy_str order = false ->
  (0 < total_size (map page_count docs) ->
   Handlers.merge_pdfs docs order = Ok (total_size (map page_count docs))) /\
  (total_size (map page_count docs) = 0 ->
   Handlers.merge_pdfs docs order = Err (HTTPException 500)).
Proof.
  intros Horder.
  assert (Hroute : Routes.merge_pdfs_call docs order = Ok (concat docs)).
  { unfold Routes.merge_pdfs_call, Routes.parse_order.
    destruct order as [[|c o]|]; try discriminate;
      cbn [bind]; unfold PDFService.merge_pdfs; cbn [bind]; apply merger_appends. }
  unfold Handlers.merge_pdfs, Handlers.merge_pdfs_try. rewrite Hroute. cbn [bind].
  rewrite <- page_count_concat. split.
  - intros Hpos.
    destruct (metadata_of_pages (concat docs)) as [first ->].
    { intros Hempty. rewrite Hempty in Hpos. unfold page_count in Hpos.
      cbn in Hpos. lia. }
    reflexivity.
  - intros Hzero. destruct (concat docs); [reflexivity|].
    unfold page_count in Hzero. cbn [length] in Hzero. lia.
Qed.

Lemma merge_handler_page_count_witness :
  Handlers.merge_pdfs [sample_pdf 0 2; sample_pdf 2 3] None
  = Ok (total_size (map page_count [sample_pdf 0 2; sample_pdf 2 3])).
Proof.
  apply (proj1 (merge_handler_page_count [sample_pdf 0 2; sample_pdf 2 3] None eq_refl)).
  vm_compute. reflexivity.
Defined.

(** ** Extracting text *)

Lemma extract_text_loop (doc : list string) (selected : list Z) (texts : list string) :
  Forall2 (item_at doc) selected texts ->
  forall (extracted_text : list Text.PageText) (word_count : Z),
    for_each
      (fun '(extracted_text, word_count) page_num =>
         let* text := Py.getitem doc page_num in
         let count := Z.of_nat (length (Text.split_words text)) in
         Ok (extracted_text
             ++ [{| Text.page := page_num + 1; Text.text := text;
                    Text.words := count |}],
             word_count + count))
      selected (extracted_text, word_count)
    = Ok (extracted_text ++ text_entries selected texts,
          word_count + total_size (map word_total texts)).
Proof.
  induction 1 as [|page_num text selected texts Hitem _ IH];
    intros extracted_text word_count.
  - cbn. now rewrite app_nil_r, Z.add_0_r.
  - cbn [for_each]. apply getitem_item_at in Hitem. rewrite Hitem. cbn [bind].
    rewrite IH. unfold text_entries. cbn [zip_with map].
    rewrite total_size_cons, <- app_assoc. cbn [app].
    change (Z.of_nat (length (Text.split_words text))) with (word_total text).
    now rewrite Z.add_assoc.
Qed.

Lemma text_entries_words (selected : list Z) (texts : list string) :
  length selected = length texts ->
  map Text.words (text_entries selected texts) = map word_total texts.
Proof.
  revert texts. induction selected as [|i selected IH]; intros [|t texts] Hlen;
    try discriminate; [reflexivity|].
  unfold text_entries in *. cbn [zip_with map]. f_equal. apply IH.
  now injection Hlen.
Qed.

(** X26: On a document with at least one page and for every page
    selection the resolver accepts, [extract_text] succeeds for every
    format name; the word count is the sum of the word counts of the
    extracted pages and the page count is the number of resolved indices,
    the same for all formats; the ["json"] result lists each page with its
    index plus one; and any format name other than "text" and "json" gives
    the Markdown result. *)
Theorem text_extraction_counts (doc : list string) (pages : option string)
    (selected : list Z) :
  doc <> [] ->
  PDFService.pages_or_all pages (Z.of_nat (length doc)) = Ok selected ->
  exists texts,
    Forall2 (item_at doc) selected texts /\
    Text.extract_text doc pages "json"
    = Ok (Text.WithPages (text_entries selected texts)
            (total_size (map Text.words (text_entries selected texts)))
            (Z.of_nat (length selected))) /\
    (forall output_format,
       exists r,
         Text.extract_text doc pages output_format = Ok r /\
         Text.word_count_of r
         = total_size (map Text.words (text_entries selected texts)) /\
         Text.page_count_of r = Z.of_nat (length selected)) /\
    (forall output_format,
       output_format <> "text"%string -> output_format <> "json"%string ->
       Text.extract_text doc pages output_format
       = Text.extract_text doc pages "markdown").
Proof.
  intros Hdoc Hsel.
  destruct (indices_have_items doc selected) as [texts Htexts].
  { apply pages_or_all_bounds in Hsel. eapply Forall_impl; [exact Hsel|].
    intros i Hi. cbn in Hi. destruct doc; [congruence|]. cbn [length] in *. lia. }
  exists texts. split; [exact Htexts|].
  rewrite (text_entries_words selected texts (Forall2_length _ _ _ Htexts)).
  assert (Hrun : forall output_format,
            Text.extract_text doc pages output_format
            = if String.eqb output_format "text" then
                Ok (Text.WithText
                      (Text.join (Text.newline +:+ Text.newline)
                         (map (fun item =>
                                 "Page " +:+ Text.str (Text.page item) +:+ ":"
                                 +:+ Text.newline +:+ Text.text item)%string
                            (text_entries selected texts)))
                      (total_size (map word_total texts))
                      (Z.of_nat (length selected)))
              else if String.eqb output_format "json" then
                Ok (Text.WithPages (text_entries selected texts)
                      (total_size (map word_total texts))
                      (Z.of_nat (length selected)))
              else
                Ok (Text.WithText
                      (Text.join (Text.newline +:+ Text.newline)
                         (map (fun item =>
                                 "## Page " +:+ Text.str (Text.page item)
                                 +:+ Text.newline +:+ Text.newline
                                 +:+ Text.text item)%string
                            (text_entries selected texts)))
                      (total_size (map word_total texts))
                      (Z.of_nat (length selected)))).
  { intros output_format. unfold Text.extract_text. cbv zeta.
    rewrite Hsel. cbn [bind].
    pose proof (extract_text_loop doc selected texts Htexts [] 0) as Hloop.
    cbv zeta in Hloop. rewrite Hloop. cbn [bind app]. reflexivity. }
  split; [|split].
  - now rewrite Hrun.
  - intros output_format. rewrite Hrun.
    destruct (String.eqb output_format "text");
      [|destruct (String.eqb output_format "json")];
      eexists; (split; [reflexivity|split; reflexivity]).
  - intros output_format Htext Hjson. rewrite !Hrun.
    apply String.eqb_neq in Htext, Hjson. rewrite Htext, Hjson. reflexivity.
Qed.

Lemma text_extraction_counts_witness :
  exists texts,
    Forall2 (item_at ["one two"; ""; " three  four five "]%string) [0; 2] texts /\
    Text.extract_text ["one two"; ""; " three  four five "]%string
      (Some "3,1"%string) "json"
    = Ok (Text.WithPages (text_entries [0; 2] texts)
            (total_size (map Text.words (text_entries [0; 2] texts)))
            (Z.of_nat (length [0; 2]))) /\
    (forall output_format,
       exists r,
         Text.extract_text ["one two"; ""; " three  four five "]%string
           (Some "3,1"%string) output_format = Ok r /\
         Text.word_count_of r
         = total_size (map Text.words (text_entries [0; 2] texts)) /\
         Text.page_count_of r = Z.of_nat (length [0; 2])) /\
    (forall output_format,
       output_format <> "text"%string -> output_format <> "json"%string ->
       Text.extract_text ["one two"; ""; " three  four five "]%string
         (Some "3,1"%string) output_format
       = Text.extract_text ["one two"; ""; " three  four five "]%string
           (Some "3,1"%string) "markdown").
Proof.
  apply (text_extraction_counts ["one two"; ""; " three  four five "]%string
           (Some "3,1"%string) [0; 2]).
  - discriminate.
  - vm_compute. reflexivity.
Defined.

(** ** Merging in a given order *)

Lemma order_list_of_nonempty (order : string) (order_list : list Z) :
  Routes.order_list_of order = Ok order_list -> order_list <> [].
Proof.
  unfold Routes.order_list_of. intros Hparse ->.
  apply comprehension_Forall2, Forall2_nil_inv_r in Hparse.
  now apply (split_nonempty "," order).
Qed.

(** X27: When the order field reads as a list that is as long as the
    number of files and every entry is a valid index into them (a negative
    entry counts from the end), the service returns the documents the
    entries select, concatenated in the sequence the list gives, with
    repetition and reordering as the list has them; and the handler of
    [merge_pdfs] reports the page count of that result, provided it has a
    page. *)
Theorem merge_in_given_order (docs selected : list Pdf) (order : string)
    (order_list : list Z) :
  Routes.order_list_of order = Ok order_list ->
  length order_list = length docs ->
  Forall2 (item_at docs) order_list selected ->
  PDFService.merge_pdfs docs (Some order_list) = Ok (concat selected) /\
  (0 < total_size (map page_count selected) ->
   Handlers.merge_pdfs docs (Some order)
   = Ok (total_size (map page_count selected))).
Proof.
  intros Hparse Hlen Hsel.
  assert (Hservice : PDFService.merge_pdfs docs (Some order_list)
                     = Ok (concat selected)).
  { apply merge_service_ordered; [|exact Hsel].
    eapply order_list_of_nonempty. exact Hparse. }
  split; [exact Hservice|]. intros Hpos.
  unfold Handlers.merge_pdfs, Handlers.merge_pdfs_try.
  rewrite (merge_route_parsed docs order order_list Hparse).
  rewrite bool_decide_false by (intros Hne; now apply Hne).
  rewrite Hservice. cbn [bind]. rewrite <- page_count_concat in *.
  destruct (metadata_of_pages (concat selected)) as [first ->]; [|reflexivity].
  intros Hempty. rewrite Hempty in Hpos. unfold page_count in Hpos.
  cbn in Hpos. lia.
Qed.

Lemma merge_in_given_order_witness :
  PDFService.merge_pdfs [sample_pdf 0 2; sample_pdf 2 1; sample_pdf 3 1]
    (Some [2; 0; -3])
  = Ok (concat [sample_pdf 3 1; sample_pdf 0 2; sample_pdf 0 2]) /\
  Handlers.merge_pdfs [sample_pdf 0 2; sample_pdf 2 1; sample_pdf 3 1]
    (Some "2, 0,-3"%string)
  = Ok (total_size
          (map page_count [sample_pdf 3 1; sample_pdf 0 2; sample_pdf 0 2])).
Proof.
  assert (Hsel : Forall2 (item_at [sample_pdf 0 2; sample_pdf 2 1; sample_pdf 3 1])
                   [2; 0; -3] [sample_pdf 3 1; sample_pdf 0 2; sample_pdf 0 2]).
  { repeat constructor; vm_compute; intuition congruence. }
  destruct (merge_in_given_order
              [sample_pdf 0 2; sample_pdf 2 1; sample_pdf 3 1]
              [sample_pdf 3 1; sample_pdf 0 2; sample_pdf 0 2]
              "2, 0,-3" [2; 0; -3] eq_refl eq_refl Hsel) as [Hservice Hhandler].
  split; [exact Hservice|]. apply Hhandler. vm_compute. reflexivity.
Defined.
